(** * Transport agent: query answering and proactive notification

    A shallow embedding of the orchestration core of the transport agent:
    [tools/eta_calculator.py], [services/fleet_service.py],
    [agent/decision_engine.py], [agent/planner_agent.py],
    [agent/executor_agent.py], [agent/supervisor_agent.py] and
    [agent/notification_agent.py], and of the tools and services that they
    call: [tools/weather.py], [tools/gps_simulator.py],
    [models/subscription.py] and [services/subscription_service.py].

    Conventions of the embedding.
    - Python objects that the code passes around as loosely typed JSON-like
      data are terms of [value].  Dictionaries are association lists in
      insertion order, looked up by their first binding.
    - Python [float]s are idealised as real numbers ([R]); rounding error,
      infinities and NaN are not represented.
    - Python [str]s are Rocq [string]s (sequences of 8-bit characters); the
      character classes of [re] and [str.lower] are the ASCII ones.
    - A computation that may raise is a term of [exc]; every [try]/[except]
      of the source is written out with [try_except] or a [match].
    - External collaborators (live position, weather provider, key-value
      cache, generative model, embedding retrieval) are fields of a [World]
      record.  Those whose answer may change from one call to the next take
      the number of the current plan step as their first argument. *)

From Stdlib Require Import ZArith Reals Lra Lia List String Ascii Bool Sorted.
From Stdlib Require Import DecimalString.
Import ListNotations.

Set Implicit Arguments.

(* ================================================================== *)
(** * Python values and exceptions *)
(* ================================================================== *)

Module Py.

Inductive exc (A : Type) : Type :=
| Ok (a : A)
| Raise (e : string).
Arguments Ok {A} a.
Arguments Raise {A} e.

Definition bind {A B : Type} (m : exc A) (k : A -> exc B) : exc B :=
  match m with
  | Ok a => k a
  | Raise e => Raise e
  end.

Definition try_except {A : Type} (body : exc A) (handler : string -> exc A) : exc A :=
  match body with
  | Ok a => Ok a
  | Raise e => handler e
  end.

#[warnings="-register-all"]
Inductive value : Type :=
| VNone
| VBool (b : bool)
| VInt (n : Z)
| VFloat (x : R)
| VStr (s : string)
| VList (l : list value)
| VDict (d : list (string * value)).

Definition dict := list (string * value).

Definition Rltb (x y : R) : bool := if Rlt_dec x y then true else false.
Definition Rleb (x y : R) : bool := if Rle_dec x y then true else false.
Definition Reqb (x y : R) : bool := if Req_dec_T x y then true else false.

(** [bool(v)] *)
Definition truthy (v : value) : bool :=
  match v with
  | VNone => false
  | VBool b => b
  | VInt n => negb (Z.eqb n 0)
  | VFloat x => negb (Reqb x 0)
  | VStr s => negb (String.eqb s EmptyString)
  | VList l => match l with [] => false | _ => true end
  | VDict d => match d with [] => false | _ => true end
  end.

(** [a or b] *)
Definition py_or (a b : value) : value := if truthy a then a else b.

Definition is_none (v : value) : bool :=
  match v with VNone => true | _ => false end.

Definition is_dict (v : value) : bool :=
  match v with VDict _ => true | _ => false end.

Definition is_str (v : value) : bool :=
  match v with VStr _ => true | _ => false end.

Definition is_list (v : value) : bool :=
  match v with VList _ => true | _ => false end.

Fixpoint lookup (d : dict) (k : string) : option value :=
  match d with
  | [] => None
  | (k', v) :: d' => if String.eqb k' k then Some v else lookup d' k
  end.

(** [d.get(k)] on a dictionary *)
Definition dict_get (d : dict) (k : string) : value :=
  match lookup d k with
  | Some v => v
  | None => VNone
  end.

(** [d.get(k, default)] on a dictionary *)
Definition dict_get_default (d : dict) (k : string) (default : value) : value :=
  match lookup d k with
  | Some v => v
  | None => default
  end.

(** [k in d] on a dictionary *)
Definition dict_mem (d : dict) (k : string) : bool :=
  match lookup d k with
  | Some _ => true
  | None => false
  end.

(** [v.get(k)]: an [AttributeError] unless [v] is a dictionary. *)
Definition py_get (v : value) (k : string) : exc value :=
  match v with
  | VDict d => Ok (dict_get d k)
  | _ => Raise "AttributeError"
  end.

(** [v.get(k, default)] *)
Definition py_get_default (v : value) (k : string) (default : value) : exc value :=
  match v with
  | VDict d => Ok (dict_get_default d k default)
  | _ => Raise "AttributeError"
  end.

(** [d.get(key)] where the key is itself a Python object: only strings can
    be bound in a JSON dictionary, lists and dictionaries are unhashable. *)
Definition dict_get_obj (d : dict) (key : value) : exc value :=
  match key with
  | VStr k => Ok (dict_get d k)
  | VList _ | VDict _ => Raise "TypeError"
  | _ => Ok VNone
  end.

(** The operand of an arithmetic operator or of [math.radians]. *)
Definition as_num (v : value) : exc R :=
  match v with
  | VInt n => Ok (IZR n)
  | VFloat x => Ok x
  | VBool b => Ok (if b then 1%R else 0%R)
  | _ => Raise "TypeError"
  end.

(** [int(x)] on a float: truncation towards zero. *)
Definition trunc (x : R) : Z :=
  if Rle_dec 0 x then Int_part x else (- Int_part (- x))%Z.

(** [max(a, b)] on floats: the first argument unless the second is greater. *)
Definition py_max (a b : R) : R := if Rlt_dec a b then b else a.

(** [math.sqrt] *)
Definition py_sqrt (x : R) : exc R :=
  if Rlt_dec x 0 then Raise "ValueError" else Ok (sqrt x).

(** [math.asin] *)
Definition py_asin (x : R) : exc R :=
  if Rlt_dec x (-1) then Raise "ValueError"
  else if Rlt_dec 1 x then Raise "ValueError"
  else Ok (asin x).

(** [x / y] on floats *)
Definition py_div (x y : R) : exc R :=
  if Req_dec_T y 0 then Raise "ZeroDivisionError" else Ok (x / y)%R.

(** [math.atan2(y, x)] *)
Definition py_atan2 (y x : R) : R :=
  if Rlt_dec 0 x then atan (y / x)
  else if Rlt_dec x 0 then
    (if Rle_dec 0 y then atan (y / x) + PI else atan (y / x) - PI)%R
  else if Rlt_dec 0 y then (PI / 2)%R
  else if Rlt_dec y 0 then (- (PI / 2))%R
  else 0%R.

(** [math.radians] *)
Definition radians (x : R) : R := (x * (PI / 180))%R.

End Py.

Export Py.

Declare Scope exc_scope.
Notation "x <- m ;; k" := (Py.bind m (fun x => k))
  (at level 61, m at next level, right associativity) : exc_scope.
Open Scope exc_scope.

(* ================================================================== *)
(** * tools/eta_calculator.py *)
(* ================================================================== *)

Module EtaCalculator.

Local Open Scope R_scope.

Definition haversine_meters (lat1 lon1 lat2 lon2 : value) : exc R :=
  let R0 := 6371000 in
  l1 <- as_num lat1 ;;
  l2 <- as_num lat2 ;;
  g1 <- as_num lon1 ;;
  g2 <- as_num lon2 ;;
  let phi1 := radians l1 in
  let phi2 := radians l2 in
  let dphi := radians (l2 - l1) in
  let dlambda := radians (g2 - g1) in
  let a := (sin (dphi / 2)) ^ 2 + cos phi1 * cos phi2 * (sin (dlambda / 2)) ^ 2 in
  s <- py_sqrt a ;;
  t <- py_asin s ;;
  Ok (2 * R0 * t).

Definition default_speed_kmph : value := VFloat 20.
Definition default_traffic_multiplier : value := VFloat 1.

(** The body of the [try] block of [calculate_eta_seconds]. *)
Definition calculate_eta_seconds_body
    (lat1 lon1 lat2 lon2 speed_kmph traffic_multiplier : value) : exc Z :=
  dist_m <- haversine_meters lat1 lon1 lat2 lon2 ;;
  v <- as_num speed_kmph ;;
  let speed_m_s := py_max (v * 1000 / 3600) (1 / 10) in
  base_seconds <- py_div dist_m speed_m_s ;;
  m <- as_num traffic_multiplier ;;
  Ok (trunc (base_seconds * m)).

Definition calculate_eta_seconds
    (lat1 lon1 lat2 lon2 speed_kmph traffic_multiplier : value) : exc Z :=
  try_except
    (calculate_eta_seconds_body lat1 lon1 lat2 lon2 speed_kmph traffic_multiplier)
    (fun _ => Ok 9999%Z).

End EtaCalculator.

(* ================================================================== *)
(** * Python strings and the regular expressions of the source *)
(* ================================================================== *)

Module Str.

Local Open Scope string_scope.
Local Open Scope N_scope.

Definition code (c : ascii) : N := N_of_ascii c.

Definition in_range (lo hi : N) (c : ascii) : bool :=
  (lo <=? code c) && (code c <=? hi).

(** [\d] *)
Definition is_digit (c : ascii) : bool := in_range 48 57 c.

Definition is_upper_c (c : ascii) : bool := in_range 65 90 c.
Definition is_lower_c (c : ascii) : bool := in_range 97 122 c.

(** [\w] *)
Definition is_word (c : ascii) : bool :=
  is_digit c || is_upper_c c || is_lower_c c || Ascii.eqb c "_".

(** [str.isspace] on one character *)
Definition is_space (c : ascii) : bool :=
  in_range 9 13 c || in_range 28 32 c.

Definition lower_c (c : ascii) : ascii :=
  if is_upper_c c then ascii_of_N (code c + 32) else c.

Definition upper_c (c : ascii) : ascii :=
  if is_lower_c c then ascii_of_N (code c - 32) else c.

Fixpoint map_chars (f : ascii -> ascii) (s : string) : string :=
  match s with
  | EmptyString => EmptyString
  | String c s' => String (f c) (map_chars f s')
  end.

(** [s.lower()] and [s.upper()] *)
Definition lower (s : string) : string := map_chars lower_c s.
Definition upper (s : string) : string := map_chars upper_c s.

Definition is_empty (s : string) : bool :=
  match s with EmptyString => true | _ => false end.

(** [s.startswith(p)] *)
Fixpoint startswith (p s : string) : bool :=
  match p, s with
  | EmptyString, _ => true
  | String a p', String b s' => Ascii.eqb a b && startswith p' s'
  | String _ _, EmptyString => false
  end.

(** [k in s] *)
Fixpoint contains (k s : string) : bool :=
  startswith k s ||
  match s with
  | EmptyString => false
  | String _ s' => contains k s'
  end.

(** [any(k in s for k in ks)] *)
Definition any_in (ks : list string) (s : string) : bool :=
  existsb (fun k => contains k s) ks.

Fixpoint lstrip (s : string) : string :=
  match s with
  | EmptyString => EmptyString
  | String c s' => if is_space c then lstrip s' else s
  end.

Fixpoint rstrip (s : string) : string :=
  match s with
  | EmptyString => EmptyString
  | String c s' =>
      let r := rstrip s' in
      if is_empty r && is_space c then EmptyString else String c r
  end.

(** [s.strip()] *)
Definition strip (s : string) : string := rstrip (lstrip s).

(** Texts made of blanks only, and texts without any blank. *)
Fixpoint all_space (t : string) : bool :=
  match t with
  | EmptyString => true
  | String c t' => is_space c && all_space t'
  end.

Fixpoint no_space (k : string) : bool :=
  match k with
  | EmptyString => true
  | String c k' => negb (is_space c) && no_space k'
  end.

(** [s.split()]: the maximal runs of non-blank characters. *)
Fixpoint split_from (cur : string) (s : string) : list string :=
  match s with
  | EmptyString => if is_empty cur then [] else [cur]
  | String c s' =>
      if is_space c
      then (if is_empty cur then split_from EmptyString s'
            else cur :: split_from EmptyString s')
      else split_from (cur ++ String c EmptyString) s'
  end.

Definition split (s : string) : list string := split_from EmptyString s.

(** [sep.join(l)] *)
Fixpoint join (sep : string) (l : list string) : string :=
  match l with
  | [] => EmptyString
  | [x] => x
  | x :: l' => x ++ sep ++ join sep l'
  end.

(** [" ".join(s.split())] *)
Definition collapse (s : string) : string := join " " (split s).

(** [str(n)] on an integer *)
Definition of_Z (n : Z) : string := NilZero.string_of_int (Z.to_int n).

(** ** Identifiers: [\b[Xx]\d+\b]

    The expression is matched by a three-state scanner.  A match can only
    start at a letter of the class that does not follow a word character;
    it takes the maximal run of digits and is accepted when that run is
    followed by a non-word character or by the end of the text.  When the
    run is followed by a letter or an underscore no shorter match exists,
    because a position between two word characters is not a boundary. *)

Inductive id_state : Type :=
| IdOutside (prev_word : bool)
| IdLetter (c : ascii)
| IdDigits (tok : string).

Definition mem_char (c : ascii) (cs : list ascii) : bool :=
  existsb (Ascii.eqb c) cs.

(** A class of letters that holds no blank. *)
Definition plain (letters : list ascii) : Prop :=
  forall c, is_space c = true -> mem_char c letters = false.

Definition id_step (letters : list ascii) (st : id_state) (c : ascii)
  : id_state * option string :=
  match st with
  | IdOutside pw =>
      if negb pw && mem_char c letters then (IdLetter c, None)
      else (IdOutside (is_word c), None)
  | IdLetter c0 =>
      if is_digit c then (IdDigits (String c0 (String c EmptyString)), None)
      else (IdOutside (is_word c), None)
  | IdDigits tok =>
      if is_digit c then (IdDigits (tok ++ String c EmptyString), None)
      else if is_word c then (IdOutside true, None)
      else (IdOutside false, Some tok)
  end.

Fixpoint id_scan (letters : list ascii) (st : id_state) (s : string) : list string :=
  match s with
  | EmptyString =>
      match st with
      | IdDigits tok => [tok]
      | _ => []
      end
  | String c s' =>
      let (st', out) := id_step letters st c in
      match out with
      | Some tok => tok :: id_scan letters st' s'
      | None => id_scan letters st' s'
      end
  end.

(** [[m.group(0) for m in re.finditer(r"\b[Xx]\d+\b", s)]] *)
Definition finditer_id (letters : list ascii) (s : string) : list string :=
  id_scan letters (IdOutside false) s.

(** [re.search(r"\b[Xx]\d+\b", s)], as the text of the match *)
Definition search_id (letters : list ascii) (s : string) : option string :=
  match finditer_id letters s with
  | [] => None
  | tok :: _ => Some tok
  end.

Definition bus_letters : list ascii := ["B"; "b"]%char.
Definition route_letters : list ascii := ["R"; "r"]%char.
Definition stop_letters : list ascii := ["S"; "s"]%char.

(** ** Numbers: [[-+]?\d*\.\d+|\d+]

    [num_state] records what the first alternative has consumed from the
    position where the current attempt started.  When the attempt fails the
    digits consumed before the point are still a match of the second
    alternative, a sign or a lone point match nothing, and the scan resumes
    at the current character. *)

Inductive num_state : Type :=
| NStart
| NSign (sg : ascii)
| NInt (sg : option ascii) (ds : string)
| NDot (sg : option ascii) (ds : string)
| NFrac (sg : option ascii) (ds : string) (es : string).

Definition is_sign (c : ascii) : bool := Ascii.eqb c "-" || Ascii.eqb c "+".
Definition is_point (c : ascii) : bool := Ascii.eqb c ".".

Definition one (c : ascii) : string := String c EmptyString.

Definition num_start (c : ascii) : num_state :=
  if is_sign c then NSign c
  else if is_digit c then NInt None (one c)
  else if is_point c then NDot None EmptyString
  else NStart.

Definition with_sign (sg : option ascii) (s : string) : string :=
  match sg with
  | Some c => String c s
  | None => s
  end.

Definition emit_digits (ds : string) : option string :=
  if is_empty ds then None else Some ds.

Definition num_step (st : num_state) (c : ascii) : num_state * option string :=
  match st with
  | NStart => (num_start c, None)
  | NSign sg =>
      if is_digit c then (NInt (Some sg) (one c), None)
      else if is_point c then (NDot (Some sg) EmptyString, None)
      else (num_start c, None)
  | NInt sg ds =>
      if is_digit c then (NInt sg (ds ++ one c), None)
      else if is_point c then (NDot sg ds, None)
      else (num_start c, emit_digits ds)
  | NDot sg ds =>
      if is_digit c then (NFrac sg ds (one c), None)
      else (num_start c, emit_digits ds)
  | NFrac sg ds es =>
      if is_digit c then (NFrac sg ds (es ++ one c), None)
      else (num_start c, Some (with_sign sg (ds ++ "." ++ es)))
  end.

Definition num_flush (st : num_state) : list string :=
  match st with
  | NStart | NSign _ => []
  | NInt _ ds | NDot _ ds => if is_empty ds then [] else [ds]
  | NFrac sg ds es => [with_sign sg (ds ++ "." ++ es)]
  end.

Fixpoint num_scan (st : num_state) (s : string) : list string :=
  match s with
  | EmptyString => num_flush st
  | String c s' =>
      let (st', out) := num_step st c in
      match out with
      | Some tok => tok :: num_scan st' s'
      | None => num_scan st' s'
      end
  end.

(** [re.findall(r"[-+]?\d*\.\d+|\d+", s)] *)
Definition findall_numbers (s : string) : list string := num_scan NStart s.

(** ** Reading numbers

    [int(s)] and [float(s)] are modelled on plain decimal literals, with an
    optional sign and surrounding blanks; the other spellings that Python
    accepts (digit separators, exponents, [inf], [nan]) are read as a
    [ValueError]. *)

Fixpoint all_digits (s : string) : bool :=
  match s with
  | EmptyString => true
  | String c s' => is_digit c && all_digits s'
  end.

Fixpoint digits_value (acc : Z) (s : string) : Z :=
  match s with
  | EmptyString => acc
  | String c s' => digits_value (acc * 10 + Z.of_N (code c - 48))%Z s'
  end.

Definition unsigned_int (s : string) : option Z :=
  if negb (is_empty s) && all_digits s then Some (digits_value 0%Z s) else None.

Definition split_sign (s : string) : bool * string :=
  match s with
  | String c s' =>
      if Ascii.eqb c "-" then (true, s')
      else if Ascii.eqb c "+" then (false, s')
      else (false, s)
  | EmptyString => (false, s)
  end.

Definition int_of_str (s : string) : exc Z :=
  let (neg, body) := split_sign (strip s) in
  match unsigned_int body with
  | Some n => Ok (if neg then (- n)%Z else n)
  | None => Raise "ValueError"
  end.

(** The text before and after the first point, if there is one. *)
Fixpoint split_point (s : string) : string * option string :=
  match s with
  | EmptyString => (EmptyString, None)
  | String c s' =>
      if is_point c then (EmptyString, Some s')
      else let (a, b) := split_point s' in (String c a, b)
  end.

Definition unsigned_float (s : string) : option R :=
  match split_point s with
  | (ip, None) =>
      match unsigned_int ip with
      | Some n => Some (IZR n)
      | None => None
      end
  | (ip, Some fp) =>
      if all_digits ip && all_digits fp && negb (is_empty ip && is_empty fp)
      then Some (IZR (digits_value 0%Z ip)
                 + IZR (digits_value 0%Z fp) / IZR (10 ^ Z.of_nat (String.length fp)))%R
      else None
  end.

Definition float_of_str (s : string) : exc R :=
  let (neg, body) := split_sign (strip s) in
  match unsigned_float body with
  | Some x => Ok (if neg then (- x)%R else x)
  | None => Raise "ValueError"
  end.

End Str.

(* ================================================================== *)
(** * Conversions and comparison of Python values *)
(* ================================================================== *)

Module Conv.

Local Open Scope string_scope.

(** The integer behind an [int] or a [bool]. *)
Definition intlike (v : value) : option Z :=
  match v with
  | VInt n => Some n
  | VBool b => Some (if b then 1%Z else 0%Z)
  | _ => None
  end.

Definition floatlike (v : value) : option R :=
  match v with
  | VFloat x => Some x
  | VInt n => Some (IZR n)
  | VBool b => Some (if b then 1%R else 0%R)
  | _ => None
  end.

(** [a == b] *)
Fixpoint py_eqb (a b : value) {struct a} : bool :=
  match a, b with
  | VNone, VNone => true
  | VStr s, VStr t => String.eqb s t
  | VList l, VList m =>
      (fix all2 (l m : list value) : bool :=
         match l, m with
         | [], [] => true
         | x :: l', y :: m' => py_eqb x y && all2 l' m'
         | _, _ => false
         end) l m
  | VDict d, VDict e =>
      Nat.eqb (List.length d) (List.length e) &&
      (fix sub (d : list (string * value)) : bool :=
         match d with
         | [] => true
         | (k, v) :: d' =>
             match lookup e k with
             | Some v' => py_eqb v v'
             | None => false
             end && sub d'
         end) d
  | (VInt _ | VBool _ | VFloat _), (VInt _ | VBool _ | VFloat _) =>
      match intlike a, intlike b with
      | Some m, Some n => Z.eqb m n
      | _, _ =>
          match floatlike a, floatlike b with
          | Some x, Some y => Reqb x y
          | _, _ => false
          end
      end
  | _, _ => false
  end.

(** [v == "literal"] *)
Definition is_text (v : value) (s : string) : bool :=
  match v with
  | VStr t => String.eqb t s
  | _ => false
  end.

(** [int(v)] *)
Definition py_int (v : value) : exc Z :=
  match v with
  | VInt n => Ok n
  | VBool b => Ok (if b then 1%Z else 0%Z)
  | VFloat x => Ok (trunc x)
  | VStr s => Str.int_of_str s
  | _ => Raise "TypeError"
  end.

(** [float(v)] *)
Definition py_float (v : value) : exc R :=
  match v with
  | VInt n => Ok (IZR n)
  | VBool b => Ok (if b then 1%R else 0%R)
  | VFloat x => Ok x
  | VStr s => Str.float_of_str s
  | _ => Raise "TypeError"
  end.

(** The integer nearest to [x], ties to the even one. *)
Definition rint (x : R) : Z :=
  let f := Int_part x in
  let r := (x - IZR f)%R in
  if Rlt_dec r (1 / 2) then f
  else if Rlt_dec (1 / 2) r then (f + 1)%Z
  else if Z.even f then f else (f + 1)%Z.

(** [round(x, n)] on a float *)
Definition py_round (x : R) (n : nat) : R :=
  (IZR (rint (x * 10 ^ n)) / 10 ^ n)%R.

(** [for x in v]: the items that the loop visits. *)
Definition py_iter (v : value) : exc (list value) :=
  match v with
  | VList l => Ok l
  | VDict d => Ok (map (fun kv => VStr (fst kv)) d)
  | VStr s => Ok (map (fun c => VStr (String c EmptyString)) (list_ascii_of_string s))
  | _ => Raise "TypeError"
  end.

(** [needle in hay] where [hay] is a string *)
Definition py_in_str (needle : value) (hay : string) : exc bool :=
  match needle with
  | VStr s => Ok (Str.contains s hay)
  | _ => Raise "TypeError"
  end.

End Conv.

Export Conv.

(* ================================================================== *)
(** * The environment of the pipeline *)
(* ================================================================== *)

(** [buses] and [routes] are the dictionaries of the [fleet_service]
    singleton and [routes_raw] the table loaded by the engine.  The other
    fields are the collaborators that the source reaches through a network
    or a library:
    - [redis_client]: whether the module-level client is set, and [redis_get]
      the decoded value of [json.loads(await redis_client.get(key))], [None]
      when the key is missing, the stored text is empty or either call
      raises (the source treats the three alike); [ask_cache_get] is the
      same for the [redis_get] helper that the planner agent reads the
      whole-answer cache with;
    - [get_bus_location]: [gps_simulator.get_bus_location];
    - [get_weather_by_coords]: [weather.get_weather_by_coords];
    - [client]: whether a generative model is configured, [llm_plan] the
      value left in [plan] after the planner call and its tolerant parsing
      ([VNone] when any of it fails), [llm_compose] the text of the composer
      reply when there is one;
    - [retrieve_with_scores] and [retrieve_context]: the embedding search;
    - [repr]: [str()] of floats and containers, whose formatting is not
      modelled. *)
Record World : Type := {
  buses : dict;
  routes : dict;
  routes_raw : dict;
  redis_client : bool;
  redis_get : nat -> string -> option value;
  ask_cache_get : string -> option value;
  get_bus_location : nat -> value -> value;
  get_weather_by_coords : nat -> value -> value -> exc value;
  client : bool;
  llm_plan : string -> list string -> value;
  llm_compose : string -> list string -> list value -> option string;
  retrieve_with_scores : string -> list (string * R);
  retrieve_context : string -> list string;
  RAG_MIN_SIM : R;
  repr : value -> string
}.

(** [str(v)], as an f-string interpolates it. *)
Definition py_str (w : World) (v : value) : string :=
  match v with
  | VStr s => s
  | VInt n => Str.of_Z n
  | VBool true => "True"
  | VBool false => "False"
  | VNone => "None"
  | _ => repr w v
  end.

(* ================================================================== *)
(** * services/fleet_service.py *)
(* ================================================================== *)

Module FleetService.

Local Open Scope string_scope.

Definition get_bus_status (w : World) (bus_id : value) : exc value :=
  bus <- dict_get_obj (buses w) bus_id ;;
  if negb (truthy bus) then Ok VNone
  else
    match bus with
    | VDict b =>
        Ok (VDict [ ("bus_id", bus_id);
                    ("status", dict_get_default b "status" (VStr "unknown"));
                    ("status_message",
                      dict_get_default b "status_message" (VStr "No status available"));
                    ("lat", dict_get b "lat");
                    ("lon", dict_get b "lon");
                    ("route_id", dict_get b "route_id");
                    ("speed_kmph", dict_get_default b "speed_kmph" (VFloat 20)) ])
    | _ => Raise "AttributeError"
    end.

Definition get_route (w : World) (route_id : value) : exc value :=
  dict_get_obj (routes w) route_id.

End FleetService.

(* ================================================================== *)
(** * agent/decision_engine.py: planner and guardrails *)
(* ================================================================== *)

Module DecisionEngine.

Local Open Scope string_scope.

Definition mk_step (tool : string) (params : dict) : value :=
  VDict [ ("tool", VStr tool); ("params", VDict params) ].

Definition opt_str (o : option string) : value :=
  match o with
  | Some s => VStr s
  | None => VNone
  end.

Definition eta_keywords : list string :=
  [ "when"; "arrive"; "eta"; "reach"; "late"; "delay" ].

Definition weather_keywords : list string :=
  [ "weather"; "rain"; "sunny"; "haze"; "temperature" ].

Definition _fallback_plan (query : string) : list value :=
  let q := Str.lower query in
  let bus_m := Str.search_id Str.bus_letters query in
  let bus_id := opt_str bus_m in
  let route_m := Str.search_id Str.route_letters query in
  let route_id := opt_str (option_map Str.upper route_m) in
  let plan1 :=
    if Str.any_in eta_keywords q
    then [ mk_step "weather" [];
           mk_step "eta" [ ("bus_id", bus_id); ("stop_id", VStr "S1") ] ]
    else [] in
  let plan2 :=
    if Str.any_in weather_keywords q
    then (if truthy bus_id
          then [ mk_step "gps" [ ("bus_id", bus_id) ]; mk_step "weather" [] ]
          else if truthy route_id
          then [ mk_step "weather" [ ("route_id", route_id) ] ]
          else [ mk_step "weather" [] ])
    else [] in
  let plan3 :=
    if Str.contains "where" q || Str.contains "location" q || Str.contains "status" q
       || (match bus_m with Some _ => true | None => false end)
    then [ mk_step "gps" [ ("bus_id", bus_id) ] ]
    else [] in
  let plan := (plan1 ++ plan2 ++ plan3)%list in
  match plan with
  | [] => [ mk_step "none" [] ]
  | _ => plan
  end.

Definition _extract_bus_id (text : string) : value :=
  opt_str (Str.search_id Str.bus_letters text).

Definition transport_keywords : list string :=
  [ "bus"; "buses"; "route"; "stop"; "station"; "eta"; "when"; "arrive";
    "reach"; "delay"; "traffic"; "driver"; "location" ].

Definition has_match (letters : list ascii) (s : string) : bool :=
  match Str.search_id letters s with
  | Some _ => true
  | None => false
  end.

Definition _is_transport_query (query : string) : bool :=
  let q := Str.lower query in
  if Str.any_in transport_keywords q then true
  else if has_match Str.bus_letters query
          || has_match Str.route_letters query
          || has_match Str.stop_letters query
  then true
  else false.

(** [sorted({...})]: insertion into a strictly increasing list. *)
Fixpoint insert_sorted (x : string) (l : list string) : list string :=
  match l with
  | [] => [x]
  | y :: l' =>
      match String.compare x y with
      | Lt => x :: l
      | Eq => l
      | Gt => y :: insert_sorted x l'
      end
  end.

Definition sorted_set (l : list string) : list string :=
  fold_right insert_sorted [] l.

Record entities : Type := {
  ent_buses : list string;
  ent_routes : list string;
  ent_stops : list string
}.

Definition _extract_entities (text : string) : entities :=
  {| ent_buses := sorted_set (map Str.upper (Str.finditer_id Str.bus_letters text));
     ent_routes := sorted_set (map Str.upper (Str.finditer_id Str.route_letters text));
     ent_stops := sorted_set (map Str.upper (Str.finditer_id Str.stop_letters text)) |}.

Definition unknown_bus_message (bus_id : string) : string :=
  "No information available: I could not find any bus with ID " ++ bus_id
  ++ " in the current fleet data.".

Definition unknown_route_message (route_id : string) : string :=
  "No information available: I could not find any route with ID " ++ route_id
  ++ " in the current fleet data.".

(** The first identifier of the list that the dictionary does not bind. *)
Fixpoint first_unknown (d : dict) (ids : list string) : option string :=
  match ids with
  | [] => None
  | x :: ids' => if negb (dict_mem d x) then Some x else first_unknown d ids'
  end.

(** The body of the [try] block of [_validate_referenced_entities]. *)
Definition validate_body (w : World) (query : string) : exc (option string) :=
  let ents := _extract_entities query in
  match first_unknown (buses w) (ent_buses ents) with
  | Some bus_id => Ok (Some (unknown_bus_message bus_id))
  | None =>
      match first_unknown (routes w) (ent_routes ents) with
      | Some route_id => Ok (Some (unknown_route_message route_id))
      | None => Ok None
      end
  end.

Definition _validate_referenced_entities (w : World) (query : string) : exc (option string) :=
  try_except (validate_body w query) (fun _ => Ok None).

(** ** Tool execution *)

(** The two variables that one execution of [ask] threads through its
    plan steps. *)
Record state : Type := {
  last_bus_loc : value;
  last_weather : value
}.

Definition initial_state : state :=
  {| last_bus_loc := VNone; last_weather := VNone |}.

(** How the [try] block of a step ends when it does not raise: a cache hit
    appends its entry and executes [continue], every other branch leaves
    [result] to the [append] at the end of the loop body. *)
Inductive flow : Type :=
| Continue (st : state) (result : value)
| Fallthrough (st : state) (result : value).

Definition error_result (msg : string) : value := VDict [ ("error", VStr msg) ].

(** [v.get(k)] when [v] has passed [isinstance(v, dict)] and a truth test. *)
Definition field_of (v : value) (k : string) : value :=
  match v with
  | VDict d => if truthy v then dict_get d k else VNone
  | _ => VNone
  end.

Definition dict_or_none (v : value) : value :=
  if is_dict v then v else VNone.

Definition gps_step (w : World) (n : nat) (user_query : string)
    (params : dict) (st : state) : exc flow :=
  let bus_id := py_or (dict_get params "bus_id") (_extract_bus_id user_query) in
  if truthy bus_id then
    let live := get_bus_location w n bus_id in
    result <-
      (if truthy live then
         match live with
         | VDict l =>
             Ok (VDict [ ("bus_id", dict_get_default l "bus_id" bus_id);
                         ("lat", dict_get l "lat");
                         ("lon", dict_get l "lon");
                         ("speed_kmph", dict_get_default l "speed_kmph" (VFloat 20)) ])
         | _ => Raise "AttributeError"
         end
       else Ok (error_result ("No GPS data for bus " ++ py_str w bus_id))) ;;
    Ok (Fallthrough {| last_bus_loc := dict_or_none result;
                       last_weather := last_weather st |} result)
  else Ok (Fallthrough st (error_result "No bus_id provided for gps tool")).

Definition weather_cache_key (w : World) (lat lon : R) : string :=
  "weather:" ++ py_str w (VFloat (py_round lat 3)) ++ ":"
  ++ py_str w (VFloat (py_round lon 3)).

Definition weather_step (w : World) (n : nat) (params : dict) (st : state) : exc flow :=
  let lat0 := dict_get params "lat" in
  let lon0 := dict_get params "lon" in
  let from_bus :=
    (is_none lat0 || is_none lon0)
    && truthy (last_bus_loc st) && is_dict (last_bus_loc st) in
  let lat := if from_bus then field_of (last_bus_loc st) "lat" else lat0 in
  let lon := if from_bus then field_of (last_bus_loc st) "lon" else lon0 in
  if negb (is_none lat) && negb (is_none lon) then
    cached <-
      (if redis_client w then
         key_lat <- py_float lat ;;
         key_lon <- py_float lon ;;
         Ok (redis_get w n (weather_cache_key w key_lat key_lon))
       else Ok None) ;;
    match cached with
    | Some result =>
        Ok (Continue {| last_bus_loc := last_bus_loc st;
                        last_weather := dict_or_none result |} result)
    | None =>
        result <- get_weather_by_coords w n lat lon ;;
        Ok (Fallthrough {| last_bus_loc := last_bus_loc st;
                           last_weather := dict_or_none result |} result)
    end
  else Ok (Fallthrough st (error_result "No coordinates available for weather tool")).

(** The first stop of the list whose [stop_id] is the one sought. *)
Fixpoint find_stop (stop_id : value) (stops : list value) : exc value :=
  match stops with
  | [] => Ok VNone
  | s :: rest =>
      sid <- py_get s "stop_id" ;;
      if py_eqb sid stop_id then Ok s else find_stop stop_id rest
  end.

(** Lookup 1 of the [eta] step: the stop on the route of the bus. *)
Definition route_stop_lookup (w : World) (bus_id stop_id : value) : exc value :=
  if truthy bus_id then
    status <- FleetService.get_bus_status w bus_id ;;
    let route_id := match status with
                    | VDict d => dict_get d "route_id"
                    | _ => VNone
                    end in
    if truthy route_id then
      route <- FleetService.get_route w route_id ;;
      stops <- py_get route "stops" ;;
      items <- py_iter (py_or stops (VList [])) ;;
      find_stop stop_id items
    else Ok VNone
  else Ok VNone.

Fixpoint scan_stops (stop_id : value) (stops : list value) : exc value :=
  match stops with
  | [] => Ok VNone
  | stop :: rest =>
      sid <- py_get stop "stop_id" ;;
      if py_eqb sid stop_id then
        lat <- py_get stop "lat" ;;
        lon <- py_get stop "lon" ;;
        if negb (is_none lat) && negb (is_none lon) then
          la <- py_float lat ;;
          lo <- py_float lon ;;
          Ok (VDict [ ("lat", VFloat la); ("lon", VFloat lo) ])
        else scan_stops stop_id rest
      else scan_stops stop_id rest
  end.

Fixpoint scan_routes (stop_id : value) (rs : dict) : exc value :=
  match rs with
  | [] => Ok VNone
  | (_, route) :: rest =>
      match route with
      | VDict r =>
          stops <- py_iter (dict_get_default r "stops" (VList [])) ;;
          found <- scan_stops stop_id stops ;;
          if is_none found then scan_routes stop_id rest else Ok found
      | _ => Raise "AttributeError"
      end
  end.

(** Lookup 2 of the [eta] step. *)
Definition _find_stop_coords (w : World) (stop_id : value) : exc value :=
  if negb (truthy stop_id) || negb (truthy (VDict (routes_raw w))) then Ok VNone
  else scan_routes stop_id (routes_raw w).

(** Lookup 3 of the [eta] step: the first two numbers of the first context
    document that mentions the stop and holds two numbers at least. *)
Fixpoint context_coords (stop_id : value) (context : list string)
  : exc (option (value * value)) :=
  match context with
  | [] => Ok None
  | d :: rest =>
      mentioned <- py_in_str stop_id d ;;
      if mentioned then
        match Str.findall_numbers d with
        | n0 :: n1 :: _ =>
            x <- Str.float_of_str n0 ;;
            y <- Str.float_of_str n1 ;;
            Ok (Some (VFloat x, VFloat y))
        | _ => context_coords stop_id rest
        end
      else context_coords stop_id rest
  end.

(** [(stop_lat, stop_lon)] after the three lookups. *)
Definition resolve_stop (w : World) (bus_id stop_id : value) (context : list string)
  : exc (value * value) :=
  route_stop <- route_stop_lookup w bus_id stop_id ;;
  p1 <- (if truthy route_stop then
           lat <- py_get route_stop "lat" ;;
           lon <- py_get route_stop "lon" ;;
           Ok (lat, lon)
         else Ok (VNone, VNone)) ;;
  p2 <- (if is_none (fst p1) then
           stop_coords <- _find_stop_coords w stop_id ;;
           if truthy stop_coords then
             lat <- py_get stop_coords "lat" ;;
             lon <- py_get stop_coords "lon" ;;
             Ok (lat, lon)
           else Ok p1
         else Ok p1) ;;
  if is_none (fst p2) && truthy stop_id then
    found <- context_coords stop_id context ;;
    match found with
    | Some p3 => Ok p3
    | None => Ok p2
    end
  else Ok p2.

(** [(bus_lat, bus_lon)]: the last known position, else a fresh lookup. *)
Definition resolve_bus (w : World) (n : nat) (bus_id : value) (st : state)
  : exc (value * value) :=
  let p := (field_of (last_bus_loc st) "lat", field_of (last_bus_loc st) "lon") in
  if (is_none (fst p) || is_none (snd p)) && truthy bus_id then
    let live := get_bus_location w n bus_id in
    if truthy live then
      lat <- py_get live "lat" ;;
      lon <- py_get live "lon" ;;
      Ok (lat, lon)
    else Ok p
  else Ok p.

Definition _haversine_km (lat1 lon1 lat2 lon2 : value) : exc R :=
  l1 <- as_num lat1 ;;
  l2 <- as_num lat2 ;;
  g1 <- as_num lon1 ;;
  g2 <- as_num lon2 ;;
  let dlat := radians (l2 - l1) in
  let dlon := radians (g2 - g1) in
  let a := ((sin (dlat / 2)) ^ 2
            + cos (radians l1) * cos (radians l2) * (sin (dlon / 2)) ^ 2)%R in
  y <- py_sqrt a ;;
  x <- py_sqrt (1 - a) ;;
  let c := (2 * py_atan2 y x)%R in
  Ok (6371 * c)%R.

(** [float(speed) if speed is not None else 25.0], 25.0 when that raises. *)
Definition speed_of (st : state) : R :=
  let speed := field_of (last_bus_loc st) "speed_kmph" in
  if is_none speed then 25%R
  else match py_float speed with
       | Ok x => x
       | Raise _ => 25%R
       end.

Definition weather_delay_of (st : state) : value :=
  if truthy (last_weather st) && is_dict (last_weather st) then
    py_or (py_or (field_of (last_weather st) "expected_delay_sec")
                 (field_of (last_weather st) "delay"))
          (VInt 0)
  else VInt 0.

Definition eta_fallback (stop_id : value) : value :=
  VDict [ ("eta_sec", VInt (20 * 60)); ("stop_id", stop_id); ("fallback", VBool true) ].

Definition eta_fallback_on_error : value :=
  VDict [ ("eta_sec", VInt (20 * 60)); ("fallback", VBool true) ].

Definition eta_cache_key (w : World) (bus_id stop_id : value) : string :=
  "eta:" ++ py_str w bus_id ++ ":" ++ py_str w stop_id.

Definition eta_bus_id (user_query : string) (params : dict) : value :=
  py_or (dict_get params "bus_id") (_extract_bus_id user_query).

Definition eta_stop_id (params : dict) : value :=
  py_or (py_or (dict_get params "stop_id") (dict_get params "stop")) (VStr "S1").

Definition eta_cached (w : World) (n : nat) (bus_id stop_id : value) : option value :=
  if redis_client w && truthy bus_id && truthy stop_id
  then redis_get w n (eta_cache_key w bus_id stop_id)
  else None.

Definition resolved (bus_id : value) (bus stop : value * value) : bool :=
  truthy bus_id
  && negb (is_none (fst bus)) && negb (is_none (snd bus))
  && negb (is_none (fst stop)) && negb (is_none (snd stop)).

(** The estimate of the [else] branch of the [eta] step: the value stored
    under ["eta_sec"] and the distance in kilometres. *)
Definition eta_estimate (bus stop : value * value) (st : state) : exc (Z * R) :=
  dist_km <- _haversine_km (fst bus) (snd bus) (fst stop) (snd stop) ;;
  let speed := speed_of st in
  eta_sec <-
    (if Rlt_dec dist_km (1 / 10) then Ok (2 * 60)%Z
     else EtaCalculator.calculate_eta_seconds
            (fst bus) (snd bus) (fst stop) (snd stop)
            (VFloat speed) EtaCalculator.default_traffic_multiplier) ;;
  weather_delay <- py_int (weather_delay_of st) ;;
  Ok ((eta_sec + weather_delay)%Z, dist_km).

(** The [eta] step after a cache miss. *)
Definition eta_compute (w : World) (n : nat) (context : list string)
    (bus_id stop_id : value) (st : state) : exc value :=
  stop <- resolve_stop w bus_id stop_id context ;;
  bus <- resolve_bus w n bus_id st ;;
  if negb (resolved bus_id bus stop) then Ok (eta_fallback stop_id)
  else
    est <- eta_estimate bus stop st ;;
    Ok (VDict [ ("eta_sec", VInt (fst est));
                ("distance_km", VFloat (py_round (snd est) 2));
                ("speed_kmph", VFloat (speed_of st));
                ("stop_id", stop_id);
                ("stop", VDict [ ("lat", fst stop); ("lon", snd stop) ]) ]).

Definition eta_step (w : World) (n : nat) (user_query : string)
    (context : list string) (params : dict) (st : state) : exc flow :=
  let bus_id := eta_bus_id user_query params in
  let stop_id := eta_stop_id params in
  match eta_cached w n bus_id stop_id with
  | Some result => Ok (Continue st result)
  | None =>
      result <- eta_compute w n context bus_id stop_id st ;;
      Ok (Fallthrough st result)
  end.

(** The [try] block of the loop body. *)
Definition run_tool (w : World) (n : nat) (user_query : string)
    (context : list string) (tool_name : value) (params : dict) (st : state)
  : exc flow :=
  if is_text tool_name "gps" then gps_step w n user_query params st
  else if is_text tool_name "weather" then weather_step w n params st
  else if is_text tool_name "eta" then eta_step w n user_query context params st
  else Ok (Fallthrough st (VDict [ ("info", VStr "no-op") ])).

(** The [except] clause of the loop body. *)
Definition on_exception (tool_name : value) (e : string) : value :=
  if is_text tool_name "eta" then eta_fallback_on_error else error_result e.

Definition entry (step result : value) : value :=
  VDict [ ("step", step); ("result", result) ].

Definition params_of (step_params : value) : dict :=
  match step_params with
  | VDict d => d
  | _ => []
  end.

(** One iteration of [for step in plan]: the entry appended to
    [tool_results] and the state left to the next step. *)
Definition run_step (w : World) (n : nat) (user_query : string)
    (context : list string) (step : value) (st : state) : exc (value * state) :=
  tool_name <- py_get step "tool" ;;
  step_params <- py_get step "params" ;;
  let params := params_of step_params in
  match run_tool w n user_query context tool_name params st with
  | Ok (Continue st' result) => Ok (entry step result, st')
  | Ok (Fallthrough st' result) => Ok (entry step result, st')
  | Raise e => Ok (entry step (on_exception tool_name e), st)
  end.

Fixpoint execute (w : World) (n : nat) (user_query : string)
    (context : list string) (plan : list value) (st : state)
    (tool_results : list value) : exc (list value) :=
  match plan with
  | [] => Ok tool_results
  | step :: rest =>
      r <- run_step w n user_query context step st ;;
      execute w (S n) user_query context rest (snd r) (tool_results ++ [fst r])%list
  end.

(** The plan step that a trace entry records. *)
Definition entry_step (e : value) : value :=
  match e with
  | VDict d => dict_get d "step"
  | _ => VNone
  end.

(** The trace that pairs each plan step with a result, in plan order. *)
Definition zip_entries (plan results : list value) : list value :=
  map (fun sr => entry (fst sr) (snd sr)) (combine plan results).

(** A result of the [eta] step that is the fixed fallback: 1200 seconds
    with the fallback marker set. *)
Definition is_fallback (result : value) : Prop :=
  exists d, result = VDict d
            /\ dict_get d "eta_sec" = VInt 1200
            /\ dict_get d "fallback" = VBool true.

(** ** Composition and the public entry point *)

Definition abstain (msg : string) : value :=
  VDict [ ("answer", VStr msg); ("tool_results", VList []); ("context", VList []) ].

Definition blank_message : string := "No information available.".

Definition out_of_domain_message : string :=
  "I am a transport assistant and only answer questions about "
  ++ "buses, routes and stops. No information is available for this question.".

Definition unreliable_message : string :=
  "I could not find reliable information for this question in my current data.".

Definition failure_message : string :=
  "Sorry, something went wrong when answering your question.".

(** [max((p[1] for p in pairs), default=0.0)] *)
Definition max_sim (pairs : list (string * R)) : R :=
  match pairs with
  | [] => 0%R
  | p :: rest => fold_left (fun best q => py_max best (snd q)) rest (snd p)
  end.

Definition nonempty {A : Type} (l : list A) : bool :=
  match l with
  | [] => false
  | _ => true
  end.

(** ["N unit" / "N units"] *)
Definition counted (n : Z) (unit : string) : string :=
  Str.of_Z n ++ " " ++ unit ++ (if Z.eqb n 1 then "" else "s").

Definition eta_text (eta_sec : Z) : string :=
  let hours := (eta_sec / 3600)%Z in
  let minutes := ((eta_sec mod 3600) / 60)%Z in
  if (0 <? hours)%Z then
    counted hours "hour"
    ++ (if Z.eqb minutes 0 then "" else " " ++ counted minutes "minute")
  else if (0 <? minutes)%Z then counted minutes "minute"
  else "a few seconds".

(** The first trace entry of an [eta] step whose result is a dictionary. *)
Fixpoint first_eta_result (tool_results : list value) : exc (option dict) :=
  match tool_results with
  | [] => Ok None
  | tr :: rest =>
      s <- py_get tr "step" ;;
      tool <- py_get (py_or s (VDict [])) "tool" ;;
      res <- py_get tr "result" ;;
      match res with
      | VDict d => if is_text tool "eta" then Ok (Some d) else first_eta_result rest
      | _ => first_eta_result rest
      end
  end.

Definition eta_of_result (eta_res : dict) : value :=
  py_or (dict_get eta_res "eta_sec") (dict_get eta_res "eta").

(** The deterministic composer. *)
Definition fallback_answer (w : World) (tool_results : list value) : exc string :=
  found <- first_eta_result tool_results ;;
  let eta_sec := match found with Some d => eta_of_result d | None => VNone end in
  let eta_stop := match found with Some d => dict_get d "stop_id" | None => VNone end in
  if is_none eta_sec then Ok blank_message
  else
    try_except
      (n <- py_int eta_sec ;;
       Ok ("The bus is expected to reach stop " ++ py_str w (py_or eta_stop (VStr ""))
           ++ " in about " ++ eta_text n ++ "."))
      (fun _ => Ok blank_message).

Definition make_plan (w : World) (user_query query : string) (context : list string) : value :=
  let plan := if client w then llm_plan w query context else VNone in
  if negb (truthy plan) then VList (_fallback_plan user_query) else plan.

Definition compose (w : World) (user_query : string) (context : list string)
    (tool_results : list value) : exc string :=
  let final_answer :=
    if client w then
      match llm_compose w user_query context tool_results with
      | Some final_text => Str.strip final_text
      | None => EmptyString
      end
    else EmptyString in
  if Str.is_empty final_answer then fallback_answer w tool_results
  else Ok final_answer.

(** The body of the outer [try] block of [ask]. *)
Definition ask_body (w : World) (user_query : string) : exc value :=
  let query := Str.strip user_query in
  if Str.is_empty query then Ok (abstain blank_message)
  else if negb (_is_transport_query query) then Ok (abstain out_of_domain_message)
  else
    invalid_reason <- _validate_referenced_entities w query ;;
    match invalid_reason with
    | Some reason => Ok (abstain reason)
    | None =>
        let pairs := retrieve_with_scores w query in
        let context_docs := map fst pairs in
        if nonempty context_docs && Rltb (max_sim pairs) (RAG_MIN_SIM w)
        then Ok (abstain unreliable_message)
        else
          let context :=
            if nonempty context_docs then context_docs else retrieve_context w query in
          steps <- py_iter (make_plan w user_query query context) ;;
          tool_results <- execute w 0 user_query context steps initial_state [] ;;
          final_answer <- compose w user_query context tool_results ;;
          Ok (VDict [ ("answer", VStr final_answer);
                      ("tool_results", VList tool_results);
                      ("context", VList (map VStr context)) ])
    end.

Definition ask (w : World) (user_query : string) : exc value :=
  try_except (ask_body w user_query) (fun _ => Ok (abstain failure_message)).

End DecisionEngine.

(* ================================================================== *)
(** * agent/planner_agent.py *)
(* ================================================================== *)

Module PlannerAgent.

Local Open Scope string_scope.

Import DecisionEngine.

(** [d[k] = v] *)
Fixpoint dict_set (d : dict) (k : string) (v : value) : dict :=
  match d with
  | [] => [ (k, v) ]
  | (k', v') :: d' =>
      if String.eqb k' k then (k, v) :: d' else (k', v') :: dict_set d' k v
  end.

Definition cache_key (query : string) : string :=
  "ask:" ++ Str.collapse (Str.lower (Str.strip query)).

Definition tool_failed (w : World) (tr : value) : exc value :=
  step <- py_get_default tr "step" (VDict []) ;;
  step_tool <- py_get step "tool" ;;
  Ok (error_result ("Tool '" ++ py_str w step_tool ++ "' failed.")).

(** [dict(tr)]; the sequences of pairs that [dict] also accepts are not
    modelled. *)
Definition dict_copy (tr : value) : exc dict :=
  match tr with
  | VDict d => Ok d
  | VList [] => Ok []
  | VStr EmptyString => Ok []
  | _ => Raise "TypeError"
  end.

Definition sanitize_entry (w : World) (tr : value) : exc value :=
  tr_copy <- dict_copy tr ;;
  let tr_result :=
    dict_get_default tr_copy "result" (dict_get_default tr_copy "output" (VDict [])) in
  match tr_result with
  | VDict r =>
      if dict_mem r "error" && dict_mem r "result" then
        if truthy (dict_get r "error") then
          summary <- tool_failed w tr ;;
          Ok (VDict (dict_set tr_copy "result" summary))
        else Ok (VDict (dict_set tr_copy "result" (dict_get r "result")))
      else if truthy (dict_get r "error") then
        summary <- tool_failed w tr ;;
        Ok (VDict (dict_set tr_copy "result" summary))
      else Ok (VDict tr_copy)
  | _ => Ok (VDict tr_copy)
  end.

Fixpoint sanitize (w : World) (tool_results : list value) : exc (list value) :=
  match tool_results with
  | [] => Ok []
  | tr :: rest =>
      tr' <- sanitize_entry w tr ;;
      rest' <- sanitize w rest ;;
      Ok (tr' :: rest')
  end.

Definition no_answer_message : string :=
  "Sorry, I could not find an answer to your question.".

(** The second [try] block of [handle_query]. *)
Definition fresh_answer (w : World) (query : string) : exc value :=
  engine_result <- ask w query ;;
  let result := match engine_result with
                | VDict d => d
                | _ => [ ("error", VStr "Invalid engine result") ]
                end in
  let tool_results := match dict_get_default result "tool_results" (VList []) with
                      | VList l => l
                      | _ => []
                      end in
  sanitized_results <- sanitize w tool_results ;;
  let answer0 := dict_get result "answer" in
  let answer1 := match answer0 with
                 | VStr s => VStr (Str.collapse s)
                 | _ => answer0
                 end in
  let answer := if truthy answer1 then answer1 else VStr no_answer_message in
  Ok (VDict (dict_set (dict_set result "tool_results" (VList sanitized_results))
                      "answer" answer)).

Definition handle_query (w : World) (query : string) : value :=
  let cached :=
    match ask_cache_get w (cache_key query) with
    | Some (VDict d) => if truthy (dict_get d "answer") then Some (VDict d) else None
    | _ => None
    end in
  match cached with
  | Some cached_obj => cached_obj
  | None =>
      match fresh_answer w query with
      | Ok result => result
      | Raise e => error_result e
      end
  end.

End PlannerAgent.

(* ================================================================== *)
(** * agent/executor_agent.py *)
(* ================================================================== *)

Module ExecutorAgent.

Local Open Scope string_scope.

Import DecisionEngine.

(** [d[k]] *)
Definition py_index (v : value) (k : string) : exc value :=
  match v with
  | VDict d =>
      match lookup d k with
      | Some x => Ok x
      | None => Raise "KeyError"
      end
  | _ => Raise "TypeError"
  end.

(** [v + 0.005] *)
Definition plus_delta (v : value) : exc value :=
  x <- as_num v ;;
  Ok (VFloat (x + 5 / 1000)).

(** The last [gps] entry already processed that has a result. *)
Fixpoint last_gps (rev_final : list value) : exc (option value) :=
  match rev_final with
  | [] => Ok None
  | prev :: rest =>
      s <- py_get_default prev "step" (VDict []) ;;
      tool <- py_get s "tool" ;;
      r <- py_get prev "result" ;;
      if is_text tool "gps" && truthy r then Ok (Some r) else last_gps rest
  end.

(** The [try] block of the loop body. *)
Definition refill (w : World) (n : nat) (final : list value) (step result : value)
  : exc value :=
  tool <- py_get step "tool" ;;
  p <- py_get step "params" ;;
  let params := py_or p (VDict []) in
  if negb (is_none result) then Ok result
  else if is_text tool "gps" then
    bus_id <- py_get params "bus_id" ;;
    if truthy bus_id then Ok (get_bus_location w n bus_id) else Ok result
  else if is_text tool "eta" then
    bus_id <- py_get params "bus_id" ;;
    stop_id <- py_get params "stop_id" ;;
    if truthy bus_id && truthy stop_id then
      let bus := get_bus_location w n bus_id in
      if truthy bus then
        lat <- py_index bus "lat" ;;
        stop_lat <- plus_delta lat ;;
        lon <- py_index bus "lon" ;;
        stop_lon <- plus_delta lon ;;
        speed <- match bus with
                 | VDict b => Ok (dict_get_default b "speed_kmph" (VInt 20))
                 | _ => Raise "AttributeError"
                 end ;;
        eta <- EtaCalculator.calculate_eta_seconds lat lon stop_lat stop_lon speed
                 EtaCalculator.default_traffic_multiplier ;;
        Ok (VDict [ ("eta_sec", VInt eta);
                    ("stop", VDict [ ("lat", stop_lat); ("lon", stop_lon) ]) ])
      else Ok result
    else Ok result
  else if is_text tool "weather" then
    lat0 <- py_get params "lat" ;;
    lon0 <- py_get params "lon" ;;
    coords <-
      (if is_none lat0 || is_none lon0 then
         found <- last_gps (rev final) ;;
         match found with
         | Some b =>
             lat <- py_get b "lat" ;;
             lon <- py_get b "lon" ;;
             Ok (lat, lon)
         | None => Ok (lat0, lon0)
         end
       else Ok (lat0, lon0)) ;;
    if negb (is_none (fst coords)) && negb (is_none (snd coords))
    then get_weather_by_coords w n (fst coords) (snd coords)
    else Ok result
  else Ok (VDict [ ("info", VStr "no-op") ]).

Fixpoint ensure_from (w : World) (n : nat) (final : list value)
    (tool_results : list value) : exc (list value) :=
  match tool_results with
  | [] => Ok final
  | tr :: rest =>
      step <- py_get_default tr "step" (VDict []) ;;
      result <- py_get tr "result" ;;
      let result' := match refill w n final step result with
                     | Ok r => r
                     | Raise e => error_result e
                     end in
      ensure_from w (S n) (final ++ [entry step result'])%list rest
  end.

(** [ensure_tool_results]; [n] numbers the first call to a collaborator. *)
Definition ensure_tool_results (w : World) (n : nat) (tool_results : list value)
  : exc (list value) :=
  ensure_from w n [] tool_results.

End ExecutorAgent.

(* ================================================================== *)
(** * agent/supervisor_agent.py *)
(* ================================================================== *)

Module SupervisorAgent.

Local Open Scope string_scope.

Import DecisionEngine.

(** [s.lower()]: an [AttributeError] unless [s] is a string. *)
Definition py_lower (v : value) : exc string :=
  match v with
  | VStr s => Ok (Str.lower s)
  | _ => Raise "AttributeError"
  end.

Definition has_eta (res : value) : bool :=
  match res with
  | VDict r => dict_mem r "eta_sec" || dict_mem r "eta"
  | _ => false
  end.

(** The loop that picks [eta_entry] and [gps_entry]: each assignment
    overwrites the previous one, so the last matching entry is kept. *)
Fixpoint scan_entries (tool_results : list value) (eta_entry gps_entry : option dict)
  : exc (option dict * option dict) :=
  match tool_results with
  | [] => Ok (eta_entry, gps_entry)
  | VDict tr :: rest =>
      match py_or (dict_get tr "step") (VDict []) with
      | VDict step =>
          tool_name <- py_lower (py_or (dict_get step "tool") (VStr "")) ;;
          let res := dict_get tr "result" in
          let eta_entry' :=
            if String.eqb tool_name "eta" && has_eta res then Some tr else eta_entry in
          let gps_entry' :=
            if String.eqb tool_name "gps" then Some tr else gps_entry in
          scan_entries rest eta_entry' gps_entry'
      | _ => scan_entries rest eta_entry gps_entry
      end
  | _ :: rest => scan_entries rest eta_entry gps_entry
  end.

Definition eta_sentence (w : World) (bus_id stop_id : value) (eta_sec_int : Z) : string :=
  "Bus " ++ py_str w bus_id ++ " is expected to reach stop " ++ py_str w stop_id
  ++ " in about " ++ eta_text eta_sec_int ++ ".".

(** The other buses of the registry that run on [main_route_id], in the
    order of the registry. *)
Fixpoint alt_buses (bs : dict) (bus_id main_route_id : value) : list string :=
  match bs with
  | [] => []
  | (other_bus_id, b) :: rest =>
      if py_eqb (VStr other_bus_id) bus_id then alt_buses rest bus_id main_route_id
      else
        match b with
        | VDict bd =>
            if py_eqb (dict_get bd "route_id") main_route_id
            then other_bus_id :: alt_buses rest bus_id main_route_id
            else alt_buses rest bus_id main_route_id
        | _ => alt_buses rest bus_id main_route_id
        end
  end.

Definition alternative_text (w : World) (alt_bus_id : string)
    (alt_route_id stop_id : value) : string :=
  " As an alternative, you could consider taking bus " ++ alt_bus_id
  ++ " on route " ++ py_str w alt_route_id ++ ", "
  ++ "which may reach stop " ++ py_str w stop_id
  ++ " earlier depending on its schedule.".

Definition faster_mode_text (w : World) (stop_id : value) : string :=
  " Since the current ETA is more than 30 minutes, you may also consider a faster mode "
  ++ "such as metro/rail or a cab for most of the journey, and then a short auto/taxi ride near stop "
  ++ py_str w stop_id ++ ".".

(** [alt_text] of the long-ETA branch. *)
Definition alt_text (w : World) (bus_id stop_id : value) : exc string :=
  main_bus_status <-
    (if is_str bus_id then FleetService.get_bus_status w bus_id else Ok VNone) ;;
  let main_route_id := match main_bus_status with
                       | VDict d => dict_get d "route_id"
                       | _ => VNone
                       end in
  let alts := if truthy main_route_id
              then alt_buses (buses w) bus_id main_route_id
              else [] in
  match alts with
  | alt_bus_id :: _ => Ok (alternative_text w alt_bus_id main_route_id stop_id)
  | [] => Ok (faster_mode_text w stop_id)
  end.

Definition eta_sec_int_of (eta_sec : value) : option Z :=
  if is_none eta_sec then None
  else match py_int eta_sec with
       | Ok n => Some n
       | Raise _ => None
       end.

Definition is_blank_answer (friendly_answer : option string) : bool :=
  match friendly_answer with
  | None => true
  | Some s => Str.is_empty s
  end.

(** The local variables of the block under [if eta_entry:]. *)
Definition eta_res_of (eta_entry : dict) : dict :=
  match py_or (dict_get eta_entry "result") (VDict []) with
  | VDict r => r
  | _ => []
  end.

Definition eta_sec_of (eta_entry : dict) : value :=
  py_or (dict_get (eta_res_of eta_entry) "eta_sec") (dict_get (eta_res_of eta_entry) "eta").

Definition params_of_entry (eta_entry : dict) : exc dict :=
  p <- py_get (py_or (dict_get eta_entry "step") (VDict [])) "params" ;;
  match py_or p (VDict []) with
  | VDict d => Ok d
  | _ => Ok []
  end.

Definition gps_bus_of (gps_entry : option dict) : value :=
  match gps_entry with
  | Some g =>
      match dict_get_default g "result" (VDict []) with
      | VDict r => if truthy (VDict g) then dict_get r "bus_id" else VNone
      | _ => VNone
      end
  | None => VNone
  end.

Definition bus_of (params : dict) (gps_entry : option dict) : value :=
  py_or (py_or (dict_get params "bus_id") (gps_bus_of gps_entry)) (VStr "the bus").

Definition stop_of (params : dict) (eta_entry : dict) : value :=
  py_or (py_or (dict_get params "stop_id") (dict_get (eta_res_of eta_entry) "stop_id"))
        (VStr "the stop").

(** [friendly_answer] once the ETA sentence is put in front of it. *)
Definition with_sentence (sentence : string) (friendly_answer : option string) : string :=
  match friendly_answer with
  | Some f =>
      if Str.is_empty f || Str.startswith "sorry" (Str.lower f)
      then sentence
      else sentence ++ " " ++ f
  | None => sentence
  end.

(** The block under [if eta_entry:]. *)
Definition with_eta (w : World) (eta_entry : dict) (gps_entry : option dict)
    (friendly_answer : option string) : exc (option string) :=
  params <- params_of_entry eta_entry ;;
  let bus_id := bus_of params gps_entry in
  let stop_id := stop_of params eta_entry in
  match eta_sec_int_of (eta_sec_of eta_entry) with
  | None => Ok friendly_answer
  | Some eta_sec_int =>
      let friendly1 :=
        with_sentence (eta_sentence w bus_id stop_id eta_sec_int) friendly_answer in
      if (30 * 60 <=? eta_sec_int)%Z then
        alt <- alt_text w bus_id stop_id ;;
        Ok (Some (friendly1 ++ alt))
      else Ok (Some friendly1)
  end.

Definition no_answer_message : string := "Sorry, I could not answer your question.".

(** [friendly_answer] before the trace is looked at. *)
Definition base_friendly (base_answer : value) : option string :=
  match base_answer with
  | VStr b => if Str.is_empty (Str.strip b) then None else Some (Str.collapse b)
  | _ => None
  end.

(** The [try] block of [handle_user_query] after the planner has
    returned [result]. *)
Definition handle_result_body (w : World) (result : value) : exc value :=
  if negb (truthy result) then Ok (error_result "Planner returned no result")
  else
    match result with
    | VDict rd =>
        if dict_mem rd "error" then Ok result
        else
          let tool_results := match dict_get_default rd "tool_results" (VList []) with
                              | VList l => l
                              | _ => []
                              end in
          executed <- ExecutorAgent.ensure_tool_results w (List.length tool_results)
                        tool_results ;;
          let friendly0 := base_friendly (dict_get rd "answer") in
          found <- scan_entries tool_results None None ;;
          friendly1 <-
            match fst found with
            | Some eta_entry => with_eta w eta_entry (snd found) friendly0
            | None => Ok friendly0
            end ;;
          let friendly2 := if is_blank_answer friendly1 then no_answer_message
                           else match friendly1 with
                                | Some f => f
                                | None => no_answer_message
                                end in
          Ok (VDict [ ("answer", VStr (Str.collapse friendly2));
                      ("plan", result);
                      ("executed", VList executed) ])
    | _ => Raise "TypeError"
    end.

Definition handle_result (w : World) (result : value) : value :=
  match handle_result_body w result with
  | Ok v => v
  | Raise e => error_result e
  end.


End SupervisorAgent.

(* ================================================================== *)
(** * agent/notification_agent.py *)
(* ================================================================== *)

Module NotificationAgent.

Local Open Scope string_scope.

Import DecisionEngine.

(** A subscription is an instance of the [Subscription] model, with its
    fields as attributes, or a plain dictionary. *)
Inductive subscription : Type :=
| SubObject (attrs : dict)
| SubDict (d : dict).

(** [getattr(sub, name, None)] *)
Definition getattr (sub : subscription) (name : string) : value :=
  match sub with
  | SubObject attrs => dict_get attrs name
  | SubDict _ => VNone
  end.

(** [sub.get(name) if isinstance(sub, dict) else default] *)
Definition get_if_dict (sub : subscription) (name : string) (default : value) : value :=
  match sub with
  | SubDict d => dict_get d name
  | SubObject _ => default
  end.

(** One call of [notification_service.notify]. *)
Record delivery : Type := {
  to_user : value;
  message : string;
  via : value
}.

Definition MAX_PER_CYCLE : nat := 20.

Definition notify_before_of (notify_before : value) : Z :=
  if is_none notify_before then 300%Z
  else match py_int notify_before with
       | Ok n => n
       | Raise _ => 300%Z
       end.

(** The value of [eta_sec] after the loop over the trace. *)
Definition extract_eta (engine_result : value) : exc value :=
  tool_results <- py_get_default engine_result "tool_results" (VList []) ;;
  trs <- py_iter tool_results ;;
  found <- first_eta_result trs ;;
  match found with
  | Some eta_res => Ok (eta_of_result eta_res)
  | None => Ok VNone
  end.

Definition arrival_message (w : World) (bus_id stop_id : value) (eta_sec : Z) : string :=
  let minutes := Z.max 1 (eta_sec / 60) in
  "Bus " ++ py_str w bus_id ++ " is expected to reach stop " ++ py_str w stop_id
  ++ " in about " ++ counted minutes "minute" ++ ".".

Definition eta_query (w : World) (bus_id stop_id : value) : string :=
  "ETA for Bus " ++ py_str w bus_id ++ " to reach stop " ++ py_str w stop_id ++ "?".

(** The [try] block of the loop body: the delivery made for this
    subscription, if any.  [engine] is [engine.ask] as it answers while this
    subscription is evaluated. *)
Definition process_one (w : World) (engine : string -> exc value)
    (sub : subscription) : exc (option delivery) :=
  let user_id := py_or (getattr sub "user_id") (get_if_dict sub "user_id" VNone) in
  let bus_id := py_or (getattr sub "bus_id") (get_if_dict sub "bus_id" VNone) in
  let stop_id := py_or (getattr sub "stop_id") (get_if_dict sub "stop_id" VNone) in
  let notify_before0 :=
    py_or (getattr sub "notify_before_sec") (get_if_dict sub "notify_before_sec" VNone) in
  let channel := py_or (getattr sub "channel") (get_if_dict sub "channel" (VStr "console")) in
  if negb (truthy user_id) || negb (truthy bus_id) || negb (truthy stop_id) then Ok None
  else
    let notify_before := notify_before_of notify_before0 in
    engine_result <- engine (eta_query w bus_id stop_id) ;;
    eta_sec0 <- extract_eta engine_result ;;
    if is_none eta_sec0 then Ok None
    else
      match py_int eta_sec0 with
      | Raise _ => Ok None
      | Ok eta_sec =>
          if (0 <=? eta_sec)%Z && (eta_sec <=? notify_before)%Z then
            Ok (Some {| to_user := user_id;
                        message := arrival_message w bus_id stop_id eta_sec;
                        via := channel |})
          else Ok None
      end.

(** The loop over the subscriptions of one cycle; [engine i] is the engine
    as it answers for the subscription of index [i]. *)
Fixpoint process_from (w : World) (engine : nat -> string -> exc value)
    (idx : nat) (subs : list subscription) : list delivery :=
  match subs with
  | [] => []
  | sub :: rest =>
      match process_one w (engine idx) sub with
      | Ok (Some d) => d :: process_from w engine (S idx) rest
      | Ok None => process_from w engine (S idx) rest
      | Raise _ => process_from w engine (S idx) rest
      end
  end.

(** The deliveries of one call of [process_subscriptions], in order. *)
Definition process_subscriptions (w : World) (engine : nat -> string -> exc value)
    (subs : list subscription) : list delivery :=
  process_from w engine 0 (firstn MAX_PER_CYCLE subs).

End NotificationAgent.

(* ================================================================== *)
(** * services/fleet_service.py: updates and overview *)
(* ================================================================== *)

Module FleetRegistry.

Local Open Scope string_scope.

(** The environment in which the bus registry is [bs]. *)
Definition with_buses (w : World) (bs : dict) : World :=
  {| buses := bs;
     routes := routes w;
     routes_raw := routes_raw w;
     redis_client := redis_client w;
     redis_get := redis_get w;
     ask_cache_get := ask_cache_get w;
     get_bus_location := get_bus_location w;
     get_weather_by_coords := get_weather_by_coords w;
     client := client w;
     llm_plan := llm_plan w;
     llm_compose := llm_compose w;
     retrieve_with_scores := retrieve_with_scores w;
     retrieve_context := retrieve_context w;
     RAG_MIN_SIM := RAG_MIN_SIM w;
     repr := repr w |}.

(** The environment in which the route table of the fleet service is [rs]. *)
Definition with_routes (w : World) (rs : dict) : World :=
  {| buses := buses w;
     routes := rs;
     routes_raw := routes_raw w;
     redis_client := redis_client w;
     redis_get := redis_get w;
     ask_cache_get := ask_cache_get w;
     get_bus_location := get_bus_location w;
     get_weather_by_coords := get_weather_by_coords w;
     client := client w;
     llm_plan := llm_plan w;
     llm_compose := llm_compose w;
     retrieve_with_scores := retrieve_with_scores w;
     retrieve_context := retrieve_context w;
     RAG_MIN_SIM := RAG_MIN_SIM w;
     repr := repr w |}.

(** [update_bus_location]: the registry after the call and the value
    returned.  The record of the bus is updated in place; a bus that is
    unknown, or whose record is empty, gets a record of its own.  An item
    assignment on anything but a dictionary is a [TypeError]. *)
Definition update_bus_location (bs : dict) (bus_id : string) (lat lon : value)
  : exc (dict * value) :=
  match py_or (dict_get bs bus_id) (VDict []) with
  | VDict b =>
      let bus := VDict (PlannerAgent.dict_set (PlannerAgent.dict_set b "lat" lat) "lon" lon) in
      Ok (PlannerAgent.dict_set bs bus_id bus, bus)
  | _ => Raise "TypeError"
  end.

(** [update_route]: the route table after the call and the value returned. *)
Definition update_route (rs : dict) (route_id : string) (new_stops : value)
  : dict * value :=
  let route := VDict [ ("stops", new_stops) ] in
  (PlannerAgent.dict_set rs route_id route, route).

Definition overview_entry (bus_id : string) (bus : dict) (route : value) : value :=
  VDict [ ("bus_id", VStr bus_id);
          ("lat", dict_get bus "lat");
          ("lon", dict_get bus "lon");
          ("route_id", dict_get bus "route_id");
          ("status", dict_get_default bus "status" (VStr "unknown"));
          ("status_message", dict_get_default bus "status_message" (VStr ""));
          ("route", route) ].

(** The loop of [fleet_overview] over the items of the registry. *)
Fixpoint overview_from (w : World) (bs : dict) : exc (list value) :=
  match bs with
  | [] => Ok []
  | (bus_id, VDict bus) :: rest =>
      let route_id := dict_get bus "route_id" in
      route <- (if truthy route_id then FleetService.get_route w route_id else Ok VNone) ;;
      overview <- overview_from w rest ;;
      Ok (overview_entry bus_id bus route :: overview)
  | _ :: rest => overview_from w rest
  end.

Definition fleet_overview (w : World) : exc (list value) :=
  overview_from w (buses w).

End FleetRegistry.

(* ================================================================== *)
(** * tools/weather.py *)
(* ================================================================== *)

Module Weather.

Local Open Scope string_scope.

(** The answer given when the provider cannot be asked or fails. *)
Definition dummy_weather : value :=
  VDict [ ("condition", VStr "unknown"); ("description", VStr "");
          ("temp", VNone); ("expected_delay_sec", VInt 0) ].

(** [_get_api_key], from the value of [settings.WEATHER_API_KEY]. *)
Definition _get_api_key (WEATHER_API_KEY : value) : value :=
  if negb (truthy WEATHER_API_KEY)
     || py_eqb WEATHER_API_KEY (VStr "change_me_to_secure_value")
  then VNone
  else WEATHER_API_KEY.

(** The first [try] block of [_normalize_weather_response]: the values of
    [condition] and [description] when it does not raise. *)
Definition read_condition (data : value) : exc (value * value) :=
  weather <- py_get data "weather" ;;
  match py_or weather (VList []) with
  | VList (first :: _) =>
      let w0 := py_or first (VDict []) in
      condition <- py_get w0 "main" ;;
      description <- py_get w0 "description" ;;
      Ok (condition, description)
  | _ => Ok (VNone, VNone)
  end.

(** The second [try] block: the value of [temp] when it does not raise. *)
Definition read_temp (data : value) : exc value :=
  main <- py_get data "main" ;;
  t <- py_get (py_or main (VDict [])) "temp" ;;
  if is_none t then Ok VNone
  else
    x <- py_float t ;;
    Ok (VFloat x).

Definition delay_keywords : list string :=
  [ "rain"; "thunder"; "storm"; "snow"; "haze"; "fog" ].

Definition severe_keywords : list string := [ "heavy"; "thunderstorm" ].

Definition expected_delay (cond_lower : string) : Z :=
  let expected_delay_sec := if Str.any_in delay_keywords cond_lower then (5 * 60)%Z else 0%Z in
  if Str.any_in severe_keywords cond_lower then (15 * 60)%Z else expected_delay_sec.

Definition _normalize_weather_response (data : value) : exc value :=
  let found := match read_condition data with
               | Ok p => p
               | Raise _ => (VNone, VNone)
               end in
  let condition := fst found in
  let description := snd found in
  let temp := match read_temp data with
              | Ok t => t
              | Raise _ => VNone
              end in
  cond_lower <- SupervisorAgent.py_lower (py_or condition (VStr "")) ;;
  Ok (VDict [ ("condition", py_or condition (VStr "unknown"));
              ("description", py_or description (VStr ""));
              ("temp", temp);
              ("expected_delay_sec", VInt (expected_delay cond_lower)) ]).

(** [get_weather_by_coords]; [provider lat lon] is the decoded body of the
    reply to the request, an exception when the request, the status check
    or the decoding raises. *)
Definition get_weather_by_coords (WEATHER_API_KEY : value)
    (provider : R -> R -> exc value) (lat lon : value) : exc value :=
  let api_key := _get_api_key WEATHER_API_KEY in
  if negb (truthy api_key) then Ok dummy_weather
  else
    la <- py_float lat ;;
    lo <- py_float lon ;;
    try_except
      (data <- provider la lo ;;
       _normalize_weather_response data)
      (fun _ => Ok dummy_weather).

(** [get_weather], the lookup by city name. *)
Definition get_weather (WEATHER_API_KEY : value)
    (provider : value -> exc value) (city : value) : exc value :=
  let api_key := _get_api_key WEATHER_API_KEY in
  if negb (truthy api_key) then Ok dummy_weather
  else
    try_except
      (data <- provider city ;;
       _normalize_weather_response data)
      (fun _ => Ok dummy_weather).

End Weather.

(* ================================================================== *)
(** * tools/gps_simulator.py *)
(* ================================================================== *)

Module GpsSimulator.

Local Open Scope string_scope.

(** Step 1 of [get_bus_location]: the position read from the body of a 200
    reply of the fleet service, when the body holds a status dictionary. *)
Definition from_service (bus_id : value) (data : value) : exc (option value) :=
  inner <- py_get data "data" ;;
  match py_or inner data with
  | VDict status =>
      Ok (Some (VDict [ ("bus_id", dict_get_default status "bus_id" bus_id);
                        ("lat", dict_get status "lat");
                        ("lon", dict_get status "lon");
                        ("speed_kmph", dict_get_default status "speed_kmph" (VFloat 20)) ]))
  | _ => Ok None
  end.

(** [d.setdefault(k, v)] *)
Definition setdefault (d : dict) (k : string) (v : value) : dict :=
  if dict_mem d k then d else PlannerAgent.dict_set d k v.

(** Step 2: the status of the in-memory registry, moved by the two draws
    of [random.uniform(-0.0005, 0.0005)]. *)
Definition from_registry (w : World) (jitter_lat jitter_lon : R) (bus_id : value)
  : exc (option value) :=
  status <- FleetService.get_bus_status w bus_id ;;
  match status with
  | VDict st =>
      let lat := dict_get st "lat" in
      let lon := dict_get st "lon" in
      let speed := dict_get_default st "speed_kmph" (VFloat 20) in
      moved <-
        (if negb (is_none lat) && negb (is_none lon) then
           la <- py_float lat ;;
           lo <- py_float lon ;;
           Ok (PlannerAgent.dict_set
                 (PlannerAgent.dict_set st "lat" (VFloat (py_round (la + jitter_lat) 6)))
                 "lon" (VFloat (py_round (lo + jitter_lon) 6)))
         else Ok st) ;;
      Ok (Some (VDict (setdefault (setdefault moved "bus_id" bus_id) "speed_kmph" speed)))
  | _ => Ok None
  end.

(** [get_bus_location]; [reply] is the decoded body of the reply of the
    fleet service when the request succeeds with status 200 and the body
    decodes, [None] otherwise. *)
Definition get_bus_location (w : World) (reply : option value)
    (jitter_lat jitter_lon : R) (bus_id : value) : value :=
  let live := match reply with
              | Some data =>
                  match from_service bus_id data with
                  | Ok found => found
                  | Raise _ => None
                  end
              | None => None
              end in
  match live with
  | Some position => position
  | None =>
      match from_registry w jitter_lat jitter_lon bus_id with
      | Ok (Some status) => status
      | _ => VNone
      end
  end.

End GpsSimulator.

(* ================================================================== *)
(** * models/subscription.py and services/subscription_service.py *)
(* ================================================================== *)

Module SubscriptionService.

Local Open Scope string_scope.

Record Policy : Type := {
  notify_once : bool;
  delay_threshold : Z
}.

Record Subscription : Type := {
  user_id : string;
  bus_id : string;
  stop_id : string;
  notify_before_sec : Z;
  policy : Policy;
  channel : option string
}.

(** [sub.dict()] *)
Definition fields (sub : Subscription) : dict :=
  [ ("user_id", VStr (user_id sub));
    ("bus_id", VStr (bus_id sub));
    ("stop_id", VStr (stop_id sub));
    ("notify_before_sec", VInt (notify_before_sec sub));
    ("policy", VDict [ ("notify_once", VBool (notify_once (policy sub)));
                       ("delay_threshold", VInt (delay_threshold (policy sub))) ]);
    ("channel", DecisionEngine.opt_str (channel sub)) ].

(** The in-memory store: the bindings of [self.subscriptions], in the
    order of insertion. *)
Definition store : Type := list (string * Subscription).

Definition key_of (user_id bus_id stop_id : string) : string :=
  user_id ++ ":" ++ bus_id ++ ":" ++ stop_id.

Fixpoint find (s : store) (key : string) : option Subscription :=
  match s with
  | [] => None
  | (k, sub) :: s' => if String.eqb k key then Some sub else find s' key
  end.

(** [del self.subscriptions[key]] *)
Fixpoint remove (s : store) (key : string) : store :=
  match s with
  | [] => []
  | (k, sub) :: s' => if String.eqb k key then s' else (k, sub) :: remove s' key
  end.

(** [add_subscription]: the store after the call and the value returned. *)
Definition add_subscription (s : store) (sub : Subscription) : store * value :=
  let key := key_of (user_id sub) (bus_id sub) (stop_id sub) in
  match find s key with
  | Some existing =>
      (s, VDict [ ("error", VStr "Subscription already exists");
                  ("status_code", VInt 409);
                  ("data", VDict (fields existing)) ])
  | None =>
      ((s ++ [ (key, sub) ])%list,
       VDict [ ("message", VStr "Subscribed successfully");
               ("subscription", VDict (fields sub));
               ("status_code", VInt 201) ])
  end.

(** [remove_subscription]: the store after the call and the value returned. *)
Definition remove_subscription (s : store) (user_id bus_id stop_id : string)
  : store * value :=
  let key := key_of user_id bus_id stop_id in
  match find s key with
  | Some _ =>
      (remove s key,
       VDict [ ("message", VStr "Unsubscribed successfully"); ("status_code", VInt 200) ])
  | None =>
      (s, VDict [ ("error", VStr "Subscription not found"); ("status_code", VInt 404) ])
  end.

Definition list_subscriptions (s : store) : list Subscription := map snd s.

(** A stored subscription as the notifier reads it: an instance of the
    model, with its fields as attributes. *)
Definition as_object (sub : Subscription) : NotificationAgent.subscription :=
  NotificationAgent.SubObject (fields sub).

End SubscriptionService.

(* ================================================================== *)
(** * Notifier cycles: what a delivery answers *)
(* ================================================================== *)

Module Cycle.

Local Open Scope string_scope.

Import NotificationAgent.

(** The delivery [d] is the one that the loop body of
    [process_subscriptions] makes for [sub]: the subscription names a user,
    a bus and a stop, one of the engine's answers to the query for that bus
    and stop gave an integer ETA between 0 and the threshold of the
    subscription, and [d] carries the arrival message for that ETA to that
    user over the channel of the subscription. *)
Definition due (w : World) (engine : nat -> string -> exc value)
    (sub : subscription) (d : delivery) : Prop :=
  let user_id := py_or (getattr sub "user_id") (get_if_dict sub "user_id" VNone) in
  let bus_id := py_or (getattr sub "bus_id") (get_if_dict sub "bus_id" VNone) in
  let stop_id := py_or (getattr sub "stop_id") (get_if_dict sub "stop_id" VNone) in
  let notify_before :=
    notify_before_of
      (py_or (getattr sub "notify_before_sec") (get_if_dict sub "notify_before_sec" VNone)) in
  let channel := py_or (getattr sub "channel") (get_if_dict sub "channel" (VStr "console")) in
  truthy user_id = true /\ truthy bus_id = true /\ truthy stop_id = true
  /\ exists idx engine_result eta_sec0 eta_sec,
       engine idx (eta_query w bus_id stop_id) = Ok engine_result
       /\ extract_eta engine_result = Ok eta_sec0
       /\ py_int eta_sec0 = Ok eta_sec
       /\ (0 <= eta_sec <= notify_before)%Z
       /\ d = {| to_user := user_id;
                 message := arrival_message w bus_id stop_id eta_sec;
                 via := channel |}.

End Cycle.

(* ================================================================== *)
(** * The specification's wording, where it differs from the code *)
(* ================================================================== *)

Module Spec.

Local Open Scope string_scope.

(** The keyword set of the domain filter as the specification lists it. *)
Definition domain_keywords : list string :=
  [ "bus"; "route"; "stop"; "eta"; "when"; "arrive"; "reach"; "delay";
    "traffic"; "driver"; "location" ].

(** The bus identifiers that a query mentions, in upper case. *)
Definition mentioned_buses (query : string) : list string :=
  map Str.upper (Str.finditer_id Str.bus_letters query).

(** The order of [sorted] on strings. *)
Definition before (x y : string) : Prop := String.compare x y = Lt.

(** The query names a bus, route or stop identifier: a letter B, R or S,
    in either case, followed by digits, as a whole word. *)
Definition names_identifier (query : string) : bool :=
  DecisionEngine.has_match Str.bus_letters query
  || DecisionEngine.has_match Str.route_letters query
  || DecisionEngine.has_match Str.stop_letters query.

End Spec.

(* ================================================================== *)
(** * The specification's notions, stated on the data *)
(* ================================================================== *)

Module Wording.

Local Open Scope string_scope.

(** A text of ASCII characters. *)
Fixpoint is_ascii (s : string) : bool :=
  match s with
  | EmptyString => true
  | String c s' => (Str.code c <? 128)%N && is_ascii s'
  end.

(** The text begins with a word character. *)
Definition starts_word (s : string) : bool :=
  match s with
  | EmptyString => false
  | String c _ => Str.is_word c
  end.

(** The text ends with a word character; [before] tells whether the
    character in front of the text is one, and decides for an empty text. *)
Fixpoint ends_word (before : bool) (s : string) : bool :=
  match s with
  | EmptyString => before
  | String c s' => ends_word (Str.is_word c) s'
  end.

(** An identifier: one of the letters followed by one digit or more. *)
Definition identifier (letters : list ascii) (tok : string) : bool :=
  match tok with
  | String c ds => Str.mem_char c letters && negb (Str.is_empty ds) && Str.all_digits ds
  | EmptyString => false
  end.

(** The identifier [tok] stands in the text as a whole word: no word
    character touches it on either side. *)
Definition occurs (letters : list ascii) (tok s : string) : Prop :=
  exists pre post,
    s = pre ++ tok ++ post
    /\ identifier letters tok = true
    /\ ends_word false pre = false
    /\ starts_word post = false.

(** The same when the character in front of the text is known to be a
    word character or not: [before] tells which. *)
Definition occurs_after (letters : list ascii) (before : bool) (tok s : string) : Prop :=
  exists pre post,
    s = pre ++ tok ++ post
    /\ identifier letters tok = true
    /\ ends_word before pre = false
    /\ starts_word post = false.

(** The text mentions the identifier [id]: an identifier stands in it as a
    whole word, and [id] is that identifier in upper case. *)
Definition mentions (letters : list ascii) (id s : string) : Prop :=
  exists tok, occurs letters tok s /\ id = Str.upper tok.

(** The query names a bus, a route or a stop. *)
Definition names_identifier (query : string) : Prop :=
  exists tok,
    occurs Str.bus_letters tok query
    \/ occurs Str.route_letters tok query
    \/ occurs Str.stop_letters tok query.

(** The keywords of the domain filter, as the amended claim lists them. *)
Definition keywords : list string :=
  [ "bus"; "buses"; "route"; "stop"; "station"; "eta"; "when"; "arrive";
    "reach"; "delay"; "traffic"; "driver"; "location" ].

(** The text [k] is a part of the text [s]. *)
Definition part_of (k s : string) : Prop := exists pre post, s = pre ++ k ++ post.

(** The query contains a keyword, whatever the case of its letters. *)
Definition has_keyword (query : string) : Prop :=
  exists k, In k keywords /\ part_of k (Str.lower query).

(** ** The trace that the supervisor reads *)

(** A trace entry the supervisor can read: a dictionary; where its step is
    a dictionary, the tool of the step is a string or is missing. *)
Definition entry_ok (v : value) : bool :=
  match v with
  | VDict tr =>
      match dict_get tr "step" with
      | VDict step =>
          match dict_get step "tool" with
          | VStr _ | VNone => true
          | _ => false
          end
      | _ => true
      end
  | _ => false
  end.

(** The entry records a step of the tool [name], whatever the case of the
    letters the step is written in. *)
Definition is_entry_of (name : string) (v : value) : bool :=
  match v with
  | VDict tr =>
      match dict_get tr "step" with
      | VDict step =>
          match dict_get step "tool" with
          | VStr t => String.eqb (Str.lower t) name
          | _ => false
          end
      | _ => false
      end
  | _ => false
  end.

(** The entry of an [eta] step whose result is a dictionary with an
    [eta_sec] or an [eta] field. *)
Definition is_eta_entry (v : value) : bool :=
  is_entry_of "eta" v
  && match v with
     | VDict tr =>
         match dict_get tr "result" with
         | VDict res => dict_mem res "eta_sec" || dict_mem res "eta"
         | _ => false
         end
     | _ => false
     end.

Definition is_gps_entry (v : value) : bool := is_entry_of "gps" v.

(** The last entry of the trace that satisfies [p]. *)
Definition last_entry (p : value -> bool) (trace : list value) : option value :=
  find p (rev trace).

Definition as_dict (v : option value) : option dict :=
  match v with
  | Some (VDict d) => Some d
  | _ => None
  end.

(** The entry found, or the one held before when none is found. *)
Definition kept (found : option value) (previous : option dict) : option dict :=
  match as_dict found with
  | Some d => Some d
  | None => previous
  end.

(** The parameters of the step of an entry. *)
Definition params_of (tr : dict) : dict :=
  match dict_get tr "step" with
  | VDict step =>
      match dict_get step "params" with
      | VDict p => p
      | _ => []
      end
  | _ => []
  end.

(** The estimate that the result [res] of an [eta] step holds: its
    [eta_sec] field, or its [eta] field when it has no [eta_sec]. *)
Definition estimate_of (res : dict) : value :=
  match lookup res "eta_sec" with
  | Some v => v
  | None => dict_get res "eta"
  end.

(** The whole seconds of a number, as [int] truncates it. *)
Definition seconds (v : value) : option Z :=
  match v with
  | VInt n => Some n
  | VFloat x => Some (trunc x)
  | _ => None
  end.

(** ** Distances on the sphere *)

(** A point is a latitude and a longitude, in degrees.  The central angle
    between two points, by the spherical law of cosines. *)
Definition central_angle (p q : R * R) : R :=
  acos (sin (radians (fst p)) * sin (radians (fst q))
        + cos (radians (fst p)) * cos (radians (fst q))
          * cos (radians (snd q - snd p)))%R.

(** The great-circle distance in kilometres, on a sphere of radius 6371. *)
Definition great_circle_km (p q : R * R) : R := (6371 * central_angle p q)%R.

(** The latitude of the point is between the poles. *)
Definition latitude (p : R * R) : Prop := (-90 <= fst p <= 90)%R.

(** The point as the pair of floats that the engine works on. *)
Definition coordinates (p : R * R) : value * value := (VFloat (fst p), VFloat (snd p)).

End Wording.

(* ================================================================== *)
(** * Small environments on which the definitions are run *)
(* ================================================================== *)

Module Examples.

Local Open Scope string_scope.

Import DecisionEngine.

Definition bus_record (route : string) (lat lon : value) : value :=
  VDict [ ("route_id", VStr route); ("lat", lat); ("lon", lon);
          ("speed_kmph", VInt 25); ("status", VStr "on_time") ].

Definition stop_record (stop_id : string) (lat lon : value) : value :=
  VDict [ ("stop_id", VStr stop_id); ("lat", lat); ("lon", lon) ].

Definition fleet_buses : dict :=
  [ ("B1", bus_record "R1" (VInt 0) (VInt 0));
    ("B2", bus_record "R1" (VInt 0) (VFloat (1 / 100)));
    ("B7", bus_record "R2" (VInt 1) (VInt 1)) ].

Definition fleet_routes : dict :=
  [ ("R1", VDict [ ("stops", VList [ stop_record "S1" (VInt 0) (VInt 0);
                                     stop_record "S2" (VInt 0) (VFloat (1 / 500));
                                     stop_record "S3" (VInt 0) (VFloat (1 / 250)) ]) ]);
    ("R2", VDict [ ("stops", VList [ stop_record "S4" (VInt 1) (VInt 1) ]) ]) ].

Definition clear_weather : value :=
  VDict [ ("condition", VStr "unknown"); ("description", VStr "");
          ("temp", VNone); ("expected_delay_sec", VInt 0) ].

Definition rain : value :=
  VDict [ ("condition", VStr "Rain"); ("description", VStr "light rain");
          ("temp", VInt 24); ("expected_delay_sec", VInt 300) ].

(** Nothing is configured and nothing is known. *)
Definition quiet : World :=
  {| buses := [];
     routes := [];
     routes_raw := [];
     redis_client := false;
     redis_get := fun _ _ => None;
     ask_cache_get := fun _ => None;
     get_bus_location := fun _ _ => VNone;
     get_weather_by_coords := fun _ _ _ => Ok clear_weather;
     client := false;
     llm_plan := fun _ _ => VNone;
     llm_compose := fun _ _ _ => None;
     retrieve_with_scores := fun _ => [];
     retrieve_context := fun _ => [];
     RAG_MIN_SIM := (35 / 100)%R;
     repr := fun _ => "?" |}.

(** The position service answers from the registry, without jitter. *)
Definition locate (bs : dict) (bus_id : value) : value :=
  match bus_id with
  | VStr b =>
      match lookup bs b with
      | Some (VDict d) =>
          VDict [ ("bus_id", bus_id); ("lat", dict_get d "lat");
                  ("lon", dict_get d "lon");
                  ("speed_kmph", dict_get_default d "speed_kmph" (VFloat 20)) ]
      | _ => VNone
      end
  | _ => VNone
  end.

(** A small fleet, no cache, no generative model. *)
Definition depot (weather : value) : World :=
  {| buses := fleet_buses;
     routes := fleet_routes;
     routes_raw := fleet_routes;
     redis_client := false;
     redis_get := fun _ _ => None;
     ask_cache_get := fun _ => None;
     get_bus_location := fun _ => locate fleet_buses;
     get_weather_by_coords := fun _ _ _ => Ok weather;
     client := false;
     llm_plan := fun _ _ => VNone;
     llm_compose := fun _ _ _ => None;
     retrieve_with_scores := fun _ => [];
     retrieve_context := fun _ => [];
     RAG_MIN_SIM := (35 / 100)%R;
     repr := fun _ => "?" |}.

Definition cached_eta (stop_id : string) (eta_sec : Z) : value :=
  VDict [ ("eta_sec", VInt eta_sec); ("distance_km", VInt 1);
          ("speed_kmph", VInt 25); ("stop_id", VStr stop_id) ].

(** The fleet with a cache that still holds estimates computed earlier and
    a generative planner that asks for both stops of the question. *)
Definition cached : World :=
  {| buses := fleet_buses;
     routes := fleet_routes;
     routes_raw := fleet_routes;
     redis_client := true;
     redis_get := fun _ key =>
       if String.eqb key "eta:B1:S9" then Some (cached_eta "S9" 300)
       else if String.eqb key "eta:B1:S1" then Some (cached_eta "S1" 2100)
       else if String.eqb key "eta:B1:S2" then Some (cached_eta "S2" 100)
       else None;
     ask_cache_get := fun _ => None;
     get_bus_location := fun _ => locate fleet_buses;
     get_weather_by_coords := fun _ _ _ => Ok clear_weather;
     client := true;
     llm_plan := fun _ _ =>
       VList [ mk_step "eta" [ ("bus_id", VStr "B1"); ("stop_id", VStr "S1") ];
               mk_step "eta" [ ("bus_id", VStr "B1"); ("stop_id", VStr "S2") ] ];
     llm_compose := fun _ _ _ => None;
     retrieve_with_scores := fun _ => [];
     retrieve_context := fun _ => [];
     RAG_MIN_SIM := (35 / 100)%R;
     repr := fun _ => "?" |}.

Definition at_stop_S1 : value :=
  mk_step "eta" [ ("bus_id", VStr "B1"); ("stop_id", VStr "S1") ].

(** A position step, a weather step, then the [eta] step for the stop
    where bus B1 stands. *)
Definition rainy_plan : list value :=
  [ mk_step "gps" [ ("bus_id", VStr "B1") ]; mk_step "weather" []; at_stop_S1 ].

(** A planner result whose only [eta] entry is 35 minutes away. *)
Definition long_trace : list value :=
  [ entry (mk_step "eta" [ ("bus_id", VStr "B1"); ("stop_id", VStr "S3") ])
          (cached_eta "S3" 2100) ].

Definition long_result : dict :=
  [ ("answer", VStr "The bus is expected to reach stop S3 in about 35 minutes.");
    ("tool_results", VList long_trace);
    ("context", VList []) ].

(** A planner result whose only [eta] entry is 10 minutes away. *)
Definition short_trace : list value :=
  [ entry (mk_step "eta" [ ("bus_id", VStr "B1"); ("stop_id", VStr "S2") ])
          (cached_eta "S2" 600) ].

Definition short_result : dict :=
  [ ("answer", VStr "The bus is expected to reach stop S2 in about 10 minutes.");
    ("tool_results", VList short_trace);
    ("context", VList []) ].

(** The fleet with a cache that holds one estimate for bus B1 and stop S1,
    and no generative model. *)
Definition timetable (eta_sec : Z) : World :=
  {| buses := fleet_buses;
     routes := fleet_routes;
     routes_raw := fleet_routes;
     redis_client := true;
     redis_get := fun _ key =>
       if String.eqb key "eta:B1:S1" then Some (cached_eta "S1" eta_sec) else None;
     ask_cache_get := fun _ => None;
     get_bus_location := fun _ => locate fleet_buses;
     get_weather_by_coords := fun _ _ _ => Ok clear_weather;
     client := false;
     llm_plan := fun _ _ => VNone;
     llm_compose := fun _ _ _ => None;
     retrieve_with_scores := fun _ => [];
     retrieve_context := fun _ => [];
     RAG_MIN_SIM := (35 / 100)%R;
     repr := fun _ => "?" |}.

(** The engine of a notifier cycle over [timetable eta_sec]. *)
Definition engine_of (eta_sec : Z) : nat -> string -> exc value :=
  fun _ => ask (timetable eta_sec).

Definition subscription_fields (notify_before_sec : value) : dict :=
  [ ("user_id", VStr "u1"); ("bus_id", VStr "B1"); ("stop_id", VStr "S1");
    ("notify_before_sec", notify_before_sec); ("channel", VStr "console") ].

(** A subscription as an instance of the model, and as a dictionary. *)
Definition subscriber (notify_before_sec : value) : NotificationAgent.subscription :=
  NotificationAgent.SubObject (subscription_fields notify_before_sec).

Definition subscriber_dict (notify_before_sec : value) : NotificationAgent.subscription :=
  NotificationAgent.SubDict (subscription_fields notify_before_sec).

(** The fleet with a retrieval that finds one document, of low
    similarity to every query. *)
Definition vague : World :=
  {| buses := fleet_buses;
     routes := fleet_routes;
     routes_raw := fleet_routes;
     redis_client := false;
     redis_get := fun _ _ => None;
     ask_cache_get := fun _ => None;
     get_bus_location := fun _ => locate fleet_buses;
     get_weather_by_coords := fun _ _ _ => Ok clear_weather;
     client := false;
     llm_plan := fun _ _ => VNone;
     llm_compose := fun _ _ _ => None;
     retrieve_with_scores :=
       fun _ => [ ("Heavy rain often causes delays on major roads.", (1 / 10)%R) ];
     retrieve_context := fun _ => [];
     RAG_MIN_SIM := (35 / 100)%R;
     repr := fun _ => "?" |}.

(** Two subscriptions that differ in every identifier and yet have the
    same key. *)
Definition commuter : SubscriptionService.Subscription :=
  {| SubscriptionService.user_id := "u1:B1";
     SubscriptionService.bus_id := "S1";
     SubscriptionService.stop_id := "S2";
     SubscriptionService.notify_before_sec := 300;
     SubscriptionService.policy :=
       {| SubscriptionService.notify_once := false;
          SubscriptionService.delay_threshold := 900 |};
     SubscriptionService.channel := Some "console" |}.

Definition namesake : SubscriptionService.Subscription :=
  {| SubscriptionService.user_id := "u1";
     SubscriptionService.bus_id := "B1:S1";
     SubscriptionService.stop_id := "S2";
     SubscriptionService.notify_before_sec := 600;
     SubscriptionService.policy :=
       {| SubscriptionService.notify_once := true;
          SubscriptionService.delay_threshold := 900 |};
     SubscriptionService.channel := Some "sms" |}.

Definition arrival (minutes : string) : NotificationAgent.delivery :=
  {| NotificationAgent.to_user := VStr "u1";
     NotificationAgent.message :=
       "Bus B1 is expected to reach stop S1 in about " ++ minutes ++ ".";
     NotificationAgent.via := VStr "console" |}.



(** The same with the stops in the other order: 35 minutes to stop S3,
    then two minutes to stop S2. *)
Definition near_last_trace : list value :=
  [ entry (mk_step "eta" [ ("bus_id", VStr "B1"); ("stop_id", VStr "S3") ])
          (cached_eta "S3" 2100);
    entry (mk_step "eta" [ ("bus_id", VStr "B1"); ("stop_id", VStr "S2") ])
          (cached_eta "S2" 120) ].

Definition near_last_result : dict :=
  [ ("answer", VStr "Stop S3 is 35 minutes away and stop S2 is two minutes away.");
    ("tool_results", VList near_last_trace);
    ("context", VList []) ].

End Examples.

(* ================================================================== *)
(** * Properties *)
(* ================================================================== *)

Unset Implicit Arguments.

Import DecisionEngine.

Local Open Scope string_scope.

(** ** Real-number facts used by the numeric claims *)

Section RealFacts.

Local Open Scope R_scope.

Lemma trunc_nonneg (x : R) : 0 <= x -> (0 <= trunc x)%Z.
Proof.
  intros Hx. unfold trunc. destruct (Rle_dec 0 x) as [_ | n]; [| contradiction].
  destruct (base_Int_part x) as [_ H].
  assert (H1 : IZR (-1) < IZR (Int_part x)) by (simpl; lra).
  apply lt_IZR in H1. lia.
Qed.

Lemma trunc_le (x : R) : 0 <= x -> IZR (trunc x) <= x.
Proof.
  intros Hx. unfold trunc. destruct (Rle_dec 0 x) as [_ | n]; [| contradiction].
  apply base_Int_part.
Qed.

Lemma trunc_monotone (x y : R) : 0 <= x -> x <= y -> (trunc x <= trunc y)%Z.
Proof.
  intros Hx Hxy. unfold trunc.
  destruct (Rle_dec 0 x) as [_ | n]; [| contradiction].
  destruct (Rle_dec 0 y) as [_ | n]; [| lra].
  destruct (base_Int_part x) as [Hx1 Hx2], (base_Int_part y) as [Hy1 Hy2].
  assert (H : IZR (Int_part x) < IZR (Int_part y + 1)).
  { rewrite plus_IZR. simpl. lra. }
  apply lt_IZR in H. lia.
Qed.

Lemma div_nonneg (x y : R) : 0 <= x -> 0 < y -> 0 <= x / y.
Proof. intros. unfold Rdiv. now apply Rle_mult_inv_pos. Qed.

Lemma atan_nonneg (x : R) : 0 <= x -> 0 <= atan x.
Proof.
  intros [Hx | Hx].
  - left. rewrite <- atan_0. now apply atan_increasing.
  - subst. rewrite atan_0. lra.
Qed.

Lemma asin_nonneg (x : R) : 0 <= x -> 0 <= asin x.
Proof.
  intros Hx. pose proof PI_RGT_0. unfold asin.
  destruct (Rle_dec x (-1)); [lra|].
  destruct (Rle_dec 1 x); [lra|].
  apply atan_nonneg.
  assert (0 < 1 - x²).
  { unfold Rsqr. nra. }
  apply div_nonneg; [lra|]. now apply sqrt_lt_R0.
Qed.

(** The divisor of [calculate_eta_seconds] is at least 0.1 m/s. *)
Lemma speed_floor (v : R) : 1 / 10 <= py_max v (1 / 10).
Proof. unfold py_max. destruct (Rlt_dec v (1 / 10)); lra. Qed.

Lemma radians_minus (x y : R) : radians (x - y) = radians x - radians y.
Proof. unfold radians. ring. Qed.

(** The haversine term lies in [[0, 1]], whatever the coordinates. *)
Lemma haversine_term_bounds (p1 p2 dl : R) :
  0 <= sin ((p2 - p1) / 2) ^ 2 + cos p1 * cos p2 * sin (dl / 2) ^ 2 <= 1.
Proof.
  set (m := (p2 - p1) / 2). set (p := (p1 + p2) / 2).
  replace p1 with (p - m) by (unfold p, m; field).
  replace p2 with (p + m) by (unfold p, m; field).
  rewrite cos_minus, cos_plus.
  pose proof (sin2_cos2 p) as Hp. pose proof (sin2_cos2 m) as Hm.
  pose proof (sin2_cos2 (dl / 2)) as Hd.
  unfold Rsqr in *.
  set (sp := sin p) in *. set (cp := cos p) in *.
  set (sm := sin m) in *. set (cm := cos m) in *.
  set (sd := sin (dl / 2)) in *. set (cd := cos (dl / 2)) in *.
  assert (H1 : (cp * cm + sp * sm) * (cp * cm - sp * sm) = 1 - sm * sm - sp * sp) by nra.
  simpl pow. rewrite !Rmult_1_r. rewrite H1.
  assert (0 <= sm * sm <= 1) by nra.
  assert (0 <= sp * sp <= 1) by nra.
  assert (0 <= sd * sd <= 1) by nra.
  split; nra.
Qed.

Lemma haversine_term_range (l1 l2 g1 g2 : R) :
  0 <= sin (radians (l2 - l1) / 2) ^ 2
       + cos (radians l1) * cos (radians l2) * sin (radians (g2 - g1) / 2) ^ 2 <= 1.
Proof. rewrite radians_minus. apply haversine_term_bounds. Qed.

(** The two spellings of the central angle agree: [asin] in
    [eta_calculator], [atan2] in the engine. *)
Lemma asin_atan2 (a : R) :
  0 <= a <= 1 -> asin (sqrt a) = py_atan2 (sqrt a) (sqrt (1 - a)).
Proof.
  intros [H0 H1]. unfold py_atan2.
  destruct (Rlt_dec 0 (sqrt (1 - a))) as [Hx | Hx].
  - assert (Ha : a < 1).
    { destruct (Rle_lt_dec 1 a) as [Hge|]; [|assumption].
      replace a with 1 in Hx by lra. replace (1 - 1) with 0 in Hx by ring.
      rewrite sqrt_0 in Hx. lra. }
    assert (Hs : sqrt a < 1).
    { rewrite <- sqrt_1. apply sqrt_lt_1; lra. }
    pose proof (sqrt_pos a).
    rewrite asin_atan by lra. now rewrite Rsqr_sqrt.
  - assert (Ha : a = 1).
    { destruct (Rle_lt_dec 1 a) as [Hge|Hlt]; [lra|].
      exfalso. apply Hx. apply sqrt_lt_R0. lra. }
    subst a. replace (1 - 1) with 0 by ring. rewrite sqrt_0, sqrt_1.
    destruct (Rlt_dec 0 0); [lra|]. destruct (Rlt_dec 0 1); [|lra]. apply asin_1.
Qed.

End RealFacts.

(** ** tools/eta_calculator.py *)

Section EtaCalculatorFacts.

Import EtaCalculator.

Local Open Scope R_scope.

Lemma haversine_meters_nonneg lat1 lon1 lat2 lon2 d :
  haversine_meters lat1 lon1 lat2 lon2 = Ok d -> 0 <= d.
Proof.
  unfold haversine_meters.
  destruct (as_num lat1) as [l1|]; [|discriminate].
  destruct (as_num lat2) as [l2|]; [|discriminate].
  destruct (as_num lon1) as [g1|]; [|discriminate].
  destruct (as_num lon2) as [g2|]; [|discriminate].
  cbn [bind]. unfold py_sqrt.
  destruct (Rlt_dec _ 0); [discriminate|]. cbn [bind].
  unfold py_asin.
  destruct (Rlt_dec _ (-1)); [discriminate|].
  destruct (Rlt_dec 1 _); [discriminate|].
  cbn [bind]. intros [= <-].
  apply Rmult_le_pos; [lra | apply asin_nonneg, sqrt_pos].
Qed.

(** On real coordinates the distance is computed without any exception. *)
Lemma haversine_meters_real (l1 g1 l2 g2 : R) :
  exists d, haversine_meters (VFloat l1) (VFloat g1) (VFloat l2) (VFloat g2) = Ok d.
Proof.
  unfold haversine_meters. cbn [as_num bind].
  pose proof (haversine_term_range l1 l2 g1 g2) as Ha.
  set (a := sin (radians (l2 - l1) / 2) ^ 2
            + cos (radians l1) * cos (radians l2) * sin (radians (g2 - g1) / 2) ^ 2) in *.
  unfold py_sqrt. destruct (Rlt_dec a 0); [lra|]. cbn [bind].
  unfold py_asin. pose proof (sqrt_pos a).
  assert (sqrt a <= 1).
  { rewrite <- sqrt_1. apply sqrt_le_1; lra. }
  destruct (Rlt_dec (sqrt a) (-1)); [lra|].
  destruct (Rlt_dec 1 (sqrt a)); [lra|]. cbn [bind]. eauto.
Qed.

Lemma body_nonneg lat1 lon1 lat2 lon2 speed n :
  calculate_eta_seconds_body lat1 lon1 lat2 lon2 speed default_traffic_multiplier = Ok n ->
  (0 <= n)%Z.
Proof.
  unfold calculate_eta_seconds_body.
  destruct (haversine_meters lat1 lon1 lat2 lon2) as [d|] eqn:Hd; [|discriminate].
  apply haversine_meters_nonneg in Hd.
  cbn [bind]. destruct (as_num speed) as [v|]; [|discriminate]. cbn [bind].
  pose proof (speed_floor (v * 1000 / 3600)) as Hs.
  unfold py_div. destruct (Req_dec_T _ 0) as [e|_]; [lra|].
  cbn [bind default_traffic_multiplier as_num]. intros [= <-].
  apply trunc_nonneg.
  rewrite Rmult_1_r. apply div_nonneg; lra.
Qed.

(** With real coordinates and a real speed the [try] block runs to its end:
    the division is by a speed of 0.1 m/s at least. *)
Lemma body_real (l1 g1 l2 g2 v : R) :
  exists n,
    calculate_eta_seconds_body (VFloat l1) (VFloat g1) (VFloat l2) (VFloat g2)
      (VFloat v) default_traffic_multiplier = Ok n.
Proof.
  unfold calculate_eta_seconds_body.
  destruct (haversine_meters_real l1 g1 l2 g2) as [d Hd]. rewrite Hd.
  cbn [bind as_num].
  pose proof (speed_floor (v * 1000 / 3600)) as Hs.
  unfold py_div. destruct (Req_dec_T _ 0) as [e|_]; [lra|].
  cbn [bind default_traffic_multiplier as_num]. eauto.
Qed.

(** C10.  [calculate_eta_seconds], called with the default traffic
    multiplier, never raises and returns a non-negative integer, whatever
    objects it is given for the coordinates and the speed (a zero or a
    negative speed included): an exception inside the [try] block yields
    9999.  With real coordinates and a real speed no exception occurs at
    all, the divisor being floored at 0.1 m/s. *)
Theorem calculate_eta_seconds_total :
  (forall lat1 lon1 lat2 lon2 speed_kmph : value,
      exists n : Z,
        calculate_eta_seconds lat1 lon1 lat2 lon2 speed_kmph default_traffic_multiplier
        = Ok n
        /\ (0 <= n)%Z
        /\ (forall e,
              calculate_eta_seconds_body lat1 lon1 lat2 lon2 speed_kmph
                default_traffic_multiplier = Raise e ->
              n = 9999%Z))
  /\ (forall l1 g1 l2 g2 v : R,
        1 / 10 <= py_max (v * 1000 / 3600) (1 / 10)
        /\ exists n : Z,
             calculate_eta_seconds_body (VFloat l1) (VFloat g1) (VFloat l2) (VFloat g2)
               (VFloat v) default_traffic_multiplier = Ok n
             /\ calculate_eta_seconds (VFloat l1) (VFloat g1) (VFloat l2) (VFloat g2)
                  (VFloat v) default_traffic_multiplier = Ok n
             /\ (0 <= n)%Z).
Proof.
  split.
  - intros lat1 lon1 lat2 lon2 speed_kmph.
    unfold calculate_eta_seconds, try_except.
    destruct (calculate_eta_seconds_body _ _ _ _ _ _) as [n|e] eqn:Hb.
    + exists n. repeat split; [eapply body_nonneg; eauto | discriminate].
    + exists 9999%Z. repeat split. lia.
  - intros l1 g1 l2 g2 v. split; [apply speed_floor|].
    destruct (body_real l1 g1 l2 g2 v) as [n Hn].
    exists n. unfold calculate_eta_seconds. rewrite Hn. cbn [try_except].
    repeat split. eapply body_nonneg; eauto.
Qed.

End EtaCalculatorFacts.

(** ** The deterministic planner *)

(** C7.  The fallback planner never returns an empty plan; when no rule
    fires the plan is the single [none] step; when the lower-cased query
    contains one of when, arrive, eta, reach, late, delay, the plan starts
    with a [weather] step without parameters followed by an [eta] step whose
    [stop_id] is "S1" and whose [bus_id] is the identifier extracted from
    the query, [None] when there is none. *)
Theorem fallback_plan_shape (query : string) :
  _fallback_plan query <> []
  /\ (Str.any_in eta_keywords (Str.lower query) = false ->
      Str.any_in weather_keywords (Str.lower query) = false ->
      Str.any_in ["where"; "location"; "status"] (Str.lower query) = false ->
      Str.search_id Str.bus_letters query = None ->
      _fallback_plan query = [ mk_step "none" [] ])
  /\ (Str.any_in eta_keywords (Str.lower query) = true ->
      exists rest,
        _fallback_plan query =
          mk_step "weather" []
          :: mk_step "eta" [ ("bus_id", _extract_bus_id query); ("stop_id", VStr "S1") ]
          :: rest).
Proof.
  unfold _fallback_plan, _extract_bus_id.
  repeat split.
  - destruct (Str.any_in eta_keywords (Str.lower query)); [discriminate|].
    destruct (Str.any_in weather_keywords (Str.lower query)).
    + destruct (truthy _); [discriminate|].
      destruct (truthy _); discriminate.
    + cbn [app].
      destruct (_ || _ || _ || _); discriminate.
  - intros He Hw Hl Hb. rewrite He, Hw, Hb.
    unfold Str.any_in in Hl. cbn [existsb] in Hl.
    rewrite orb_false_r in Hl. rewrite orb_assoc in Hl. rewrite Hl. reflexivity.
  - intros He. rewrite He. cbn [app]. eexists. reflexivity.
Qed.

Lemma fallback_plan_shape_witness :
  (exists rest,
     _fallback_plan "When will B1 reach S1?" =
       mk_step "weather" []
       :: mk_step "eta" [ ("bus_id", VStr "B1"); ("stop_id", VStr "S1") ] :: rest)
  /\ _fallback_plan "hello" = [ mk_step "none" [] ].
Proof.
  split.
  - apply (proj2 (proj2 (fallback_plan_shape "When will B1 reach S1?"))). reflexivity.
  - apply (proj1 (proj2 (fallback_plan_shape "hello"))); reflexivity.
Defined.

(** ** The execution loop *)

Lemma run_step_mapping w n uq ctx d st :
  exists result st', run_step w n uq ctx (VDict d) st = Ok (entry (VDict d) result, st').
Proof.
  unfold run_step. cbn [py_get bind].
  destruct (run_tool _ _ _ _ _ _ _) as [[st' r | st' r] | e]; eauto.
Qed.

Lemma execute_appends w uq ctx plan :
  Forall (fun step => is_dict step = true) plan ->
  forall n st acc,
  exists results,
    List.length results = List.length plan
    /\ execute w n uq ctx plan st acc = Ok (acc ++ zip_entries plan results)%list.
Proof.
  induction 1 as [| step plan Hstep _ IH]; intros n st acc.
  - exists []. split; [reflexivity|]. cbn. now rewrite app_nil_r.
  - destruct step; try discriminate.
    destruct (run_step_mapping w n uq ctx d st) as (r & st' & Hr).
    destruct (IH (S n) st' (acc ++ [entry (VDict d) r])%list) as (rs & Hlen & Hex).
    exists (r :: rs). split; [cbn; now rewrite Hlen|].
    cbn [execute]. rewrite Hr. cbn [bind fst snd]. rewrite Hex.
    unfold zip_entries. cbn. now rewrite <- app_assoc.
Qed.

Lemma entry_step_zip plan : forall results,
  List.length results = List.length plan ->
  map entry_step (zip_entries plan results) = plan.
Proof.
  induction plan as [| s plan IH]; intros [| r rs] H; try discriminate; [reflexivity|].
  cbn. f_equal. apply IH. now injection H.
Qed.

(** C9.  When every step of the plan is a mapping, the execution loop
    returns a trace (it does not raise, whatever the cache, the tools and
    the steps do) that has one entry per plan step, in plan order, each
    entry recording its own plan step. *)
Theorem trace_follows_plan w user_query context plan :
  Forall (fun step => is_dict step = true) plan ->
  exists results,
    List.length results = List.length plan
    /\ execute w 0 user_query context plan initial_state [] = Ok (zip_entries plan results)
    /\ List.length (zip_entries plan results) = List.length plan
    /\ map entry_step (zip_entries plan results) = plan.
Proof.
  intros H.
  destruct (execute_appends w user_query context plan H 0 initial_state [])
    as (rs & Hlen & Hex).
  exists rs. repeat split; auto.
  - unfold zip_entries. rewrite length_map, length_combine, Hlen. apply Nat.min_id.
  - now apply entry_step_zip.
Qed.

Lemma trace_follows_plan_witness :
  let plan := _fallback_plan "When will B1 reach S1?" in
  exists results,
    List.length results = List.length plan
    /\ execute (Examples.depot Examples.rain) 0 "When will B1 reach S1?" [] plan
         initial_state [] = Ok (zip_entries plan results)
    /\ List.length (zip_entries plan results) = List.length plan
    /\ map entry_step (zip_entries plan results) = plan.
Proof.
  apply trace_follows_plan. repeat constructor.
Defined.

(** ** Blanks, keywords and identifiers *)
Lemma is_space_lower_c c : Str.is_space (Str.lower_c c) = Str.is_space c.
Proof.
  destruct c as [[] [] [] [] [] [] [] []]; reflexivity.
Qed.

Lemma lower_lstrip s : Str.lower (Str.lstrip s) = Str.lstrip (Str.lower s).
Proof.
  induction s as [| c s IH]; [reflexivity|].
  cbn. rewrite is_space_lower_c. destruct (Str.is_space c); [exact IH | reflexivity].
Qed.

Lemma is_empty_map f s : Str.is_empty (Str.map_chars f s) = Str.is_empty s.
Proof. destruct s; reflexivity. Qed.

Lemma lower_rstrip s : Str.lower (Str.rstrip s) = Str.rstrip (Str.lower s).
Proof.
  induction s as [| c s IH]; [reflexivity|].
  cbn. unfold Str.lower in *. rewrite <- IH, is_empty_map, is_space_lower_c.
  destruct (Str.is_empty (Str.rstrip s) && Str.is_space c); reflexivity.
Qed.

Lemma lower_strip s : Str.lower (Str.strip s) = Str.strip (Str.lower s).
Proof. unfold Str.strip. now rewrite lower_rstrip, lower_lstrip. Qed.

Lemma lstrip_split s : exists t, Str.all_space t = true /\ s = t ++ Str.lstrip s.
Proof.
  induction s as [| c s (t & Ht & Hs)]; [exists ""; auto|].
  cbn. destruct (Str.is_space c) eqn:Hc.
  - exists (String c t). cbn. rewrite Hc, Ht. split; [reflexivity | now f_equal].
  - exists "". auto.
Qed.

Lemma rstrip_split s : exists t, Str.all_space t = true /\ s = Str.rstrip s ++ t.
Proof.
  induction s as [| c s (t & Ht & Hs)]; [exists ""; auto|].
  cbn. destruct (Str.is_empty (Str.rstrip s)) eqn:He; cbn [andb].
  - destruct (Str.is_space c) eqn:Hc.
    + exists (String c s). split; [|reflexivity].
      destruct (Str.rstrip s); [|discriminate]. cbn in Hs. subst s. cbn. now rewrite Hc, Ht.
    + exists t. split; [assumption|]. cbn. now f_equal.
  - exists t. split; [assumption|]. cbn. now f_equal.
Qed.

Lemma startswith_blank k t :
  Str.is_empty k = false -> Str.no_space k = true -> Str.all_space t = true ->
  Str.startswith k t = false.
Proof.
  destruct k as [| a k]; [discriminate|]. intros _ Hk Ht.
  destruct t as [| b t]; [reflexivity|]. cbn in *.
  destruct (Ascii.eqb a b) eqn:Hab; [|reflexivity].
  apply Ascii.eqb_eq in Hab. subst b.
  destruct (Str.is_space a); discriminate.
Qed.

Lemma contains_blank k t :
  Str.is_empty k = false -> Str.no_space k = true -> Str.all_space t = true ->
  Str.contains k t = false.
Proof.
  intros Hne Hk. induction t as [| c t IH]; intros Ht.
  - cbn. rewrite (startswith_blank k "") by auto. reflexivity.
  - cbn [Str.contains]. rewrite startswith_blank by auto.
    cbn in Ht. apply andb_true_iff in Ht as [_ Ht]. now rewrite IH.
Qed.

Lemma contains_skip_blank k t s :
  Str.is_empty k = false -> Str.no_space k = true -> Str.all_space t = true ->
  Str.contains k (t ++ s) = Str.contains k s.
Proof.
  intros Hne Hk. induction t as [| c t IH]; intros Ht; [reflexivity|].
  cbn in Ht. apply andb_true_iff in Ht as [Hc Ht].
  cbn [append Str.contains]. rewrite IH by assumption.
  destruct k as [| a k]; [discriminate|]. cbn.
  destruct (Ascii.eqb a c) eqn:Hac; [|reflexivity].
  apply Ascii.eqb_eq in Hac. subst. cbn in Hk. rewrite Hc in Hk. discriminate.
Qed.

Lemma startswith_drop_blank k : forall p t,
  Str.no_space k = true -> Str.all_space t = true ->
  Str.startswith k (p ++ t) = Str.startswith k p.
Proof.
  induction k as [| a k IH]; intros p t Hk Ht.
  - destruct p, t; reflexivity.
  - cbn in Hk. apply andb_true_iff in Hk as [Ha Hk].
    destruct p as [| b p].
    + cbn [append]. destruct t as [| c t]; [reflexivity|]. cbn in Ht |- *.
      destruct (Ascii.eqb a c) eqn:Hac; [|reflexivity].
      apply Ascii.eqb_eq in Hac. subst.
      destruct (Str.is_space c); discriminate.
    + cbn. now rewrite IH.
Qed.

Lemma contains_drop_blank k p t :
  Str.is_empty k = false -> Str.no_space k = true -> Str.all_space t = true ->
  Str.contains k (p ++ t) = Str.contains k p.
Proof.
  intros Hne Hk Ht. induction p as [| c p IH].
  - cbn [append]. rewrite contains_blank by assumption.
    destruct k; [discriminate | reflexivity].
  - cbn [append Str.contains]. rewrite IH.
    now rewrite <- (startswith_drop_blank k (String c p) t).
Qed.

Lemma contains_strip k s :
  Str.is_empty k = false -> Str.no_space k = true ->
  Str.contains k (Str.strip s) = Str.contains k s.
Proof.
  intros Hne Hk. unfold Str.strip.
  destruct (rstrip_split (Str.lstrip s)) as (t & Ht & Hs).
  destruct (lstrip_split s) as (u & Hu & Hl).
  rewrite Hl at 2. rewrite contains_skip_blank by assumption.
  rewrite Hs at 2. now rewrite contains_drop_blank.
Qed.

Lemma any_in_strip ks s :
  forallb (fun k => negb (Str.is_empty k) && Str.no_space k) ks = true ->
  Str.any_in ks (Str.lower (Str.strip s)) = Str.any_in ks (Str.lower s).
Proof.
  intros H. rewrite lower_strip. unfold Str.any_in.
  induction ks as [| k ks IH]; [reflexivity|].
  cbn in H |- *. apply andb_true_iff in H as [Hk H].
  apply andb_true_iff in Hk as [Hne Hk]. apply negb_true_iff in Hne.
  rewrite contains_strip by assumption. now rewrite IH.
Qed.

Lemma space_not_word c :
  Str.is_space c = true -> Str.is_digit c = false /\ Str.is_word c = false.
Proof.
  destruct c as [[] [] [] [] [] [] [] []]; cbv; intros; try discriminate; auto.
Qed.

Lemma id_step_space letters st c :
  Str.plain letters -> Str.is_space c = true ->
  Str.id_step letters st c =
    (Str.IdOutside false, match st with Str.IdDigits tok => Some tok | _ => None end).
Proof.
  intros Hp Hc. destruct (space_not_word c Hc) as [Hd Hw].
  destruct st as [pw | c0 | tok]; cbn; rewrite ?Hd, ?Hw, ?(Hp c Hc), ?andb_false_r; reflexivity.
Qed.

Lemma id_scan_outside_blank letters t :
  Str.plain letters -> Str.all_space t = true ->
  Str.id_scan letters (Str.IdOutside false) t = [].
Proof.
  intros Hp. induction t as [| c t IH]; intros Ht; [reflexivity|].
  cbn in Ht. apply andb_true_iff in Ht as [Hc Ht].
  cbn [Str.id_scan]. rewrite id_step_space by assumption. now apply IH.
Qed.

Lemma id_scan_blank letters st t :
  Str.plain letters -> Str.all_space t = true ->
  Str.id_scan letters st t = Str.id_scan letters st "".
Proof.
  intros Hp Ht. destruct t as [| c t]; [reflexivity|].
  cbn in Ht. apply andb_true_iff in Ht as [Hc Ht].
  cbn [Str.id_scan]. rewrite id_step_space by assumption.
  rewrite id_scan_outside_blank by assumption.
  destruct st; reflexivity.
Qed.

Lemma id_scan_drop_blank letters t :
  Str.plain letters -> Str.all_space t = true ->
  forall s st, Str.id_scan letters st (s ++ t) = Str.id_scan letters st s.
Proof.
  intros Hp Ht. induction s as [| c s IH]; intros st.
  - cbn [append]. now apply id_scan_blank.
  - cbn [append Str.id_scan]. destruct (Str.id_step letters st c) as [st' [tok|]]; now rewrite IH.
Qed.

Lemma id_scan_skip_blank letters s :
  Str.plain letters ->
  forall t, Str.all_space t = true ->
  Str.id_scan letters (Str.IdOutside false) (t ++ s) = Str.id_scan letters (Str.IdOutside false) s.
Proof.
  intros Hp. induction t as [| c t IH]; intros Ht; [reflexivity|].
  cbn in Ht. apply andb_true_iff in Ht as [Hc Ht].
  cbn [append Str.id_scan]. rewrite id_step_space by assumption. now apply IH.
Qed.

Lemma finditer_id_strip letters s :
  Str.plain letters -> Str.finditer_id letters (Str.strip s) = Str.finditer_id letters s.
Proof.
  intros Hp. unfold Str.finditer_id, Str.strip.
  destruct (rstrip_split (Str.lstrip s)) as (t & Ht & Hs).
  destruct (lstrip_split s) as (u & Hu & Hl).
  rewrite Hl at 2. rewrite id_scan_skip_blank by assumption.
  rewrite Hs at 2. now rewrite id_scan_drop_blank.
Qed.

Lemma plain_letters a b :
  Str.is_space a = false -> Str.is_space b = false -> Str.plain [a; b].
Proof.
  intros Ha Hb c Hc. cbn. rewrite orb_false_r.
  destruct (Ascii.eqb c a) eqn:E1; [apply Ascii.eqb_eq in E1; congruence|].
  destruct (Ascii.eqb c b) eqn:E2; [apply Ascii.eqb_eq in E2; congruence|]. reflexivity.
Qed.

Lemma plain_bus : Str.plain Str.bus_letters.
Proof. now apply plain_letters. Qed.
Lemma plain_route : Str.plain Str.route_letters.
Proof. now apply plain_letters. Qed.
Lemma plain_stop : Str.plain Str.stop_letters.
Proof. now apply plain_letters. Qed.

Lemma has_match_strip letters s :
  Str.plain letters -> has_match letters (Str.strip s) = has_match letters s.
Proof.
  intros Hp. unfold has_match, Str.search_id. now rewrite finditer_id_strip.
Qed.

Lemma names_identifier_strip s :
  Spec.names_identifier (Str.strip s) = Spec.names_identifier s.
Proof.
  unfold Spec.names_identifier.
  now rewrite (has_match_strip _ _ plain_bus), (has_match_strip _ _ plain_route),
    (has_match_strip _ _ plain_stop).
Qed.

Lemma is_transport_query_spec query :
  _is_transport_query query
  = Str.any_in transport_keywords (Str.lower query) || Spec.names_identifier query.
Proof.
  unfold _is_transport_query, Spec.names_identifier.
  destruct (Str.any_in _ _); [reflexivity|]. cbn [orb].
  destruct (_ || _ || _); reflexivity.
Qed.

Lemma is_transport_query_strip s :
  _is_transport_query (Str.strip s) = _is_transport_query s.
Proof.
  rewrite !is_transport_query_spec, names_identifier_strip.
  rewrite any_in_strip; reflexivity.
Qed.

Lemma is_empty_false s : s <> "" -> Str.is_empty s = false.
Proof. destruct s; [congruence | reflexivity]. Qed.

(** ** The identifier scanner finds the whole-word identifiers *)

Section Scanner.

Variable letters : list ascii.
Hypothesis letters_word : forall c, Str.mem_char c letters = true -> Str.is_word c = true.

Lemma digit_is_word c : Str.is_digit c = true -> Str.is_word c = true.
Proof. intros H. unfold Str.is_word. now rewrite H. Qed.

Lemma all_digits_cons c ds :
  Str.all_digits (String c ds) = true <-> Str.is_digit c = true /\ Str.all_digits ds = true.
Proof. cbn. apply andb_true_iff. Qed.

Lemma append_nil_r (s : string) : s ++ "" = s.
Proof. induction s as [| c s IH]; [reflexivity | cbn; now rewrite IH]. Qed.

Lemma append_assoc' (a b c : string) : (a ++ b) ++ c = a ++ (b ++ c).
Proof. induction a as [| x a IH]; [reflexivity | cbn; now rewrite IH]. Qed.

(** An occurrence in [c :: s] either begins at [c] or lies in [s]. *)
Lemma occ_cons pw c tok s :
  Wording.occurs_after letters pw tok (String c s)
  <-> (pw = false /\ Str.mem_char c letters = true
       /\ exists ds post, tok = String c ds /\ s = ds ++ post
                          /\ ds <> "" /\ Str.all_digits ds = true
                          /\ Wording.starts_word post = false)
      \/ Wording.occurs_after letters (Str.is_word c) tok s.
Proof.
  split.
  - intros (pre & post & Hs & Hid & Hl & Hr).
    destruct pre as [| c' pre].
    + left. cbn in Hl, Hs. destruct tok as [| c0 ds]; [discriminate Hid|].
      cbn in Hs. injection Hs as <- ->. cbn in Hid.
      apply andb_true_iff in Hid as [Hid Hd]. apply andb_true_iff in Hid as [Hc Hne].
      split; [exact Hl|]. split; [exact Hc|].
      exists ds, post. repeat split; auto.
      intros ->. discriminate Hne.
    + right. cbn in Hs. injection Hs as <- ->. cbn in Hl.
      exists pre, post. auto.
  - intros [(Hpw & Hc & ds & post & -> & -> & Hne & Hd & Hr) | (pre & post & -> & Hid & Hl & Hr)].
    + exists "", post. cbn. repeat split; auto.
      rewrite Hc, Hd. destruct ds; [congruence | reflexivity].
    + exists (String c pre), post. cbn. auto.
Qed.

Lemma occ_nil pw tok : ~ Wording.occurs_after letters pw tok "".
Proof.
  intros (pre & post & Hs & Hid & _).
  destruct pre; [|discriminate]. destruct tok; [discriminate Hid | discriminate Hs].
Qed.

(** What the scanner returns from each of its states. *)
Lemma id_scan_spec s :
  (forall pw tok,
      In tok (Str.id_scan letters (Str.IdOutside pw) s) <-> Wording.occurs_after letters pw tok s)
  /\ (forall c0 tok,
        In tok (Str.id_scan letters (Str.IdLetter c0) s)
        <-> (exists ds post, tok = String c0 ds /\ s = ds ++ post
                             /\ ds <> "" /\ Str.all_digits ds = true
                             /\ Wording.starts_word post = false)
            \/ Wording.occurs_after letters true tok s)
  /\ (forall t tok,
        In tok (Str.id_scan letters (Str.IdDigits t) s)
        <-> (exists ds post, tok = t ++ ds /\ s = ds ++ post
                             /\ Str.all_digits ds = true
                             /\ Wording.starts_word post = false)
            \/ Wording.occurs_after letters true tok s).
Proof.
  induction s as [| c s (IH1 & IH2 & IH3)].
  - split; [|split].
    + intros pw tok. cbn. split; [tauto | apply occ_nil].
    + intros c0 tok. cbn. split; [tauto|].
      intros [(ds & post & _ & Hs & Hne & _) | H]; [|exact (occ_nil _ _ H)].
      destruct ds; [congruence | discriminate].
    + intros t tok. cbn. split.
      * intros [<- | []]. left. exists "", "". now rewrite append_nil_r.
      * intros [(ds & post & -> & Hs & _) | H]; [|exfalso; exact (occ_nil _ _ H)].
        destruct ds; [|discriminate]. left. now rewrite append_nil_r.
  - split; [|split].
    + intros pw tok. rewrite occ_cons. cbn [Str.id_scan Str.id_step].
      destruct (negb pw && Str.mem_char c letters) eqn:Hc.
      * apply andb_true_iff in Hc as [Hpw Hm]. apply negb_true_iff in Hpw.
        rewrite IH2, (letters_word _ Hm). split.
        -- intros [H | H]; [left; auto | now right].
        -- intros [(_ & _ & H) | H]; [now left | now right].
      * rewrite IH1. split; [now right|].
        intros [(Hpw & Hm & _) | H]; [|exact H].
        rewrite Hpw, Hm in Hc. discriminate.
    + intros c0 tok. rewrite occ_cons. cbn [Str.id_scan Str.id_step].
      destruct (Str.is_digit c) eqn:Hd.
      * rewrite IH3, (digit_is_word _ Hd). split.
        -- intros [(ds & post & -> & -> & Hds & Hr) | H]; [left | right; now right].
           exists (String c ds), post. cbn. rewrite Hd, Hds. repeat split; auto. discriminate.
        -- intros [(ds & post & -> & Hs & Hne & Hds & Hr) | [(Hf & _) | H]];
             [left | discriminate | now right].
           destruct ds as [| c' ds]; [congruence|]. cbn in Hs. injection Hs as <- ->.
           apply all_digits_cons in Hds as [_ Hds]. exists ds, post. auto.
      * rewrite IH1. split.
        -- intros H. right. now right.
        -- intros [(ds & post & _ & Hs & Hne & Hds & _) | [(Hf & _) | H]];
             [| discriminate | exact H].
           destruct ds as [| c' ds]; [congruence|]. cbn in Hs. injection Hs as <- ->.
           apply all_digits_cons in Hds as [Hc' _]. congruence.
    + intros t tok. rewrite occ_cons. cbn [Str.id_scan Str.id_step].
      destruct (Str.is_digit c) eqn:Hd.
      * rewrite IH3, (digit_is_word _ Hd). split.
        -- intros [(ds & post & -> & -> & Hds & Hr) | H]; [left | right; now right].
           exists (String c ds), post. cbn. rewrite Hd, Hds.
           rewrite append_assoc'. auto.
        -- intros [(ds & post & -> & Hs & Hds & Hr) | [(Hf & _) | H]];
             [left | discriminate | now right].
           destruct ds as [| c' ds].
           ++ cbn in Hs. subst post. cbn in Hr. rewrite (digit_is_word _ Hd) in Hr. discriminate.
           ++ cbn in Hs. injection Hs as <- ->.
              apply all_digits_cons in Hds as [_ Hds]. exists ds, post.
              rewrite append_assoc'. auto.
      * destruct (Str.is_word c) eqn:Hw.
        -- rewrite IH1. split.
           ++ intros H. right. now right.
           ++ intros [(ds & post & _ & Hs & Hds & Hr) | [(Hf & _) | H]];
                [| discriminate | exact H].
              destruct ds as [| c' ds].
              ** cbn in Hs. subst post. cbn in Hr. congruence.
              ** cbn in Hs. injection Hs as <- ->.
                 apply all_digits_cons in Hds as [Hc' _]. congruence.
        -- cbn [In]. rewrite IH1. split.
           ++ intros [<- | H]; [left | right; now right].
              exists "", (String c s). cbn. rewrite append_nil_r, Hw. auto.
           ++ intros [(ds & post & -> & Hs & Hds & Hr) | [(Hf & _) | H]];
                [left | discriminate | now right].
              destruct ds as [| c' ds]; [now rewrite append_nil_r|].
              cbn in Hs. injection Hs as <- ->.
              apply all_digits_cons in Hds as [Hc' _]. congruence.
Qed.

(** [re.finditer] returns exactly the identifiers that stand in the text
    as whole words. *)
Lemma finditer_id_occurs tok s :
  In tok (Str.finditer_id letters s) <-> Wording.occurs letters tok s.
Proof. unfold Str.finditer_id. apply (proj1 (id_scan_spec s)). Qed.

End Scanner.

Lemma bus_letters_word c : Str.mem_char c Str.bus_letters = true -> Str.is_word c = true.
Proof.
  cbn. intros H. apply orb_true_iff in H as [H | H];
    [| apply orb_true_iff in H as [H | H]; [| discriminate H]];
    apply Ascii.eqb_eq in H; subst c; reflexivity.
Qed.

Lemma route_letters_word c : Str.mem_char c Str.route_letters = true -> Str.is_word c = true.
Proof.
  cbn. intros H. apply orb_true_iff in H as [H | H];
    [| apply orb_true_iff in H as [H | H]; [| discriminate H]];
    apply Ascii.eqb_eq in H; subst c; reflexivity.
Qed.

Lemma stop_letters_word c : Str.mem_char c Str.stop_letters = true -> Str.is_word c = true.
Proof.
  cbn. intros H. apply orb_true_iff in H as [H | H];
    [| apply orb_true_iff in H as [H | H]; [| discriminate H]];
    apply Ascii.eqb_eq in H; subst c; reflexivity.
Qed.

(** The identifiers that [re.finditer] returns, in upper case, are the
    identifiers that the text mentions. *)
Lemma finditer_id_mentions letters id s :
  (forall c, Str.mem_char c letters = true -> Str.is_word c = true) ->
  In id (map Str.upper (Str.finditer_id letters s)) <-> Wording.mentions letters id s.
Proof.
  intros Hw. rewrite in_map_iff. unfold Wording.mentions. split.
  - intros (tok & <- & H). exists tok. split; [now apply finditer_id_occurs | reflexivity].
  - intros (tok & H & ->). exists tok. split; [reflexivity | now apply finditer_id_occurs].
Qed.

(** [re.search] finds a match exactly when an identifier stands in the
    text as a whole word. *)
Lemma has_match_occurs letters s :
  (forall c, Str.mem_char c letters = true -> Str.is_word c = true) ->
  has_match letters s = true <-> exists tok, Wording.occurs letters tok s.
Proof.
  intros Hw. unfold has_match, Str.search_id. split.
  - destruct (Str.finditer_id letters s) as [| tok l] eqn:E; [discriminate|].
    intros _. exists tok. apply (finditer_id_occurs letters Hw). rewrite E. now left.
  - intros (tok & H). apply (finditer_id_occurs letters Hw) in H.
    destruct (Str.finditer_id letters s); [contradiction | reflexivity].
Qed.

Lemma names_identifier_occurs query :
  Spec.names_identifier query = true <-> Wording.names_identifier query.
Proof.
  unfold Spec.names_identifier, Wording.names_identifier.
  rewrite !orb_true_iff, (has_match_occurs _ _ bus_letters_word),
    (has_match_occurs _ _ route_letters_word), (has_match_occurs _ _ stop_letters_word).
  split.
  - intros [[(t & H) | (t & H)] | (t & H)]; exists t; tauto.
  - intros (t & [H | [H | H]]); [left; left | left; right | right]; now exists t.
Qed.

(** [s.startswith(k)] and [k in s], on the texts themselves. *)
Lemma startswith_prefix k s : Str.startswith k s = true <-> exists post, s = k ++ post.
Proof.
  revert s. induction k as [| a k IH]; intros s.
  - cbn. split; [intros _; now exists s | reflexivity].
  - destruct s as [| b s]; cbn.
    + split; [discriminate | intros (post & H); discriminate H].
    + rewrite andb_true_iff, IH. split.
      * intros (Hab & post & ->). apply Ascii.eqb_eq in Hab as ->. now exists post.
      * intros (post & H). injection H as -> ->. split; [apply Ascii.eqb_refl | now exists post].
Qed.

Lemma contains_part_of k s : Str.contains k s = true <-> Wording.part_of k s.
Proof.
  unfold Wording.part_of. induction s as [| c s IH].
  - cbn. rewrite orb_false_r, startswith_prefix. split.
    + intros (post & H). now exists "", post.
    + intros (pre & post & H). destruct pre; [now exists post | discriminate H].
  - cbn [Str.contains]. rewrite orb_true_iff, startswith_prefix, IH. split.
    + intros [(post & H) | (pre & post & ->)]; [now exists "", post |].
      now exists (String c pre), post.
    + intros (pre & post & H). destruct pre as [| c' pre].
      * left. now exists post.
      * right. cbn in H. injection H as _ ->. now exists pre, post.
Qed.

Lemma any_in_has_keyword query :
  Str.any_in transport_keywords (Str.lower query) = true <-> Wording.has_keyword query.
Proof.
  unfold Str.any_in, Wording.has_keyword. rewrite existsb_exists.
  change transport_keywords with Wording.keywords.
  split; intros (k & Hk & H); exists k; (split; [exact Hk | now apply contains_part_of]).
Qed.

Lemma all_space_app s t :
  Str.all_space s = true -> Str.all_space t = true -> Str.all_space (s ++ t) = true.
Proof.
  induction s as [| c s IH]; cbn; [auto|].
  intros H Ht. apply andb_true_iff in H as [-> H]. cbn. auto.
Qed.

(** A text that [strip] empties is made of blanks. *)
Lemma strip_empty_all_space s : Str.strip s = "" -> Str.all_space s = true.
Proof.
  unfold Str.strip. intros H.
  destruct (lstrip_split s) as (t & Ht & Hs), (rstrip_split (Str.lstrip s)) as (t' & Ht' & Hs').
  rewrite H in Hs'. cbn in Hs'. rewrite Hs, Hs'. now apply all_space_app.
Qed.

(** C6, as amended.  On a query of ASCII characters that is not blank: when
    its text, whatever the case of its letters, contains none of the
    keywords bus, buses, route, stop, station, eta, when, arrive, reach,
    delay, traffic, driver, location, and no identifier (B, R or S, in
    either case, followed by one digit or more) stands in it as a whole
    word, [ask] answers with the out-of-domain abstention, with an empty
    trace and an empty context; when it contains one of these keywords or
    such an identifier, it passes the filter that [ask] applies. *)
Theorem domain_filter w user_query :
  Wording.is_ascii user_query = true ->
  Str.all_space user_query = false ->
  (~ Wording.has_keyword user_query ->
   ~ Wording.names_identifier user_query ->
   ask w user_query = Ok (abstain out_of_domain_message))
  /\ (Wording.has_keyword user_query \/ Wording.names_identifier user_query ->
      _is_transport_query (Str.strip user_query) = true).
Proof.
  intros _ Hnb.
  assert (Hne : Str.is_empty (Str.strip user_query) = false).
  { apply is_empty_false. intros H. apply strip_empty_all_space in H. congruence. }
  split.
  - intros Hk Hi. unfold ask, ask_body. rewrite Hne.
    rewrite is_transport_query_strip, is_transport_query_spec.
    destruct (Str.any_in transport_keywords (Str.lower user_query)) eqn:Ek.
    { exfalso. apply Hk. now apply any_in_has_keyword. }
    destruct (Spec.names_identifier user_query) eqn:Ei.
    { exfalso. apply Hi. now apply names_identifier_occurs. }
    reflexivity.
  - intros H. rewrite is_transport_query_strip, is_transport_query_spec.
    apply orb_true_iff. destruct H as [H | H].
    + left. now apply any_in_has_keyword.
    + right. now apply names_identifier_occurs.
Qed.

Lemma domain_filter_witness :
  (~ Wording.has_keyword "Is b12 late?" ->
   ~ Wording.names_identifier "Is b12 late?" ->
   ask Examples.quiet "Is b12 late?" = Ok (abstain out_of_domain_message))
  /\ (Wording.has_keyword "Is b12 late?" \/ Wording.names_identifier "Is b12 late?" ->
      _is_transport_query (Str.strip "Is b12 late?") = true).
Proof.
  apply (domain_filter Examples.quiet "Is b12 late?"); reflexivity.
Defined.

(** C6, as stated: with the keyword list of the specification, which has
    no "station", the claim fails on a question about a station: none of
    the listed keywords is a part of it and it names no identifier, yet it
    passes the filter and is not answered by the abstention. *)
Lemma domain_filter_counterexample :
  Wording.is_ascii "Which station is closest?" = true
  /\ Str.all_space "Which station is closest?" = false
  /\ (forall k, In k Spec.domain_keywords ->
        ~ Wording.part_of k (Str.lower "Which station is closest?"))
  /\ ~ Wording.names_identifier "Which station is closest?"
  /\ _is_transport_query (Str.strip "Which station is closest?") = true
  /\ ask Examples.quiet "Which station is closest?" <> Ok (abstain out_of_domain_message).
Proof.
  split; [reflexivity|]. split; [reflexivity|]. split; [|split; [|split]].
  - intros k Hk H. apply contains_part_of in H.
    assert (E : Str.any_in Spec.domain_keywords (Str.lower "Which station is closest?") = true).
    { unfold Str.any_in. apply existsb_exists. now exists k. }
    vm_compute in E. discriminate E.
  - intros H. apply names_identifier_occurs in H. vm_compute in H. discriminate H.
  - reflexivity.
  - intros H. vm_compute in H. discriminate H.
Qed.

(** ** Entity validation *)

Lemma ascii_compare_refl a : Ascii.compare a a = Eq.
Proof. unfold Ascii.compare. apply N.compare_refl. Qed.

Lemma compare_refl s : String.compare s s = Eq.
Proof. induction s as [| a s IH]; [reflexivity|]. cbn. now rewrite ascii_compare_refl. Qed.

Lemma before_trans x y z : Spec.before x y -> Spec.before y z -> Spec.before x z.
Proof.
  unfold Spec.before. revert y z.
  induction x as [| a x IH]; intros [| b y] [| c z]; cbn; try congruence.
  unfold Ascii.compare.
  destruct (N.compare_spec (N_of_ascii a) (N_of_ascii b)) as [Hab | Hab | Hab];
  destruct (N.compare_spec (N_of_ascii b) (N_of_ascii c)) as [Hbc | Hbc | Hbc];
  destruct (N.compare_spec (N_of_ascii a) (N_of_ascii c)) as [Hac | Hac | Hac];
  try congruence; try lia; eauto.
Qed.

Lemma in_insert_sorted x y l : In x (insert_sorted y l) <-> x = y \/ In x l.
Proof.
  induction l as [| z l IH]; cbn; [intuition|].
  destruct (String.compare y z) eqn:E; cbn.
  - apply String.compare_eq_iff in E. subst. intuition.
  - intuition.
  - rewrite IH. intuition.
Qed.

Lemma in_sorted_set x l : In x (sorted_set l) <-> In x l.
Proof.
  induction l as [| y l IH]; cbn; [reflexivity|].
  rewrite in_insert_sorted, IH. intuition.
Qed.

Lemma insert_sorted_increasing y l :
  StronglySorted Spec.before l -> StronglySorted Spec.before (insert_sorted y l).
Proof.
  induction 1 as [| z l Hs IH Hz]; cbn; [repeat constructor|].
  destruct (String.compare y z) eqn:E.
  - constructor; assumption.
  - constructor.
    + constructor; assumption.
    + constructor; [exact E|].
      rewrite Forall_forall in Hz |- *. intros u Hu.
      apply (before_trans y z u); [exact E | now apply Hz].
  - constructor; [exact IH|]. rewrite Forall_forall in Hz |- *. intros u Hu.
    apply in_insert_sorted in Hu as [-> | Hu]; [|now apply Hz].
    unfold Spec.before. rewrite String.compare_antisym, E. reflexivity.
Qed.

Lemma sorted_set_increasing l : StronglySorted Spec.before (sorted_set l).
Proof.
  induction l as [| y l IH]; cbn; [constructor | now apply insert_sorted_increasing].
Qed.

Lemma first_unknown_found d ids x :
  In x ids -> dict_mem d x = false -> exists y, first_unknown d ids = Some y.
Proof.
  induction ids as [| z ids IH]; intros Hin Hx; [contradiction|].
  cbn. destruct (dict_mem d z) eqn:Hz; cbn; [|eauto].
  destruct Hin as [-> | Hin]; [congruence | now apply IH].
Qed.

Lemma first_unknown_least d ids y :
  StronglySorted Spec.before ids ->
  first_unknown d ids = Some y ->
  In y ids /\ dict_mem d y = false
  /\ forall x, In x ids -> dict_mem d x = false -> x = y \/ Spec.before y x.
Proof.
  induction 1 as [| z ids Hs IH Hz]; cbn; [discriminate|].
  destruct (dict_mem d z) eqn:Ez; cbn.
  - intros H. destruct (IH H) as (Hin & Hy & Hleast). repeat split; auto.
    intros x [-> | Hx] Hd; [congruence | now apply Hleast].
  - intros [= <-]. repeat split; auto.
    intros x [-> | Hx] Hd; [now left | right].
    rewrite Forall_forall in Hz. now apply Hz.
Qed.

Lemma search_of_finditer letters s x :
  In x (Str.finditer_id letters s) -> has_match letters s = true.
Proof.
  unfold has_match, Str.search_id. destruct (Str.finditer_id letters s); [contradiction | reflexivity].
Qed.

Lemma finditer_nonblank letters s x :
  In x (Str.finditer_id letters s) -> s <> "".
Proof. intros H ->. exact H. Qed.

(** C5, as amended.  On a query of ASCII characters: when the query
    mentions a bus identifier (B or b followed by one digit or more,
    standing as a whole word, read in upper case) that the fleet registry
    does not hold, [ask] abstains with an empty trace and an empty context,
    and the answer names the first of the unknown bus identifiers mentioned,
    in the order of [sorted] (the identifier itself when it is the only
    unknown one); the validation step does not raise. *)
Theorem unknown_bus_abstains w user_query bus_id :
  Wording.is_ascii user_query = true ->
  Wording.mentions Str.bus_letters bus_id user_query ->
  dict_mem (buses w) bus_id = false ->
  exists named,
    Wording.mentions Str.bus_letters named user_query
    /\ dict_mem (buses w) named = false
    /\ (forall other, Wording.mentions Str.bus_letters other user_query ->
          dict_mem (buses w) other = false -> other = named \/ Spec.before named other)
    /\ ask w user_query = Ok (abstain (unknown_bus_message named))
    /\ exists verdict, _validate_referenced_entities w (Str.strip user_query) = Ok verdict.
Proof.
  intros _ Hin Hun.
  apply (finditer_id_mentions _ _ _ bus_letters_word) in Hin.
  fold (Spec.mentioned_buses user_query) in Hin.
  assert (Hents : ent_buses (_extract_entities (Str.strip user_query))
                  = sorted_set (Spec.mentioned_buses user_query)).
  { cbn. unfold Spec.mentioned_buses. now rewrite (finditer_id_strip _ _ plain_bus). }
  destruct (first_unknown_found (buses w) (sorted_set (Spec.mentioned_buses user_query)) bus_id)
    as [named Hn]; [now apply (proj2 (in_sorted_set _ _)) | assumption |].
  destruct (first_unknown_least _ _ _ (sorted_set_increasing _) Hn) as (H1 & H2 & H3).
  exists named. apply (proj1 (in_sorted_set _ _)) in H1.
  split; [now apply (finditer_id_mentions _ _ _ bus_letters_word)|].
  split; [exact H2|]. split.
  { intros other Ho Hd. apply (finditer_id_mentions _ _ _ bus_letters_word) in Ho.
    apply H3; [now apply (proj2 (in_sorted_set _ _)) | assumption]. }
  assert (Hv : _validate_referenced_entities w (Str.strip user_query)
               = Ok (Some (unknown_bus_message named))).
  { unfold _validate_referenced_entities, validate_body. now rewrite Hents, Hn. }
  split; [|eauto].
  unfold Spec.mentioned_buses in Hin. apply in_map_iff in Hin as (tok & _ & Htok).
  rewrite <- (finditer_id_strip _ _ plain_bus) in Htok.
  unfold ask, ask_body.
  rewrite (is_empty_false _ (finditer_nonblank _ _ _ Htok)).
  unfold _is_transport_query. rewrite (search_of_finditer _ _ _ Htok).
  destruct (Str.any_in _ _); cbn [orb negb]; now rewrite Hv.
Qed.

Lemma unknown_bus_abstains_witness :
  exists named,
    Wording.mentions Str.bus_letters named "Where is b999?"
    /\ dict_mem (buses (Examples.depot Examples.clear_weather)) named = false
    /\ (forall other, Wording.mentions Str.bus_letters other "Where is b999?" ->
          dict_mem (buses (Examples.depot Examples.clear_weather)) other = false ->
          other = named \/ Spec.before named other)
    /\ ask (Examples.depot Examples.clear_weather) "Where is b999?"
       = Ok (abstain (unknown_bus_message named))
    /\ exists verdict,
         _validate_referenced_entities (Examples.depot Examples.clear_weather)
           (Str.strip "Where is b999?") = Ok verdict.
Proof.
  apply (unknown_bus_abstains (Examples.depot Examples.clear_weather) "Where is b999?" "B999").
  - reflexivity.
  - exists "b999". split; [|reflexivity].
    exists "Where is ", "?". repeat split; reflexivity.
  - reflexivity.
Defined.

(** C5, as stated: when two unknown buses are mentioned the answer names
    one of them only. *)
Lemma unknown_bus_counterexample :
  Wording.is_ascii "Where are B998 and B999?" = true
  /\ Wording.mentions Str.bus_letters "B999" "Where are B998 and B999?"
  /\ dict_mem (buses (Examples.depot Examples.clear_weather)) "B999" = false
  /\ ask (Examples.depot Examples.clear_weather) "Where are B998 and B999?"
     = Ok (abstain (unknown_bus_message "B998"))
  /\ Str.contains "B999" (unknown_bus_message "B998") = false.
Proof.
  split; [reflexivity|]. split; [|repeat split; reflexivity].
  exists "B999". split; [|reflexivity].
  exists "Where are B998 and ", "?". repeat split; reflexivity.
Qed.

(** ** The [eta] step *)

Lemma is_text_eq v s : is_text v s = true -> v = VStr s.
Proof.
  destruct v; try discriminate. cbn. intros H. apply String.eqb_eq in H. now subst.
Qed.

(** The loop body on an [eta] step. *)
Lemma run_step_eta w n uq ctx step tool p st :
  py_get step "tool" = Ok tool -> is_text tool "eta" = true ->
  py_get step "params" = Ok p ->
  run_step w n uq ctx step st =
    match eta_step w n uq ctx (params_of p) st with
    | Ok (Continue st' result) => Ok (entry step result, st')
    | Ok (Fallthrough st' result) => Ok (entry step result, st')
    | Raise e => Ok (entry step eta_fallback_on_error, st)
    end.
Proof.
  intros Ht He Hp. unfold run_step. rewrite Ht, Hp. cbn [bind].
  apply is_text_eq in He. subst tool. reflexivity.
Qed.

Lemma eta_step_miss w n uq ctx params st :
  eta_cached w n (eta_bus_id uq params) (eta_stop_id params) = None ->
  eta_step w n uq ctx params st =
    match eta_compute w n ctx (eta_bus_id uq params) (eta_stop_id params) st with
    | Ok result => Ok (Fallthrough st result)
    | Raise e => Raise e
    end.
Proof. intros H. unfold eta_step. rewrite H. now destruct (eta_compute _ _ _ _ _ _). Qed.

Lemma is_fallback_unresolved stop_id : is_fallback (eta_fallback stop_id).
Proof. eexists. repeat split. Qed.

Lemma is_fallback_on_error : is_fallback eta_fallback_on_error.
Proof. eexists. repeat split. Qed.

Lemma resolved_false bus_id bus stop :
  (is_none (fst stop) || is_none (snd stop)) = true
  \/ (is_none (fst bus) || is_none (snd bus)) = true
  \/ truthy bus_id = false ->
  resolved bus_id bus stop = false.
Proof.
  unfold resolved. intros [H | [H | H]].
  - apply orb_true_iff in H as [-> | ->]; cbn; now rewrite ?andb_false_r.
  - apply orb_true_iff in H as [-> | ->]; cbn; now rewrite ?andb_false_r.
  - now rewrite H.
Qed.

(** C1, as amended.  When the ETA cache gives no value for the step (no
    cache, a miss, or a cache error), and the stop coordinates are not
    resolved by any of the three lookups, or the bus coordinates or the bus
    identifier are not resolved, or an exception reaches the handler of the
    step, the entry recorded for the step holds the fixed fallback: 1200
    seconds with the fallback marker.  The step does not raise and leaves
    the state unchanged. *)
Theorem eta_fallback_on_miss w n user_query context step tool p st :
  py_get step "tool" = Ok tool -> is_text tool "eta" = true ->
  py_get step "params" = Ok p ->
  let bus_id := eta_bus_id user_query (params_of p) in
  let stop_id := eta_stop_id (params_of p) in
  eta_cached w n bus_id stop_id = None ->
  (exists stop, resolve_stop w bus_id stop_id context = Ok stop
                /\ (is_none (fst stop) || is_none (snd stop)) = true)
  \/ (exists bus, resolve_bus w n bus_id st = Ok bus
                  /\ (is_none (fst bus) || is_none (snd bus)) = true)
  \/ truthy bus_id = false
  \/ (exists e, eta_compute w n context bus_id stop_id st = Raise e) ->
  exists result,
    run_step w n user_query context step st = Ok (entry step result, st)
    /\ is_fallback result.
Proof.
  intros Ht He Hp bus_id stop_id Hmiss H.
  rewrite (run_step_eta _ _ _ _ _ _ _ _ Ht He Hp).
  rewrite eta_step_miss by exact Hmiss. fold bus_id stop_id.
  destruct (eta_compute w n context bus_id stop_id st) as [result | e] eqn:Hc.
  - exists result. split; [reflexivity|].
    unfold eta_compute in Hc.
    destruct (resolve_stop w bus_id stop_id context) as [stop | ] eqn:Hs; [|discriminate].
    cbn [bind] in Hc.
    destruct (resolve_bus w n bus_id st) as [bus | ] eqn:Hb; [|discriminate].
    cbn [bind] in Hc.
    assert (Hr : resolved bus_id bus stop = false).
    { apply resolved_false.
      destruct H as [(s & [= <-] & H) | [(b & [= <-] & H) | [H | (e & H)]]]; auto.
      discriminate. }
    rewrite Hr in Hc. cbn [negb] in Hc. injection Hc as <-. apply is_fallback_unresolved.
  - exists eta_fallback_on_error. split; [reflexivity | apply is_fallback_on_error].
Qed.

Lemma eta_fallback_on_miss_witness :
  let step := mk_step "eta" [ ("bus_id", VStr "B1"); ("stop_id", VStr "S1") ] in
  exists result,
    run_step Examples.quiet 0 "When will B1 reach S1?" [] step initial_state
    = Ok (entry step result, initial_state)
    /\ is_fallback result.
Proof.
  apply (eta_fallback_on_miss Examples.quiet 0 "When will B1 reach S1?" []
           (mk_step "eta" [ ("bus_id", VStr "B1"); ("stop_id", VStr "S1") ])
           (VStr "eta") (VDict [ ("bus_id", VStr "B1"); ("stop_id", VStr "S1") ])
           initial_state);
    try reflexivity.
  left. exists (VNone, VNone). split; reflexivity.
Defined.

(** C1, as stated: a value still held by the ETA cache is recorded as it
    is, although no lookup can resolve the stop any more. *)
Lemma eta_fallback_counterexample :
  let step := mk_step "eta" [ ("bus_id", VStr "B1"); ("stop_id", VStr "S9") ] in
  resolve_stop Examples.cached (VStr "B1") (VStr "S9") [] = Ok (VNone, VNone)
  /\ run_step Examples.cached 0 "When will B1 reach S9?" [] step initial_state
     = Ok (entry step (Examples.cached_eta "S9" 300), initial_state)
  /\ ~ is_fallback (Examples.cached_eta "S9" 300).
Proof.
  repeat split; try reflexivity.
  intros (d & Hd & He & _). injection Hd as <-. discriminate He.
Qed.

Section Distance.

Import EtaCalculator.

Local Open Scope R_scope.

(** The engine and the calculator measure the same distance. *)
Lemma haversine_km_meters lat1 lon1 lat2 lon2 dk :
  _haversine_km lat1 lon1 lat2 lon2 = Ok dk ->
  haversine_meters lat1 lon1 lat2 lon2 = Ok (1000 * dk).
Proof.
  unfold _haversine_km, haversine_meters.
  destruct (as_num lat1) as [l1|]; [|discriminate].
  destruct (as_num lat2) as [l2|]; [|discriminate].
  destruct (as_num lon1) as [g1|]; [|discriminate].
  destruct (as_num lon2) as [g2|]; [|discriminate].
  cbn [bind].
  pose proof (haversine_term_range l1 l2 g1 g2) as Ha.
  set (a := sin (radians (l2 - l1) / 2) ^ 2
            + cos (radians l1) * cos (radians l2) * sin (radians (g2 - g1) / 2) ^ 2) in *.
  unfold py_sqrt. destruct (Rlt_dec a 0); [lra|].
  destruct (Rlt_dec (1 - a) 0); [lra|]. cbn [bind].
  intros [= <-].
  unfold py_asin. pose proof (sqrt_pos a).
  assert (sqrt a <= 1).
  { rewrite <- sqrt_1. apply sqrt_le_1; lra. }
  destruct (Rlt_dec (sqrt a) (-1)); [lra|].
  destruct (Rlt_dec 1 (sqrt a)); [lra|]. cbn [bind].
  rewrite asin_atan2 by assumption. f_equal. ring.
Qed.

Lemma haversine_km_real (l1 g1 l2 g2 : R) :
  exists dk, _haversine_km (VFloat l1) (VFloat g1) (VFloat l2) (VFloat g2) = Ok dk.
Proof.
  unfold _haversine_km. cbn [as_num bind].
  pose proof (haversine_term_range l1 l2 g1 g2) as Ha.
  set (a := sin (radians (l2 - l1) / 2) ^ 2
            + cos (radians l1) * cos (radians l2) * sin (radians (g2 - g1) / 2) ^ 2) in *.
  unfold py_sqrt. destruct (Rlt_dec a 0); [lra|].
  destruct (Rlt_dec (1 - a) 0); [lra|]. cbn [bind]. eauto.
Qed.

End Distance.

Section Estimate.
Local Open Scope R_scope.

(** The estimate of a stop under 100 m: two minutes plus the weather delay. *)
Lemma eta_estimate_near bus stop st dist_km delay :
  _haversine_km (fst bus) (snd bus) (fst stop) (snd stop) = Ok dist_km ->
  dist_km < 1 / 10 ->
  py_int (weather_delay_of st) = Ok delay ->
  eta_estimate bus stop st = Ok ((120 + delay)%Z, dist_km).
Proof.
  intros Hd Hlt Hw. unfold eta_estimate. rewrite Hd. cbn [bind].
  destruct (Rlt_dec dist_km (1 / 10)); [|contradiction].
  cbn [bind]. rewrite Hw. reflexivity.
Qed.

(** The estimate of a stop at 100 m or more: distance over speed, truncated,
    plus the weather delay. *)
Lemma eta_estimate_far bus stop st dist_km delay :
  _haversine_km (fst bus) (snd bus) (fst stop) (snd stop) = Ok dist_km ->
  1 / 10 <= dist_km ->
  py_int (weather_delay_of st) = Ok delay ->
  eta_estimate bus stop st
  = Ok ((trunc (1000 * dist_km / py_max (speed_of st * 1000 / 3600) (1 / 10) * 1) + delay)%Z,
        dist_km).
Proof.
  intros Hd Hge Hw. unfold eta_estimate. rewrite Hd. cbn [bind].
  destruct (Rlt_dec dist_km (1 / 10)); [lra|].
  unfold EtaCalculator.calculate_eta_seconds, EtaCalculator.calculate_eta_seconds_body.
  rewrite (haversine_km_meters _ _ _ _ _ Hd). cbn [bind as_num].
  pose proof (speed_floor (speed_of st * 1000 / 3600)) as Hs.
  unfold py_div. destruct (Req_dec_T _ 0) as [e|_]; [lra|].
  cbn [bind EtaCalculator.default_traffic_multiplier as_num try_except].
  rewrite Hw. reflexivity.
Qed.

(** Two points of the equator. *)
Lemma haversine_km_equator (g : R) :
  0 <= g < 180 ->
  _haversine_km (VInt 0) (VInt 0) (VInt 0) (VFloat g) = Ok (6371 * radians g).
Proof.
  intros [Hg0 Hg1]. unfold _haversine_km. cbn [as_num bind].
  pose proof PI_RGT_0 as Hpi.
  set (x := radians (g - 0) / 2).
  assert (Hx : 0 <= x < PI / 2).
  { unfold x, radians. split; [nra|]. nra. }
  replace (radians (0 - 0) / 2) with 0 by (unfold radians; field).
  replace (radians 0) with 0 by (unfold radians; ring).
  rewrite sin_0, cos_0.
  replace (0 ^ 2 + 1 * 1 * sin x ^ 2) with ((sin x)²) by (unfold Rsqr; ring).
  assert (Hs : 0 <= sin x).
  { apply sin_ge_0; lra. }
  assert (Hc : 0 < cos x).
  { apply cos_gt_0; lra. }
  unfold py_sqrt.
  destruct (Rlt_dec (sin x)² 0) as [Hneg|_].
  { pose proof (Rle_0_sqr (sin x)). lra. }
  cbn [bind].
  replace (1 - (sin x)²) with ((cos x)²) by (pose proof (sin2_cos2 x); lra).
  destruct (Rlt_dec (cos x)² 0) as [Hneg|_].
  { pose proof (Rle_0_sqr (cos x)). lra. }
  cbn [bind]. rewrite !sqrt_Rsqr by lra.
  unfold py_atan2. destruct (Rlt_dec 0 (cos x)); [|contradiction].
  change (sin x / cos x) with (tan x). rewrite atan_tan by lra.
  f_equal. unfold x, radians. field.
Qed.

Lemma haversine_km_same_point :
  _haversine_km (VInt 0) (VInt 0) (VInt 0) (VInt 0) = Ok 0.
Proof.
  unfold _haversine_km. cbn [as_num bind].
  replace (radians (0 - 0) / 2) with 0 by (unfold radians; field).
  replace (radians 0) with 0 by (unfold radians; ring).
  rewrite sin_0, cos_0.
  replace (0 ^ 2 + 1 * 1 * 0 ^ 2) with 0 by ring.
  unfold py_sqrt. destruct (Rlt_dec 0 0); [lra|]. cbn [bind].
  replace (1 - 0) with 1 by ring.
  destruct (Rlt_dec 1 0); [lra|]. cbn [bind].
  rewrite sqrt_0, sqrt_1. unfold py_atan2.
  destruct (Rlt_dec 0 1); [|lra].
  replace (0 / 1) with 0 by field. rewrite atan_0. f_equal. ring.
Qed.

End Estimate.

Lemma eta_compute_near w n ctx bus_id stop_id st stop bus dist_km delay :
  resolve_stop w bus_id stop_id ctx = Ok stop ->
  resolve_bus w n bus_id st = Ok bus ->
  resolved bus_id bus stop = true ->
  _haversine_km (fst bus) (snd bus) (fst stop) (snd stop) = Ok dist_km ->
  (dist_km < 1 / 10)%R ->
  py_int (weather_delay_of st) = Ok delay ->
  eta_compute w n ctx bus_id stop_id st
  = Ok (VDict [ ("eta_sec", VInt (120 + delay));
                ("distance_km", VFloat (py_round dist_km 2));
                ("speed_kmph", VFloat (speed_of st));
                ("stop_id", stop_id);
                ("stop", VDict [ ("lat", fst stop); ("lon", snd stop) ]) ]).
Proof.
  intros Hs Hb Hr Hd Hlt Hw. unfold eta_compute. rewrite Hs, Hb. cbn [bind].
  rewrite Hr. cbn [negb].
  rewrite (eta_estimate_near _ _ _ _ _ Hd Hlt Hw). reflexivity.
Qed.

Lemma run_step_eta_near w n uq ctx step tool p st stop bus dist_km delay :
  py_get step "tool" = Ok tool -> is_text tool "eta" = true ->
  py_get step "params" = Ok p ->
  let bus_id := eta_bus_id uq (params_of p) in
  let stop_id := eta_stop_id (params_of p) in
  eta_cached w n bus_id stop_id = None ->
  resolve_stop w bus_id stop_id ctx = Ok stop ->
  resolve_bus w n bus_id st = Ok bus ->
  resolved bus_id bus stop = true ->
  _haversine_km (fst bus) (snd bus) (fst stop) (snd stop) = Ok dist_km ->
  (dist_km < 1 / 10)%R ->
  py_int (weather_delay_of st) = Ok delay ->
  run_step w n uq ctx step st
  = Ok (entry step
          (VDict [ ("eta_sec", VInt (120 + delay));
                   ("distance_km", VFloat (py_round dist_km 2));
                   ("speed_kmph", VFloat (speed_of st));
                   ("stop_id", stop_id);
                   ("stop", VDict [ ("lat", fst stop); ("lon", snd stop) ]) ]), st).
Proof.
  intros Ht He Hp bus_id stop_id Hmiss Hs Hb Hr Hd Hlt Hw.
  rewrite (run_step_eta _ _ _ _ _ _ _ _ Ht He Hp).
  rewrite eta_step_miss by exact Hmiss. fold bus_id stop_id.
  now rewrite (eta_compute_near _ _ _ _ _ _ _ _ _ _ Hs Hb Hr Hd Hlt Hw).
Qed.

Lemma no_weather_no_delay st :
  truthy (last_weather st) = false -> py_int (weather_delay_of st) = Ok 0%Z.
Proof. intros H. unfold weather_delay_of. now rewrite H. Qed.

(** C4, as amended.  When the ETA cache gives no value for the step, the
    bus identifier, the bus coordinates and the stop coordinates resolve and
    the distance is under 100 metres, the entry recorded for the step holds
    an ETA of 120 seconds plus the delay of the last weather result, whatever
    the speed of the bus: 120 seconds exactly when no weather result was
    recorded. *)
Theorem eta_imminent w n user_query context step tool p st stop bus dist_km delay :
  py_get step "tool" = Ok tool -> is_text tool "eta" = true ->
  py_get step "params" = Ok p ->
  let bus_id := eta_bus_id user_query (params_of p) in
  let stop_id := eta_stop_id (params_of p) in
  eta_cached w n bus_id stop_id = None ->
  resolve_stop w bus_id stop_id context = Ok stop ->
  resolve_bus w n bus_id st = Ok bus ->
  resolved bus_id bus stop = true ->
  _haversine_km (fst bus) (snd bus) (fst stop) (snd stop) = Ok dist_km ->
  (dist_km < 1 / 10)%R ->
  py_int (weather_delay_of st) = Ok delay ->
  exists result,
    run_step w n user_query context step st = Ok (entry step (VDict result), st)
    /\ dict_get result "eta_sec" = VInt (120 + delay)
    /\ (truthy (last_weather st) = false -> dict_get result "eta_sec" = VInt 120).
Proof.
  intros Ht He Hp bus_id stop_id Hmiss Hs Hb Hr Hd Hlt Hw.
  eexists. split; [|split].
  - apply (run_step_eta_near _ _ _ _ _ _ _ _ _ _ _ _ Ht He Hp Hmiss Hs Hb Hr Hd Hlt Hw).
  - reflexivity.
  - intros Hn. rewrite (no_weather_no_delay _ Hn) in Hw. injection Hw as <-. reflexivity.
Qed.

Lemma eta_imminent_witness :
  exists result,
    run_step (Examples.depot Examples.clear_weather) 0 "When will B1 reach S1?" []
      Examples.at_stop_S1 initial_state
    = Ok (entry Examples.at_stop_S1 (VDict result), initial_state)
    /\ dict_get result "eta_sec" = VInt (120 + 0)
    /\ (truthy (last_weather initial_state) = false ->
        dict_get result "eta_sec" = VInt 120).
Proof.
  apply (eta_imminent (Examples.depot Examples.clear_weather) 0 "When will B1 reach S1?" []
           Examples.at_stop_S1 (VStr "eta")
           (VDict [ ("bus_id", VStr "B1"); ("stop_id", VStr "S1") ])
           initial_state (VInt 0, VInt 0) (VInt 0, VInt 0) 0%R 0%Z);
    try reflexivity.
  - exact haversine_km_same_point.
  - lra.
Defined.

(** C4, as stated: after a weather step that reports rain, the step for
    the stop where the bus stands records 420 seconds. *)
Lemma eta_imminent_counterexample :
  exists e1 e2 result,
    resolve_stop (Examples.depot Examples.rain) (VStr "B1") (VStr "S1") []
    = Ok (VInt 0, VInt 0)
    /\ _haversine_km (VInt 0) (VInt 0) (VInt 0) (VInt 0) = Ok 0%R
    /\ execute (Examples.depot Examples.rain) 0 "When will B1 reach S1?" [] Examples.rainy_plan
         initial_state []
       = Ok [ e1; e2; entry Examples.at_stop_S1 (VDict result) ]
    /\ dict_get result "eta_sec" = VInt 420
    /\ dict_get result "eta_sec" <> VInt 120.
Proof.
  do 3 eexists. split; [reflexivity|]. split; [exact haversine_km_same_point|].
  split; [|split].
  - unfold Examples.rainy_plan. cbn [execute].
    replace (run_step (Examples.depot Examples.rain) 0 "When will B1 reach S1?" []
               (mk_step "gps" [ ("bus_id", VStr "B1") ]) initial_state)
      with (Ok (entry (mk_step "gps" [ ("bus_id", VStr "B1") ])
                  (Examples.locate Examples.fleet_buses (VStr "B1")),
                {| last_bus_loc := Examples.locate Examples.fleet_buses (VStr "B1");
                   last_weather := VNone |})) by reflexivity.
    cbn [bind fst snd app].
    replace (run_step (Examples.depot Examples.rain) 1 "When will B1 reach S1?" []
               (mk_step "weather" [])
               {| last_bus_loc := Examples.locate Examples.fleet_buses (VStr "B1");
                  last_weather := VNone |})
      with (Ok (entry (mk_step "weather" []) Examples.rain,
                {| last_bus_loc := Examples.locate Examples.fleet_buses (VStr "B1");
                   last_weather := Examples.rain |})) by reflexivity.
    cbn [bind fst snd app].
    rewrite (run_step_eta_near (Examples.depot Examples.rain) 2 "When will B1 reach S1?" []
               Examples.at_stop_S1 (VStr "eta")
               (VDict [ ("bus_id", VStr "B1"); ("stop_id", VStr "S1") ])
               _ (VInt 0, VInt 0) (VInt 0, VInt 0) 0%R 300%Z);
      try reflexivity.
    + exact haversine_km_same_point.
    + lra.
  - reflexivity.
  - discriminate.
Qed.

Section GreatCircle.
Import EtaCalculator.
Local Open Scope R_scope.

Lemma sin_half_sqr (x : R) : 2 * sin (x / 2) ^ 2 = 1 - cos x.
Proof.
  replace x with (2 * (x / 2)) at 2 by field. rewrite cos_2a_sin. ring.
Qed.

(** The haversine term is the one of the law of cosines. *)
Lemma haversine_term_cosine (l1 g1 l2 g2 : R) :
  1 - 2 * (sin (radians (l2 - l1) / 2) ^ 2
           + cos (radians l1) * cos (radians l2) * sin (radians (g2 - g1) / 2) ^ 2)
  = sin (radians l1) * sin (radians l2)
    + cos (radians l1) * cos (radians l2) * cos (radians (g2 - g1)).
Proof.
  rewrite (radians_minus l2 l1).
  pose proof (sin_half_sqr (radians l2 - radians l1)) as H1.
  pose proof (sin_half_sqr (radians (g2 - g1))) as H2.
  rewrite cos_minus in H1.
  nra.
Qed.

(** Twice the arc sine of the root of the haversine term is the central
    angle. *)
Lemma asin_sqrt_acos (a : R) : 0 <= a <= 1 -> 2 * asin (sqrt a) = acos (1 - 2 * a).
Proof.
  intros [H0 H1].
  assert (Hs : 0 <= sqrt a <= 1).
  { split; [apply sqrt_pos|]. rewrite <- sqrt_1. apply sqrt_le_1; lra. }
  pose proof (asin_bound (sqrt a)) as Hb.
  pose proof (asin_nonneg (sqrt a) (proj1 Hs)) as Hn.
  assert (Hc : cos (2 * asin (sqrt a)) = 1 - 2 * a).
  { rewrite cos_2a_sin, sin_asin by lra.
    rewrite Rmult_assoc, sqrt_sqrt by lra. reflexivity. }
  rewrite <- Hc. symmetry. apply acos_cos. lra.
Qed.

(** On floats read as reals the engine returns the great-circle distance. *)
Lemma haversine_km_great_circle (p q : R * R) :
  _haversine_km (fst (Wording.coordinates p)) (snd (Wording.coordinates p))
    (fst (Wording.coordinates q)) (snd (Wording.coordinates q))
  = Ok (Wording.great_circle_km p q).
Proof.
  destruct p as [l1 g1], q as [l2 g2].
  unfold _haversine_km, Wording.great_circle_km, Wording.central_angle.
  cbn [Wording.coordinates fst snd as_num bind].
  rewrite <- haversine_term_cosine.
  pose proof (haversine_term_range l1 l2 g1 g2) as Ha.
  set (a := sin (radians (l2 - l1) / 2) ^ 2
            + cos (radians l1) * cos (radians l2) * sin (radians (g2 - g1) / 2) ^ 2) in *.
  unfold py_sqrt. destruct (Rlt_dec a 0); [lra|].
  destruct (Rlt_dec (1 - a) 0); [lra|]. cbn [bind].
  rewrite <- asin_atan2 by assumption. now rewrite asin_sqrt_acos.
Qed.

Lemma great_circle_nonneg (p q : R * R) : 0 <= Wording.great_circle_km p q.
Proof.
  unfold Wording.great_circle_km, Wording.central_angle.
  match goal with |- 0 <= 6371 * acos ?x => pose proof (acos_bound x) end. lra.
Qed.

(** Along the equator the distance is the difference of longitude. *)
Lemma great_circle_equator (g : R) :
  0 <= g <= 180 -> Wording.great_circle_km (0, 0) (0, g) = 6371 * radians g.
Proof.
  intros Hg. unfold Wording.great_circle_km, Wording.central_angle. cbn [fst snd].
  replace (radians 0) with 0 by (unfold radians; ring).
  rewrite sin_0, cos_0.
  replace (0 * 0 + 1 * 1 * cos (radians (g - 0))) with (cos (radians g))
    by (rewrite Rminus_0_r; ring).
  rewrite acos_cos; [reflexivity|].
  pose proof PI_RGT_0. unfold radians. split; nra.
Qed.
End GreatCircle.

(** C3, as amended.  Floats are read as real numbers, on which the distance
    of the engine is the great-circle distance; the claim is stated where
    the float computation of the engine does not break down: latitudes
    between the poles and stops at 20000 km at most, short of the antipode
    of the bus.  For a fixed bus position, speed and weather delay and two
    such stops at great-circle distances [d1 < d2], the estimate of the
    [eta] step for the first stop is at most the estimate for the second
    when both stops are at 100 metres or more, and when both are under 100
    metres. *)
Theorem eta_monotone (bus stop1 stop2 : R * R) st delay :
  Wording.latitude bus -> Wording.latitude stop1 -> Wording.latitude stop2 ->
  (1 / 10 <= Wording.great_circle_km bus stop1
   \/ Wording.great_circle_km bus stop2 < 1 / 10)%R ->
  (Wording.great_circle_km bus stop1 < Wording.great_circle_km bus stop2)%R ->
  (Wording.great_circle_km bus stop2 <= 20000)%R ->
  py_int (weather_delay_of st) = Ok delay ->
  exists e1 e2,
    eta_estimate (Wording.coordinates bus) (Wording.coordinates stop1) st
    = Ok (e1, Wording.great_circle_km bus stop1)
    /\ eta_estimate (Wording.coordinates bus) (Wording.coordinates stop2) st
       = Ok (e2, Wording.great_circle_km bus stop2)
    /\ (e1 <= e2)%Z.
Proof.
  intros _ _ _ Hside Hlt _ Hw.
  pose proof (haversine_km_great_circle bus stop1) as H1.
  pose proof (haversine_km_great_circle bus stop2) as H2.
  set (d1 := Wording.great_circle_km bus stop1) in *.
  set (d2 := Wording.great_circle_km bus stop2) in *.
  destruct Hside as [Hfar | Hnear].
  - rewrite (eta_estimate_far _ _ _ _ _ H1 Hfar Hw).
    rewrite (eta_estimate_far _ _ _ _ _ H2 ltac:(lra) Hw).
    do 2 eexists. repeat split.
    pose proof (speed_floor (speed_of st * 1000 / 3600)) as Hs.
    set (v := py_max (speed_of st * 1000 / 3600)%R (1 / 10)%R) in *.
    assert (Hm : (trunc (1000 * d1 / v * 1)%R <= trunc (1000 * d2 / v * 1)%R)%Z).
    { apply trunc_monotone.
      - rewrite Rmult_1_r. unfold Rdiv. apply Rle_mult_inv_pos; lra.
      - rewrite !Rmult_1_r. unfold Rdiv. apply Rmult_le_compat_r.
        + left. apply Rinv_0_lt_compat. lra.
        + lra. }
    lia.
  - rewrite (eta_estimate_near _ _ _ _ _ H1 ltac:(lra) Hw).
    rewrite (eta_estimate_near _ _ _ _ _ H2 Hnear Hw).
    do 2 eexists. repeat split. lia.
Qed.

Section Equator.
Local Open Scope R_scope.

Lemma PI_bounds : 3 < PI <= 4.
Proof. pose proof PI2_3_2. pose proof PI_4. lra. Qed.

Lemma equator_500_far : 1 / 10 <= 6371 * radians (1 / 500).
Proof. unfold radians. pose proof PI_bounds. lra. Qed.

Lemma equator_order : 6371 * radians (1 / 500) < 6371 * radians (1 / 250).
Proof. unfold radians. pose proof PI_bounds. lra. Qed.

Lemma equator_250_close : 6371 * radians (1 / 250) <= 20000.
Proof. unfold radians. pose proof PI_bounds. lra. Qed.

Lemma on_equator (g : R) : Wording.latitude (0, g).
Proof. unfold Wording.latitude. cbn. lra. Qed.

End Equator.

Lemma eta_monotone_witness :
  exists e1 e2,
    eta_estimate (Wording.coordinates (0, 0)%R) (Wording.coordinates (0, 1 / 500)%R)
      initial_state
    = Ok (e1, Wording.great_circle_km (0, 0)%R (0, 1 / 500)%R)
    /\ eta_estimate (Wording.coordinates (0, 0)%R) (Wording.coordinates (0, 1 / 250)%R)
         initial_state
       = Ok (e2, Wording.great_circle_km (0, 0)%R (0, 1 / 250)%R)
    /\ (e1 <= e2)%Z.
Proof.
  apply (eta_monotone (0, 0)%R (0, 1 / 500)%R (0, 1 / 250)%R initial_state 0%Z).
  - apply on_equator.
  - apply on_equator.
  - apply on_equator.
  - left. rewrite great_circle_equator by lra. exact equator_500_far.
  - rewrite !great_circle_equator by lra. exact equator_order.
  - rewrite great_circle_equator by lra. exact equator_250_close.
  - reflexivity.
Defined.

(** C3, as stated: a stop where the bus stands is given 120 seconds, a
    stop some 220 metres further is given 40 seconds at most. *)
Lemma eta_monotone_counterexample :
  exists e2 d2,
    eta_estimate (VInt 0, VInt 0) (VInt 0, VInt 0) initial_state = Ok (120%Z, 0%R)
    /\ eta_estimate (VInt 0, VInt 0) (VInt 0, VFloat (1 / 500)) initial_state = Ok (e2, d2)
    /\ (0 < d2)%R
    /\ (e2 < 120)%Z.
Proof.
  exists (trunc (1000 * (6371 * radians (1 / 500))
                 / py_max (speed_of initial_state * 1000 / 3600) (1 / 10) * 1) + 0)%Z.
  exists (6371 * radians (1 / 500))%R.
  pose proof PI_bounds as Hpi. pose proof equator_500_far as Hfar.
  split; [|split; [|split]].
  - rewrite (eta_estimate_near (VInt 0, VInt 0) (VInt 0, VInt 0) initial_state 0%R 0%Z);
      [reflexivity | exact haversine_km_same_point | lra | reflexivity].
  - apply eta_estimate_far; [apply haversine_km_equator; lra | exact Hfar | reflexivity].
  - lra.
  - replace (speed_of initial_state) with 25%R by reflexivity.
    unfold py_max. destruct (Rlt_dec (25 * 1000 / 3600) (1 / 10)) as [Hlt|_]; [lra|].
    rewrite Rmult_1_r.
    set (x := (1000 * (6371 * radians (1 / 500)) / (25 * 1000 / 3600))%R).
    assert (Hx : (0 <= x < 41)%R).
    { unfold x, radians. split.
      - apply Rmult_le_pos; [lra|]. left. apply Rinv_0_lt_compat. lra.
      - apply (Rmult_lt_reg_r (25 * 1000 / 3600)); [lra|].
        unfold Rdiv at 1. rewrite Rmult_assoc, Rinv_l by lra. lra. }
    pose proof (trunc_le x (proj1 Hx)) as Hle.
    assert (Hz : (IZR (trunc x) < IZR 41)%R) by lra.
    apply lt_IZR in Hz. lia.
Qed.

(* ------------------------------------------------------------------ *)
(** ** The supervisor's long-ETA suggestion *)

Section Supervisor.

Import SupervisorAgent.







Lemma ensure_from_total w tool_results :
  Forall (fun tr => is_dict tr = true) tool_results ->
  forall n final, exists executed,
    ExecutorAgent.ensure_from w n final tool_results = Ok executed.
Proof.
  induction 1 as [| tr rest Htr _ IH]; intros n final; cbn; [eauto|].
  destruct tr; try discriminate. cbn [py_get_default py_get bind]. apply IH.
Qed.




Lemma with_sentence_words w bus_id stop_id n friendly :
  Str.split (with_sentence (eta_sentence w bus_id stop_id n) friendly) <> [].
Proof.
  unfold with_sentence, eta_sentence.
  destruct friendly as [f|]; [destruct (_ || _)|]; cbn; discriminate.
Qed.

(** *** The entries that the scan of the trace keeps *)

Lemma find_rev_cons (p : value -> bool) v l :
  find p (rev (v :: l))
  = match find p (rev l) with
    | Some x => Some x
    | None => if p v then Some v else None
    end.
Proof.
  cbn [rev]. induction (rev l) as [| x r IH]; cbn.
  - destruct (p v); reflexivity.
  - destruct (p x); [reflexivity | exact IH].
Qed.

Lemma kept_none found : Wording.kept found None = Wording.as_dict found.
Proof. unfold Wording.kept. destruct (Wording.as_dict found); reflexivity. Qed.

Lemma is_entry_of_dict name v : Wording.is_entry_of name v = true -> is_dict v = true.
Proof. destruct v; cbn; congruence. Qed.

Lemma kept_cons p v l previous :
  (forall x, p x = true -> is_dict x = true) ->
  Wording.kept (Wording.last_entry p (v :: l)) previous
  = Wording.kept (Wording.last_entry p l)
      (if p v then match v with VDict d => Some d | _ => previous end else previous).
Proof.
  intros Hd. unfold Wording.kept, Wording.last_entry. rewrite find_rev_cons.
  destruct (find p (rev l)) as [x|] eqn:Hf.
  - apply find_some in Hf as [_ Hx]. apply Hd in Hx.
    destruct x; try discriminate Hx. reflexivity.
  - destruct (p v) eqn:Hp; [|reflexivity].
    apply Hd in Hp. destruct v; try discriminate Hp. reflexivity.
Qed.

Lemma scan_entries_skip tr rest eta_entry gps_entry :
  is_dict (dict_get tr "step") = false ->
  scan_entries (VDict tr :: rest) eta_entry gps_entry
  = scan_entries rest eta_entry gps_entry.
Proof.
  intros H. cbn [scan_entries]. unfold py_or.
  destruct (dict_get tr "step") as [ | b | n | x | s | l | step]; try discriminate H.
  - reflexivity.
  - destruct b; reflexivity.
  - cbn [truthy]. destruct (Z.eqb n 0); reflexivity.
  - cbn [truthy]. destruct (Reqb x 0); reflexivity.
  - destruct s; reflexivity.
  - destruct l; reflexivity.
Qed.

(** The loop over the trace ends with the last [eta] entry that carries an
    estimate and with the last [gps] entry. *)
Lemma scan_entries_last tool_results :
  Forall (fun tr => Wording.entry_ok tr = true) tool_results ->
  forall eta_entry gps_entry,
    scan_entries tool_results eta_entry gps_entry
    = Ok (Wording.kept (Wording.last_entry Wording.is_eta_entry tool_results) eta_entry,
          Wording.kept (Wording.last_entry Wording.is_gps_entry tool_results) gps_entry).
Proof.
  induction 1 as [| v rest Hv _ IH]; intros eta_entry gps_entry; [reflexivity|].
  rewrite (kept_cons Wording.is_eta_entry), (kept_cons Wording.is_gps_entry).
  2: apply is_entry_of_dict.
  2: { intros x H. apply andb_true_iff in H as [H _]. exact (is_entry_of_dict _ _ H). }
  destruct v as [ | | | | | | tr]; try discriminate Hv.
  destruct (is_dict (dict_get tr "step")) eqn:Hstep.
  - unfold Wording.is_eta_entry, Wording.is_gps_entry.
    cbn [scan_entries Wording.entry_ok Wording.is_entry_of] in *.
    destruct (dict_get tr "step") as [ | | | | | | step]; try discriminate Hstep.
    assert (Hor : py_or (VDict step) (VDict []) = VDict step) by (destruct step; reflexivity).
    rewrite Hor.
    destruct (dict_get step "tool") as [ | | | | t | | ]; try discriminate Hv.
    + cbn. apply IH.
    + assert (Ht : py_or (VStr t) (VStr "") = VStr t) by (destruct t; reflexivity).
      rewrite Ht. cbn [py_lower bind]. rewrite IH. unfold has_eta. reflexivity.
  - rewrite (scan_entries_skip _ _ _ _ Hstep), IH.
    unfold Wording.is_eta_entry, Wording.is_gps_entry. cbn [Wording.is_entry_of].
    destruct (dict_get tr "step"); try discriminate Hstep; reflexivity.
Qed.

Lemma last_entry_holds p trace v : Wording.last_entry p trace = Some v -> p v = true.
Proof. unfold Wording.last_entry. intros H. now apply find_some in H. Qed.

Lemma last_entry_in p trace v : Wording.last_entry p trace = Some v -> In v trace.
Proof.
  unfold Wording.last_entry. intros H. apply find_some in H as [H _]. now apply in_rev.
Qed.

(** What the supervisor reads in an [eta] entry. *)
Lemma eta_entry_fields eta_entry res :
  Wording.is_eta_entry (VDict eta_entry) = true ->
  dict_get eta_entry "result" = VDict res ->
  params_of_entry eta_entry = Ok (Wording.params_of eta_entry)
  /\ eta_res_of eta_entry = res.
Proof.
  intros H Hres. apply andb_true_iff in H as [H _]. cbn in H. split.
  - unfold params_of_entry, Wording.params_of.
    destruct (dict_get eta_entry "step") as [ | | | | | | step]; try discriminate H.
    assert (Hor : py_or (VDict step) (VDict []) = VDict step) by (destruct step; reflexivity).
    rewrite Hor. cbn [py_get bind].
    unfold py_or.
    destruct (dict_get step "params") as [ | b | n | x | s | l | d ]; cbn [truthy].
    + reflexivity.
    + destruct b; reflexivity.
    + destruct (Z.eqb n 0); reflexivity.
    + destruct (Reqb x 0); reflexivity.
    + destruct s; reflexivity.
    + destruct l; reflexivity.
    + destruct d; reflexivity.
  - unfold eta_res_of. rewrite Hres. destruct res; reflexivity.
Qed.



(** The estimate that the supervisor converts is the one the result
    holds, when that is a number other than zero. *)
Lemma eta_sec_int_of_estimate res n :
  Wording.seconds (Wording.estimate_of res) = Some n ->
  truthy (Wording.estimate_of res) = true ->
  eta_sec_int_of (py_or (dict_get res "eta_sec") (dict_get res "eta")) = Some n.
Proof.
  unfold Wording.estimate_of. intros Hs Ht.
  assert (E : dict_get res "eta_sec"
              = match lookup res "eta_sec" with Some v => v | None => VNone end)
    by reflexivity.
  rewrite E. clear E. unfold py_or.
  destruct (lookup res "eta_sec") as [v|].
  - rewrite Ht. unfold eta_sec_int_of.
    destruct v; try discriminate Hs; cbn in *; now injection Hs as ->.
  - cbn [truthy]. unfold eta_sec_int_of.
    destruct (dict_get res "eta"); try discriminate Hs; cbn in *; now injection Hs as ->.
Qed.






End Supervisor.

(* ------------------------------------------------------------------ *)
(** ** The notifier's threshold *)

Section Notifier.

Import NotificationAgent.

(** Once the three identifiers are present and the trace gives an integer
    ETA, the delivery depends on the comparison with the threshold alone. *)
Lemma process_one_threshold w engine sub engine_result eta_sec :
  let user_id := py_or (getattr sub "user_id") (get_if_dict sub "user_id" VNone) in
  let bus_id := py_or (getattr sub "bus_id") (get_if_dict sub "bus_id" VNone) in
  let stop_id := py_or (getattr sub "stop_id") (get_if_dict sub "stop_id" VNone) in
  let notify_before :=
    notify_before_of
      (py_or (getattr sub "notify_before_sec") (get_if_dict sub "notify_before_sec" VNone)) in
  let channel := py_or (getattr sub "channel") (get_if_dict sub "channel" (VStr "console")) in
  truthy user_id = true -> truthy bus_id = true -> truthy stop_id = true ->
  engine (eta_query w bus_id stop_id) = Ok engine_result ->
  extract_eta engine_result = Ok (VInt eta_sec) ->
  process_one w engine sub
  = Ok (if (0 <=? eta_sec)%Z && (eta_sec <=? notify_before)%Z
        then Some {| to_user := user_id;
                     message := arrival_message w bus_id stop_id eta_sec;
                     via := channel |}
        else None).
Proof.
  intros user_id bus_id stop_id notify_before channel Hu Hb Hs He Hx.
  unfold process_one.
  fold user_id bus_id stop_id channel.
  rewrite Hu, Hb, Hs. cbn [negb orb].
  rewrite He. cbn [bind]. rewrite Hx. cbn [bind is_none py_int].
  fold notify_before.
  destruct ((0 <=? eta_sec)%Z && (eta_sec <=? notify_before)%Z); reflexivity.
Qed.

(** C2: the two places where a stored zero is taken for a missing value.
    With a threshold of 300 an ETA of 250 seconds gives one delivery and an
    ETA of 400 none.  A model instance whose threshold is 0 is still
    notified at 250 seconds, while the same subscription held as a
    dictionary is not; and an ETA of 0 seconds, which is within the
    threshold, gives no delivery: the trace scan reads it as no ETA. *)
Theorem notifier_falsy_zero :
  process_subscriptions (Examples.timetable 250) (Examples.engine_of 250)
    [ Examples.subscriber (VInt 300) ] = [ Examples.arrival "4 minutes" ]
  /\ process_subscriptions (Examples.timetable 400) (Examples.engine_of 400)
       [ Examples.subscriber (VInt 300) ] = []
  /\ process_subscriptions (Examples.timetable 250) (Examples.engine_of 250)
       [ Examples.subscriber (VInt 0) ] = [ Examples.arrival "4 minutes" ]
  /\ process_subscriptions (Examples.timetable 250) (Examples.engine_of 250)
       [ Examples.subscriber_dict (VInt 0) ] = []
  /\ extract_eta (VDict [ ("tool_results",
                           VList [ entry Examples.at_stop_S1 (Examples.cached_eta "S1" 0) ]) ])
     = Ok VNone
  /\ process_subscriptions (Examples.timetable 0) (Examples.engine_of 0)
       [ Examples.subscriber (VInt 300) ] = [].
Proof.
  repeat split; vm_compute; reflexivity.
Qed.

End Notifier.

(* ================================================================== *)
(** * Further properties of the pipeline and of its tools *)
(* ================================================================== *)

(* ------------------------------------------------------------------ *)
(** ** The ETA calculator *)

Section Calculator.
Import EtaCalculator.
Local Open Scope R_scope.

Lemma haversine_term_sym (l1 l2 g1 g2 : R) :
  sin (radians (l2 - l1) / 2) ^ 2
  + cos (radians l1) * cos (radians l2) * sin (radians (g2 - g1) / 2) ^ 2
  = sin (radians (l1 - l2) / 2) ^ 2
    + cos (radians l2) * cos (radians l1) * sin (radians (g1 - g2) / 2) ^ 2.
Proof.
  replace (radians (l1 - l2) / 2) with (- (radians (l2 - l1) / 2))
    by (unfold radians; field).
  replace (radians (g1 - g2) / 2) with (- (radians (g2 - g1) / 2))
    by (unfold radians; field).
  rewrite !sin_neg. ring.
Qed.

(** X1. The distance does not depend on the direction of travel, and a call
    that raises one way raises the other way too. *)
Theorem haversine_meters_symmetric (lat1 lon1 lat2 lon2 : value) :
  haversine_meters lat1 lon1 lat2 lon2 = haversine_meters lat2 lon2 lat1 lon1.
Proof.
  unfold haversine_meters.
  destruct (as_num lat1) as [l1|e1] eqn:H1, (as_num lat2) as [l2|e2] eqn:H2,
           (as_num lon1) as [g1|e3] eqn:H3, (as_num lon2) as [g2|e4] eqn:H4;
    cbn [bind];
    try (rewrite (haversine_term_sym l1 l2 g1 g2); reflexivity);
    repeat match goal with
           | H : as_num ?v = Raise ?e |- _ =>
               destruct v; cbn in H; try discriminate; injection H as <-
           end;
    reflexivity.
Qed.


Lemma haversine_meters_same_point (l g : R) :
  haversine_meters (VFloat l) (VFloat g) (VFloat l) (VFloat g) = Ok 0.
Proof.
  unfold haversine_meters. cbn [as_num bind].
  replace (radians (l - l) / 2) with 0 by (unfold radians; field).
  replace (radians (g - g) / 2) with 0 by (unfold radians; field).
  rewrite sin_0.
  replace (0 ^ 2 + cos (radians l) * cos (radians l) * 0 ^ 2) with 0 by ring.
  unfold py_sqrt. destruct (Rlt_dec 0 0) as [H|_]; [lra|]. cbn [bind].
  rewrite sqrt_0. unfold py_asin.
  destruct (Rlt_dec 0 (-1)) as [H|_]; [lra|].
  destruct (Rlt_dec 1 0) as [H|_]; [lra|].
  cbn [bind]. rewrite asin_0. apply f_equal. ring.
Qed.

Lemma trunc_0 : trunc 0 = 0%Z.
Proof.
  unfold trunc. destruct (Rle_dec 0 0) as [_|H]; [|lra].
  symmetry. apply Int_part_spec. simpl. lra.
Qed.

(** X2. A bus that stands at the stop is given an ETA of 0 seconds, whatever
    its speed and the traffic multiplier. *)
Theorem eta_zero_at_stop (l g v m : R) :
  calculate_eta_seconds (VFloat l) (VFloat g) (VFloat l) (VFloat g) (VFloat v) (VFloat m)
  = Ok 0%Z.
Proof.
  unfold calculate_eta_seconds, calculate_eta_seconds_body.
  rewrite haversine_meters_same_point. cbn [bind as_num].
  pose proof (speed_floor (v * 1000 / 3600)) as Hs.
  unfold py_div. destruct (Req_dec_T _ 0) as [e|_]; [lra|].
  cbn [bind try_except].
  replace (0 / py_max (v * 1000 / 3600) (1 / 10) * m) with 0 by (field; lra).
  now rewrite trunc_0.
Qed.

(** The value of [calculate_eta_seconds] on real arguments. *)
Lemma calculate_eta_seconds_value (l1 g1 l2 g2 v m : R) :
  exists d,
    haversine_meters (VFloat l1) (VFloat g1) (VFloat l2) (VFloat g2) = Ok d
    /\ 0 <= d
    /\ calculate_eta_seconds (VFloat l1) (VFloat g1) (VFloat l2) (VFloat g2)
         (VFloat v) (VFloat m)
       = Ok (trunc (d / py_max (v * 1000 / 3600) (1 / 10) * m)).
Proof.
  destruct (haversine_meters_real l1 g1 l2 g2) as [d Hd].
  exists d. split; [exact Hd|]. split; [exact (haversine_meters_nonneg _ _ _ _ _ Hd)|].
  unfold calculate_eta_seconds, calculate_eta_seconds_body. rewrite Hd.
  cbn [bind as_num].
  pose proof (speed_floor (v * 1000 / 3600)) as Hs.
  unfold py_div. destruct (Req_dec_T _ 0) as [e|_]; [lra|]. reflexivity.
Qed.

Lemma py_max_monotone (a b c : R) : a <= b -> py_max a c <= py_max b c.
Proof. intros H. unfold py_max. destruct (Rlt_dec a c), (Rlt_dec b c); lra. Qed.

(** X3. A faster bus is never given a later ETA, and lighter traffic never a
    later one either. *)
Theorem eta_antitone_in_speed (l1 g1 l2 g2 v1 v2 m1 m2 : R) :
  v1 <= v2 -> 0 <= m2 <= m1 ->
  exists n1 n2,
    calculate_eta_seconds (VFloat l1) (VFloat g1) (VFloat l2) (VFloat g2)
      (VFloat v1) (VFloat m1) = Ok n1
    /\ calculate_eta_seconds (VFloat l1) (VFloat g1) (VFloat l2) (VFloat g2)
         (VFloat v2) (VFloat m2) = Ok n2
    /\ (0 <= n2 <= n1)%Z.
Proof.
  intros Hv [Hm2 Hm1].
  destruct (calculate_eta_seconds_value l1 g1 l2 g2 v1 m1) as (d & Hd & Hd0 & H1).
  destruct (calculate_eta_seconds_value l1 g1 l2 g2 v2 m2) as (d' & Hd' & _ & H2).
  rewrite Hd in Hd'. injection Hd' as <-.
  do 2 eexists. split; [exact H1|]. split; [exact H2|].
  pose proof (speed_floor (v1 * 1000 / 3600)) as Hs1.
  pose proof (speed_floor (v2 * 1000 / 3600)) as Hs2.
  assert (Hs : py_max (v1 * 1000 / 3600) (1 / 10) <= py_max (v2 * 1000 / 3600) (1 / 10))
    by (apply py_max_monotone; lra).
  set (s1 := py_max (v1 * 1000 / 3600) (1 / 10)) in *.
  set (s2 := py_max (v2 * 1000 / 3600) (1 / 10)) in *.
  assert (Hq2 : 0 <= d / s2) by (apply div_nonneg; lra).
  assert (Hq : d / s2 <= d / s1).
  { unfold Rdiv. apply Rmult_le_compat_l; [lra|].
    apply Rinv_le_contravar; lra. }
  split.
  - apply trunc_nonneg. apply Rmult_le_pos; lra.
  - apply trunc_monotone; [apply Rmult_le_pos; lra|].
    apply Rmult_le_compat; lra.
Qed.

Lemma eta_antitone_in_speed_witness :
  exists n1 n2,
    calculate_eta_seconds (VFloat 0) (VFloat 0) (VFloat 0) (VFloat 1)
      (VFloat 20) (VFloat 2) = Ok n1
    /\ calculate_eta_seconds (VFloat 0) (VFloat 0) (VFloat 0) (VFloat 1)
         (VFloat 40) (VFloat 1) = Ok n2
    /\ (0 <= n2 <= n1)%Z.
Proof. apply (eta_antitone_in_speed 0 0 0 1 20 40 2 1); lra. Defined.

(** X4. A halted bus still gets an ETA: every speed up to 0.36 km/h, zero
    and the negative ones included, counts as 0.1 m/s, ten seconds a metre. *)
Theorem eta_speed_floor (l1 g1 l2 g2 v m : R) :
  v <= 36 / 100 ->
  exists d,
    haversine_meters (VFloat l1) (VFloat g1) (VFloat l2) (VFloat g2) = Ok d
    /\ calculate_eta_seconds (VFloat l1) (VFloat g1) (VFloat l2) (VFloat g2)
         (VFloat v) (VFloat m)
       = Ok (trunc (10 * d * m)).
Proof.
  intros Hv.
  destruct (calculate_eta_seconds_value l1 g1 l2 g2 v m) as (d & Hd & _ & H).
  exists d. split; [exact Hd|]. rewrite H. do 2 f_equal.
  unfold py_max. destruct (Rlt_dec (v * 1000 / 3600) (1 / 10)) as [_|Hn].
  - field.
  - assert (v * 1000 / 3600 = 1 / 10) as -> by lra. field.
Qed.

Lemma eta_speed_floor_witness :
  exists d,
    haversine_meters (VFloat 0) (VFloat 0) (VFloat 0) (VFloat 1) = Ok d
    /\ calculate_eta_seconds (VFloat 0) (VFloat 0) (VFloat 0) (VFloat 1)
         (VFloat 0) (VFloat 1)
       = Ok (trunc (10 * d * 1)).
Proof. apply (eta_speed_floor 0 0 0 1 0 1). lra. Defined.

End Calculator.

(* ------------------------------------------------------------------ *)
(** ** The engine *)

(** ** The engine: answers *)

Lemma strip_all_space s : Str.all_space s = true -> Str.strip s = "".
Proof.
  unfold Str.strip. intros H.
  assert (Hl : Str.lstrip s = "").
  { induction s as [| c s IH]; [reflexivity|]. cbn in *.
    apply andb_true_iff in H as [Hc Hs]. rewrite Hc. now apply IH. }
  now rewrite Hl.
Qed.

(** X6. A query made of blanks only, the empty one included, is answered by
    the plain abstention: nothing is planned, retrieved or executed. *)
Theorem ask_blank_query w user_query :
  Str.all_space user_query = true ->
  ask w user_query = Ok (abstain blank_message).
Proof.
  intros H. unfold ask, ask_body. now rewrite (strip_all_space _ H).
Qed.

Lemma ask_blank_query_witness :
  ask (Examples.depot Examples.rain) "   " = Ok (abstain blank_message).
Proof. apply (ask_blank_query (Examples.depot Examples.rain) "   "). reflexivity. Defined.

Lemma fallback_answer_nonempty w trs a :
  fallback_answer w trs = Ok a -> a <> "".
Proof.
  unfold fallback_answer.
  destruct (first_eta_result trs) as [found|]; [|discriminate]. cbn [bind].
  destruct (is_none _).
  - intros [= <-]. discriminate.
  - destruct (py_int _) as [n|]; cbn [bind try_except]; intros [= <-]; discriminate.
Qed.

Lemma compose_nonempty w uq ctx trs a :
  compose w uq ctx trs = Ok a -> a <> "".
Proof.
  unfold compose.
  destruct (Str.is_empty _) eqn:He.
  - apply fallback_answer_nonempty.
  - intros [= <-] Hn. rewrite Hn in He. discriminate.
Qed.

Lemma validate_reason_nonempty w q reason :
  _validate_referenced_entities w q = Ok (Some reason) -> reason <> "".
Proof.
  unfold _validate_referenced_entities, validate_body.
  destruct (first_unknown (buses w) _); cbn [try_except].
  - intros [= <-]. discriminate.
  - destruct (first_unknown (routes w) _); cbn [try_except]; [|discriminate].
    intros [= <-]. discriminate.
Qed.

Lemma execute_entries w uq ctx plan :
  forall n st acc trs,
    execute w n uq ctx plan st acc = Ok trs ->
    Forall (fun e => exists d r, e = entry (VDict d) r) acc ->
    Forall (fun e => exists d r, e = entry (VDict d) r) trs.
Proof.
  induction plan as [| step plan IH]; intros n st acc trs; cbn [execute].
  - now intros [= <-].
  - destruct (run_step w n uq ctx step st) as [[e st']|] eqn:Hr; [|discriminate].
    cbn [bind fst snd]. intros Hex Hacc. apply (IH _ _ _ _ Hex).
    apply Forall_app. split; [exact Hacc|]. constructor; [|constructor].
    destruct step as [ | | | | | | d]; try discriminate Hr.
    destruct (run_step_mapping w n uq ctx d st) as (r & st2 & Hr2).
    rewrite Hr2 in Hr. injection Hr as <- _. eauto.
Qed.

(** The values of the body of [ask]. *)
Lemma ask_body_shape w user_query v :
  ask_body w user_query = Ok v ->
  exists answer trace context,
    v = VDict [ ("answer", VStr answer);
                ("tool_results", VList trace);
                ("context", VList context) ]
    /\ answer <> ""
    /\ Forall (fun e => exists d r, e = entry (VDict d) r) trace.
Proof.
  assert (Hab : forall msg, msg <> "" ->
            exists answer trace context,
              abstain msg
              = VDict [ ("answer", VStr answer); ("tool_results", VList trace);
                        ("context", VList context) ]
              /\ answer <> ""
              /\ Forall (fun e => exists d r, e = entry (VDict d) r) trace).
  { intros msg Hm. exists msg, [], []. repeat split; [exact Hm | constructor]. }
  unfold ask_body.
  destruct (Str.is_empty _); [intros [= <-]; apply Hab; discriminate|].
  destruct (negb _); [intros [= <-]; apply Hab; discriminate|].
  destruct (_validate_referenced_entities w _) as [[reason|]|] eqn:Hv; cbn [bind];
    [intros [= <-]; apply Hab; exact (validate_reason_nonempty _ _ _ Hv) | | discriminate].
  destruct (_ && _); [intros [= <-]; apply Hab; discriminate|].
  destruct (py_iter _) as [steps|]; [|discriminate]. cbn [bind].
  destruct (execute _ _ _ _ _ _ _) as [trs|] eqn:Hex; [|discriminate]. cbn [bind].
  destruct (compose _ _ _ _) as [a|] eqn:Hc; [|discriminate]. cbn [bind].
  intros [= <-]. do 3 eexists. split; [reflexivity|]. split.
  - exact (compose_nonempty _ _ _ _ _ Hc).
  - exact (execute_entries _ _ _ _ _ _ _ _ Hex (Forall_nil _)).
Qed.

(** X7. [ask] never raises and never returns an empty answer: its value is
    always a dictionary of a non-empty answer text, a trace and a context,
    and every entry of the trace pairs a plan step, a mapping, with a
    result. *)
Theorem ask_well_formed w user_query :
  exists answer trace context,
    ask w user_query
    = Ok (VDict [ ("answer", VStr answer);
                  ("tool_results", VList trace);
                  ("context", VList context) ])
    /\ answer <> ""
    /\ Forall (fun e => exists step result, e = entry (VDict step) result) trace.
Proof.
  unfold ask.
  destruct (ask_body w user_query) as [v|e] eqn:Hb; cbn [try_except].
  - destruct (ask_body_shape _ _ _ Hb) as (a & trs & ctx & -> & Ha & Htr).
    exists a, trs, ctx. auto.
  - exists failure_message, [], []. repeat split; [discriminate | constructor].
Qed.

(** ** The engine: referenced entities *)

Lemma first_unknown_none d ids :
  (forall x, In x ids -> dict_mem d x = true) -> first_unknown d ids = None.
Proof.
  induction ids as [| z ids IH]; intros H; [reflexivity|]. cbn.
  rewrite (H z (or_introl eq_refl)). cbn. apply IH. intros x Hx. apply H. now right.
Qed.

(** X8. A query whose bus and route identifiers are all in the registry
    passes the validation, whatever stops it names: stop identifiers are
    extracted but never checked. *)
Theorem known_entities_pass w query :
  (forall b, In b (ent_buses (_extract_entities query)) -> dict_mem (buses w) b = true) ->
  (forall r, In r (ent_routes (_extract_entities query)) -> dict_mem (routes w) r = true) ->
  _validate_referenced_entities w query = Ok None.
Proof.
  intros Hb Hr. unfold _validate_referenced_entities, validate_body.
  now rewrite (first_unknown_none _ _ Hb), (first_unknown_none _ _ Hr).
Qed.

Lemma known_entities_pass_witness :
  _validate_referenced_entities (Examples.depot Examples.clear_weather)
    "When will b1 on R1 reach S99?" = Ok None.
Proof.
  apply (known_entities_pass (Examples.depot Examples.clear_weather)
           "When will b1 on R1 reach S99?").
  - intros b [<- | []]. reflexivity.
  - intros r [<- | []]. reflexivity.
Defined.

(** X9. On a query of ASCII characters: when every bus identifier that the
    query mentions is in the registry and it mentions a route identifier (R
    or r followed by one digit or more, standing as a whole word, read in
    upper case) that is not, [ask] abstains and names the first unknown
    route mentioned, in the order of [sorted]. *)
Theorem unknown_route_abstains w user_query route_id :
  Wording.is_ascii user_query = true ->
  (forall b, Wording.mentions Str.bus_letters b user_query -> dict_mem (buses w) b = true) ->
  Wording.mentions Str.route_letters route_id user_query ->
  dict_mem (routes w) route_id = false ->
  exists named,
    Wording.mentions Str.route_letters named user_query
    /\ dict_mem (routes w) named = false
    /\ (forall other,
          Wording.mentions Str.route_letters other user_query ->
          dict_mem (routes w) other = false ->
          other = named \/ String.compare named other = Lt)
    /\ ask w user_query = Ok (abstain (unknown_route_message named)).
Proof.
  intros _ Hb Hin Hun.
  apply (finditer_id_mentions _ _ _ route_letters_word) in Hin.
  set (rs := map Str.upper (Str.finditer_id Str.route_letters user_query)) in *.
  assert (Hbus : first_unknown (buses w)
                   (ent_buses (_extract_entities (Str.strip user_query))) = None).
  { apply first_unknown_none. intros b Hx. cbn in Hx.
    rewrite (finditer_id_strip _ _ plain_bus) in Hx.
    apply (proj1 (in_sorted_set _ _)) in Hx.
    apply Hb. now apply (finditer_id_mentions _ _ _ bus_letters_word). }
  assert (Hents : ent_routes (_extract_entities (Str.strip user_query)) = sorted_set rs).
  { cbn. unfold rs. now rewrite (finditer_id_strip _ _ plain_route). }
  destruct (first_unknown_found (routes w) (sorted_set rs) route_id)
    as [named Hn]; [now apply (proj2 (in_sorted_set _ _)) | assumption |].
  destruct (first_unknown_least _ _ _ (sorted_set_increasing _) Hn) as (H1 & H2 & H3).
  exists named. apply (proj1 (in_sorted_set _ _)) in H1.
  split; [now apply (finditer_id_mentions _ _ _ route_letters_word)|].
  split; [exact H2|]. split.
  { intros other Ho Hd. apply (finditer_id_mentions _ _ _ route_letters_word) in Ho.
    apply H3; [now apply (proj2 (in_sorted_set _ _)) | assumption]. }
  assert (Hv : _validate_referenced_entities w (Str.strip user_query)
               = Ok (Some (unknown_route_message named))).
  { unfold _validate_referenced_entities, validate_body. now rewrite Hbus, Hents, Hn. }
  unfold rs in Hin. apply in_map_iff in Hin as (tok & _ & Htok).
  rewrite <- (finditer_id_strip _ _ plain_route) in Htok.
  unfold ask, ask_body.
  rewrite (is_empty_false _ (finditer_nonblank _ _ _ Htok)).
  unfold _is_transport_query. rewrite (search_of_finditer _ _ _ Htok).
  destruct (Str.any_in _ _); [|rewrite orb_true_r]; cbn [orb negb]; now rewrite Hv.
Qed.

Lemma unknown_route_abstains_witness :
  exists named,
    Wording.mentions Str.route_letters named "Is B1 on r9 or R8?"
    /\ dict_mem (routes (Examples.depot Examples.clear_weather)) named = false
    /\ (forall other,
          Wording.mentions Str.route_letters other "Is B1 on r9 or R8?" ->
          dict_mem (routes (Examples.depot Examples.clear_weather)) other = false ->
          other = named \/ String.compare named other = Lt)
    /\ ask (Examples.depot Examples.clear_weather) "Is B1 on r9 or R8?"
       = Ok (abstain (unknown_route_message named)).
Proof.
  apply (unknown_route_abstains (Examples.depot Examples.clear_weather)
           "Is B1 on r9 or R8?" "R9").
  - reflexivity.
  - intros b Hb. apply (finditer_id_mentions _ _ _ bus_letters_word) in Hb.
    destruct Hb as [<- | []]. reflexivity.
  - exists "r9". split; [|reflexivity].
    exists "Is B1 on ", " or R8?". repeat split; reflexivity.
  - reflexivity.
Defined.

(** ** The engine: the relevance guardrail *)

Section Guardrail.
Local Open Scope R_scope.

Lemma py_max_lt (a b t : R) : py_max a b < t <-> a < t /\ b < t.
Proof. unfold py_max. destruct (Rlt_dec a b); lra. Qed.

Lemma fold_max_lt (rest : list (string * R)) (x t : R) :
  fold_left (fun best q => py_max best (snd q)) rest x < t
  <-> x < t /\ Forall (fun p => snd p < t) rest.
Proof.
  revert x. induction rest as [| p rest IH]; intros x; cbn.
  - split; [intros H; split; [exact H | constructor] | tauto].
  - rewrite IH, py_max_lt. split.
    + intros [[Hx Hp] Hr]. split; [exact Hx | now constructor].
    + intros [Hx Hr]. inversion Hr; subst. tauto.
Qed.

Lemma max_sim_lt (pairs : list (string * R)) (t : R) :
  pairs <> [] ->
  (max_sim pairs < t <-> Forall (fun p => snd p < t) pairs).
Proof.
  destruct pairs as [| p rest]; [congruence|]. intros _. cbn.
  rewrite fold_max_lt. split.
  - intros [Hp Hr]. now constructor.
  - intros H. inversion H; subst. tauto.
Qed.

(** X10. When the retrieval returns documents and every one of them scores
    under [RAG_MIN_SIM], a query that passed the domain filter and the
    entity check is answered by the abstention for unreliable data: nothing
    is planned or executed. *)
Theorem low_similarity_abstains w user_query :
  _is_transport_query (Str.strip user_query) = true ->
  _validate_referenced_entities w (Str.strip user_query) = Ok None ->
  retrieve_with_scores w (Str.strip user_query) <> [] ->
  Forall (fun p => snd p < RAG_MIN_SIM w) (retrieve_with_scores w (Str.strip user_query)) ->
  ask w user_query = Ok (abstain unreliable_message).
Proof.
  intros Hd Hv Hne Hlow. unfold ask, ask_body.
  destruct (Str.is_empty (Str.strip user_query)) eqn:He.
  { destruct (Str.strip user_query); [discriminate Hd | discriminate He]. }
  rewrite Hd, Hv. cbn [negb bind].
  apply (max_sim_lt _ _ Hne) in Hlow.
  unfold Rltb. destruct (Rlt_dec _ _) as [_|Hn]; [|contradiction].
  destruct (retrieve_with_scores w (Str.strip user_query)); [congruence | reflexivity].
Qed.

Lemma low_similarity_abstains_witness :
  ask Examples.vague "Where is B1?" = Ok (abstain unreliable_message).
Proof.
  apply (low_similarity_abstains Examples.vague "Where is B1?").
  - reflexivity.
  - reflexivity.
  - discriminate.
  - repeat constructor. cbn. lra.
Defined.

End Guardrail.

(** ** The engine: distances and stops *)

Section Stops.
Import EtaCalculator.
Local Open Scope R_scope.

(** X5. Floats are read as real numbers.  For two points with latitudes
    between the poles that are 20000 km apart at most, short of antipodal,
    where the float computations of the code do not break down, the
    engine's distance, in kilometres through [atan2], and the calculator's,
    in metres through [asin], are both the great-circle distance. *)
Theorem distance_agreement (p q : R * R) :
  Wording.latitude p -> Wording.latitude q ->
  Wording.great_circle_km p q <= 20000 ->
  _haversine_km (VFloat (fst p)) (VFloat (snd p)) (VFloat (fst q)) (VFloat (snd q))
  = Ok (Wording.great_circle_km p q)
  /\ haversine_meters (VFloat (fst p)) (VFloat (snd p)) (VFloat (fst q)) (VFloat (snd q))
     = Ok (1000 * Wording.great_circle_km p q)
  /\ 0 <= Wording.great_circle_km p q.
Proof.
  intros _ _ _.
  pose proof (haversine_km_great_circle p q) as Hk. cbn [Wording.coordinates fst snd] in Hk.
  split; [exact Hk|]. split; [exact (haversine_km_meters _ _ _ _ _ Hk)|].
  apply great_circle_nonneg.
Qed.

Lemma distance_agreement_witness :
  _haversine_km (VFloat 0) (VFloat 0) (VFloat 0) (VFloat (1 / 250))
  = Ok (Wording.great_circle_km (0, 0) (0, 1 / 250))
  /\ haversine_meters (VFloat 0) (VFloat 0) (VFloat 0) (VFloat (1 / 250))
     = Ok (1000 * Wording.great_circle_km (0, 0) (0, 1 / 250))
  /\ 0 <= Wording.great_circle_km (0, 0) (0, 1 / 250).
Proof.
  apply (distance_agreement (0, 0) (0, 1 / 250)).
  - apply on_equator.
  - apply on_equator.
  - rewrite great_circle_equator by lra. exact equator_250_close.
Defined.

End Stops.

Lemma scan_stops_sound stop_id stops r :
  scan_stops stop_id stops = Ok r ->
  r = VNone
  \/ exists stop sid lat lon la lo,
       In stop stops
       /\ py_get stop "stop_id" = Ok sid /\ py_eqb sid stop_id = true
       /\ py_get stop "lat" = Ok lat /\ py_float lat = Ok la
       /\ py_get stop "lon" = Ok lon /\ py_float lon = Ok lo
       /\ r = VDict [ ("lat", VFloat la); ("lon", VFloat lo) ].
Proof.
  induction stops as [| stop rest IH]; cbn; [intros [= <-]; now left|].
  destruct (py_get stop "stop_id") as [sid|] eqn:Hsid; [|discriminate]. cbn [bind].
  assert (Hrest : scan_stops stop_id rest = Ok r ->
            r = VNone
            \/ exists stop0 sid0 lat lon la lo,
                 (stop = stop0 \/ In stop0 rest)
                 /\ py_get stop0 "stop_id" = Ok sid0 /\ py_eqb sid0 stop_id = true
                 /\ py_get stop0 "lat" = Ok lat /\ py_float lat = Ok la
                 /\ py_get stop0 "lon" = Ok lon /\ py_float lon = Ok lo
                 /\ r = VDict [ ("lat", VFloat la); ("lon", VFloat lo) ]).
  { intros H. destruct (IH H) as [-> | (s0 & i0 & a & b & x & y & Hin & Hrestp)];
      [now left | right]. exists s0, i0, a, b, x, y. split; [now right | exact Hrestp]. }
  destruct (py_eqb sid stop_id) eqn:Heq; [|exact Hrest].
  destruct (py_get stop "lat") as [lat|] eqn:Hlat; [|discriminate]. cbn [bind].
  destruct (py_get stop "lon") as [lon|] eqn:Hlon; [|discriminate]. cbn [bind].
  destruct (negb (is_none lat) && negb (is_none lon)); [|exact Hrest].
  destruct (py_float lat) as [la|] eqn:Hla; [|discriminate]. cbn [bind].
  destruct (py_float lon) as [lo|] eqn:Hlo; [|discriminate]. cbn [bind].
  intros [= <-]. right. exists stop, sid, lat, lon, la, lo.
  repeat split; auto.
Qed.

(** X11. The coordinates that [_find_stop_coords] returns are those of a
    stop of the route table whose identifier equals the one asked for; when
    it finds none it returns [None]. *)
Theorem find_stop_coords_sound w stop_id r :
  _find_stop_coords w stop_id = Ok r ->
  r = VNone
  \/ exists route_id route stops stop sid lat lon la lo,
       In (route_id, VDict route) (routes_raw w)
       /\ py_iter (dict_get_default route "stops" (VList [])) = Ok stops
       /\ In stop stops
       /\ py_get stop "stop_id" = Ok sid /\ py_eqb sid stop_id = true
       /\ py_get stop "lat" = Ok lat /\ py_float lat = Ok la
       /\ py_get stop "lon" = Ok lon /\ py_float lon = Ok lo
       /\ r = VDict [ ("lat", VFloat la); ("lon", VFloat lo) ].
Proof.
  unfold _find_stop_coords.
  destruct (_ || _); [intros [= <-]; now left|].
  induction (routes_raw w) as [| [rid route] rest IH]; cbn; [intros [= <-]; now left|].
  destruct route as [ | | | | | | route]; try discriminate.
  destruct (py_iter _) as [stops|] eqn:Hit; [|discriminate]. cbn [bind].
  destruct (scan_stops stop_id stops) as [found|] eqn:Hscan; [|discriminate]. cbn [bind].
  destruct (is_none found) eqn:Hnone.
  - intros H. destruct (IH H) as [-> | (rid0 & rt & ss & s0 & i0 & a & b & x & y & Hin & Hp)];
      [now left | right].
    exists rid0, rt, ss, s0, i0, a, b, x, y. split; [now right | exact Hp].
  - intros [= <-].
    destruct (scan_stops_sound _ _ _ Hscan)
      as [-> | (s0 & i0 & a & b & x & y & Hin & Hp)]; [discriminate | right].
    exists rid, route, stops, s0, i0, a, b, x, y.
    split; [now left|]. split; [exact Hit|]. split; [exact Hin | exact Hp].
Qed.

Lemma find_stop_coords_sound_witness :
  VDict [ ("lat", VFloat 0); ("lon", VFloat (1 / 500)) ] = VNone
  \/ exists route_id route stops stop sid lat lon la lo,
       In (route_id, VDict route) (routes_raw (Examples.depot Examples.clear_weather))
       /\ py_iter (dict_get_default route "stops" (VList [])) = Ok stops
       /\ In stop stops
       /\ py_get stop "stop_id" = Ok sid /\ py_eqb sid (VStr "S2") = true
       /\ py_get stop "lat" = Ok lat /\ py_float lat = Ok la
       /\ py_get stop "lon" = Ok lon /\ py_float lon = Ok lo
       /\ VDict [ ("lat", VFloat 0); ("lon", VFloat (1 / 500)) ]
          = VDict [ ("lat", VFloat la); ("lon", VFloat lo) ].
Proof.
  apply (find_stop_coords_sound (Examples.depot Examples.clear_weather) (VStr "S2")).
  reflexivity.
Defined.

(** ** The engine without a generative model *)

Lemma fallback_plan_steps query :
  Forall (fun step => is_dict step = true) (_fallback_plan query).
Proof.
  unfold _fallback_plan.
  destruct (Str.any_in eta_keywords _), (Str.any_in weather_keywords _),
           (truthy (opt_str (Str.search_id Str.bus_letters query))),
           (truthy (opt_str (option_map Str.upper (Str.search_id Str.route_letters query)))),
           (_ || _ || _ || _);
    cbn; repeat constructor.
Qed.

Lemma first_eta_result_total trs :
  Forall (fun e => exists d r, e = entry (VDict d) r) trs ->
  exists found, first_eta_result trs = Ok found.
Proof.
  induction 1 as [| e trs (d & r & ->) _ (found & IH)]; [now exists None|].
  cbn [first_eta_result entry py_get dict_get lookup String.eqb Ascii.eqb Bool.eqb bind].
  assert (Ht : exists tool, py_get (py_or (VDict d) (VDict [])) "tool" = Ok tool)
    by (unfold py_or; destruct (truthy (VDict d)); cbn; eauto).
  destruct Ht as (tool & ->). cbn [bind].
  destruct r; eauto. destruct (is_text tool "eta"); eauto.
Qed.

Lemma compose_total w uq ctx trs :
  client w = false ->
  Forall (fun e => exists d r, e = entry (VDict d) r) trs ->
  exists answer, compose w uq ctx trs = Ok answer.
Proof.
  intros Hc Htr. unfold compose. rewrite Hc. cbn [Str.is_empty].
  unfold fallback_answer.
  destruct (first_eta_result_total trs Htr) as (found & ->). cbn [bind].
  destruct (is_none _); [eauto|].
  destruct (py_int _); cbn [bind try_except]; eauto.
Qed.

Section RuleBased.
Local Open Scope R_scope.

(** X12. Without a generative model every query that passes the filters is
    answered from the rule-based plan: [ask] returns a trace with one entry
    for each step of [_fallback_plan] on the query as typed, in plan order,
    and an answer composed by the deterministic composer. *)
Theorem rule_based_trace w user_query :
  client w = false ->
  _is_transport_query (Str.strip user_query) = true ->
  _validate_referenced_entities w (Str.strip user_query) = Ok None ->
  retrieve_with_scores w (Str.strip user_query) = []
  \/ RAG_MIN_SIM w <= max_sim (retrieve_with_scores w (Str.strip user_query)) ->
  exists answer results context,
    ask w user_query
    = Ok (VDict [ ("answer", VStr answer);
                  ("tool_results", VList (zip_entries (_fallback_plan user_query) results));
                  ("context", VList context) ])
    /\ List.length results = List.length (_fallback_plan user_query)
    /\ fallback_answer w (zip_entries (_fallback_plan user_query) results) = Ok answer.
Proof.
  intros Hc Hd Hv Hg. unfold ask, ask_body.
  destruct (Str.is_empty (Str.strip user_query)) eqn:He.
  { destruct (Str.strip user_query); [discriminate Hd | discriminate He]. }
  rewrite Hd, Hv. cbn [negb bind].
  assert (Hguard : nonempty (map fst (retrieve_with_scores w (Str.strip user_query)))
                   && Rltb (max_sim (retrieve_with_scores w (Str.strip user_query)))
                        (RAG_MIN_SIM w) = false).
  { destruct Hg as [-> | Hle]; [reflexivity|].
    unfold Rltb. destruct (Rlt_dec _ _); [lra | apply andb_false_r]. }
  rewrite Hguard.
  unfold make_plan. rewrite Hc. cbn [truthy negb py_iter bind].
  set (context := if nonempty _ then _ else _).
  destruct (execute_appends w user_query context (_fallback_plan user_query)
              (fallback_plan_steps user_query) 0%nat initial_state [])
    as (results & Hlen & Hex).
  rewrite Hex. cbn [app bind].
  assert (Htr : Forall (fun e => exists d r, e = entry (VDict d) r)
                  (zip_entries (_fallback_plan user_query) results))
    by exact (execute_entries _ _ _ _ _ _ _ _ Hex (Forall_nil _)).
  destruct (compose_total w user_query context _ Hc Htr) as (answer & Ha).
  rewrite Ha. cbn [bind try_except].
  exists answer, results, (map VStr context). split; [reflexivity|]. split; [exact Hlen|].
  revert Ha. unfold compose. now rewrite Hc.
Qed.

Lemma rule_based_trace_witness :
  exists answer results context,
    ask (Examples.depot Examples.rain) "When will B1 reach S3?"
    = Ok (VDict [ ("answer", VStr answer);
                  ("tool_results",
                    VList (zip_entries (_fallback_plan "When will B1 reach S3?") results));
                  ("context", VList context) ])
    /\ List.length results = List.length (_fallback_plan "When will B1 reach S3?")
    /\ fallback_answer (Examples.depot Examples.rain)
         (zip_entries (_fallback_plan "When will B1 reach S3?") results) = Ok answer.
Proof.
  apply (rule_based_trace (Examples.depot Examples.rain) "When will B1 reach S3?").
  - reflexivity.
  - reflexivity.
  - reflexivity.
  - left. reflexivity.
Defined.

End RuleBased.

(* ------------------------------------------------------------------ *)
(** ** The planner, the executor and the supervisor *)

Section Planner.
Import PlannerAgent.

(** ** The planner: cache keys *)

Lemma split_from_blank t cur :
  Str.all_space t = true ->
  Str.split_from cur t = if Str.is_empty cur then [] else [cur].
Proof.
  revert cur. induction t as [| c t IH]; intros cur H; [reflexivity|].
  cbn in *. apply andb_true_iff in H as [Hc Ht]. rewrite Hc.
  destruct (Str.is_empty cur); now rewrite (IH "" Ht).
Qed.

Lemma split_from_skip_blank t s :
  Str.all_space t = true -> Str.split_from "" (t ++ s) = Str.split_from "" s.
Proof.
  induction t as [| c t IH]; intros H; [reflexivity|].
  cbn in *. apply andb_true_iff in H as [Hc Ht]. rewrite Hc. now apply IH.
Qed.

Lemma split_from_drop_blank s t :
  Str.all_space t = true ->
  forall cur, Str.split_from cur (s ++ t) = Str.split_from cur s.
Proof.
  intros Ht. induction s as [| c s IH]; intros cur.
  - cbn. now apply split_from_blank.
  - cbn. destruct (Str.is_space c); [destruct (Str.is_empty cur)|]; now rewrite IH.
Qed.

Lemma split_strip s : Str.split (Str.strip s) = Str.split s.
Proof.
  unfold Str.split, Str.strip.
  destruct (lstrip_split s) as (u & Hu & Hl).
  destruct (rstrip_split (Str.lstrip s)) as (t & Ht & Hr).
  rewrite Hl at 2. rewrite (split_from_skip_blank _ _ Hu).
  rewrite Hr at 2. now rewrite (split_from_drop_blank _ _ Ht).
Qed.

(** X13. Two queries made of the same words, up to the case of the letters
    and to the blanks around and between the words, have the same cache key. *)
Theorem cache_key_same_words q1 q2 :
  Str.split (Str.lower q1) = Str.split (Str.lower q2) ->
  cache_key q1 = cache_key q2.
Proof.
  intros H. unfold cache_key, Str.collapse.
  now rewrite !lower_strip, !split_strip, H.
Qed.

Lemma cache_key_same_words_witness :
  cache_key "  Where   IS b1? " = cache_key "where is B1?".
Proof. apply (cache_key_same_words "  Where   IS b1? " "where is B1?"). reflexivity. Defined.


(** ** The planner: sanitised traces *)

Lemma sanitize_entry_cases w tr o :
  sanitize_entry w tr = Ok o ->
  exists d,
    dict_copy tr = Ok d
    /\ (forall r,
          dict_get_default d "result" (dict_get_default d "output" (VDict [])) = VDict r ->
          truthy (dict_get r "error") = true ->
          exists summary,
            tool_failed w tr = Ok summary /\ o = VDict (dict_set d "result" summary))
    /\ ((forall r,
           dict_get_default d "result" (dict_get_default d "output" (VDict [])) = VDict r ->
           dict_mem r "error" = false) ->
        o = VDict d).
Proof.
  unfold sanitize_entry.
  destruct (dict_copy tr) as [d|]; [|discriminate]. cbn [bind].
  intros H. exists d. split; [reflexivity|].
  destruct (dict_get_default d "result" _) as [ | | | | | | r] eqn:Hr;
    try (injection H as <-; split; [intros r0 [=] | reflexivity]).
  split.
  - intros r0 [= <-] He. rewrite He in H.
    destruct (dict_mem r "error" && dict_mem r "result");
      (destruct (tool_failed w tr) as [summary|]; [|discriminate]);
      cbn [bind] in H; injection H as <-; eauto.
  - intros Hno. pose proof (Hno r eq_refl) as Hm. rewrite Hm in H. cbn [andb] in H.
    assert (Ht : truthy (dict_get r "error") = false).
    { unfold dict_get. unfold dict_mem in Hm.
      destruct (lookup r "error"); [discriminate | reflexivity]. }
    rewrite Ht in H. now injection H as <-.
Qed.

(** X14. Sanitising keeps the entries of a trace in number and order; a
    result that carries a non-empty error is replaced by the one-line
    summary naming the tool, and an entry whose result has no error key is
    passed on as it is. *)
Theorem sanitize_summarises w trs out :
  sanitize w trs = Ok out ->
  Forall2
    (fun tr o =>
       exists d,
         dict_copy tr = Ok d
         /\ (forall r,
               dict_get_default d "result" (dict_get_default d "output" (VDict [])) = VDict r ->
               truthy (dict_get r "error") = true ->
               exists summary,
                 tool_failed w tr = Ok summary /\ o = VDict (dict_set d "result" summary))
         /\ ((forall r,
                dict_get_default d "result" (dict_get_default d "output" (VDict [])) = VDict r ->
                dict_mem r "error" = false) ->
             o = VDict d))
    trs out.
Proof.
  revert out. induction trs as [| tr trs IH]; intros out; cbn [sanitize].
  - intros [= <-]. constructor.
  - destruct (sanitize_entry w tr) as [o|] eqn:Ho; [|discriminate]. cbn [bind].
    destruct (sanitize w trs) as [rest|]; [|discriminate]. cbn [bind].
    intros [= <-]. constructor; [exact (sanitize_entry_cases _ _ _ Ho) | now apply IH].
Qed.

Lemma sanitize_summarises_witness :
  Forall2
    (fun tr o =>
       exists d,
         dict_copy tr = Ok d
         /\ (forall r,
               dict_get_default d "result" (dict_get_default d "output" (VDict [])) = VDict r ->
               truthy (dict_get r "error") = true ->
               exists summary,
                 tool_failed Examples.quiet tr = Ok summary
                 /\ o = VDict (dict_set d "result" summary))
         /\ ((forall r,
                dict_get_default d "result" (dict_get_default d "output" (VDict [])) = VDict r ->
                dict_mem r "error" = false) ->
             o = VDict d))
    [ entry (mk_step "gps" [ ("bus_id", VStr "B9") ])
        (error_result "No GPS data for bus B9") ]
    [ entry (mk_step "gps" [ ("bus_id", VStr "B9") ])
        (error_result "Tool 'gps' failed.") ].
Proof.
  apply (sanitize_summarises Examples.quiet
           [ entry (mk_step "gps" [ ("bus_id", VStr "B9") ])
               (error_result "No GPS data for bus B9") ]).
  reflexivity.
Defined.

(** ** The planner: answers *)

Lemma sanitize_entries w trs :
  Forall (fun e => exists d r, e = entry (VDict d) r) trs ->
  exists out, sanitize w trs = Ok out.
Proof.
  induction 1 as [| e trs (d & r & ->) _ (rest & Hrest)]; [now exists []|].
  cbn [sanitize]. rewrite Hrest.
  assert (Ho : exists o, sanitize_entry w (entry (VDict d) r) = Ok o).
  { unfold sanitize_entry, entry. cbn [dict_copy bind].
    replace (dict_get_default _ "result" _) with r by reflexivity.
    assert (Hf : exists summary,
               tool_failed w (VDict [ ("step", VDict d); ("result", r) ]) = Ok summary)
      by (unfold tool_failed; cbn; eauto).
    destruct Hf as (summary & ->).
    destruct r as [ | | | | | | rd]; eauto.
    destruct (dict_mem rd "error" && dict_mem rd "result");
      destruct (truthy (dict_get rd "error")); cbn [bind]; eauto. }
  destruct Ho as (o & ->). cbn [bind]. eauto.
Qed.

(** X15. With its engine in place, the planner always returns an object with
    a non-empty answer: a cached object is accepted only with one, and on a
    fresh run neither the engine nor the sanitising of its trace raises, so
    that the error object of the last [except] clause is never returned for
    the engine's own results. *)
Theorem handle_query_answers w query :
  exists d,
    handle_query w query = VDict d
    /\ truthy (dict_get d "answer") = true
    /\ (ask_cache_get w (cache_key query) = None ->
        exists answer trace context,
          d = [ ("answer", VStr answer); ("tool_results", VList trace);
                ("context", VList context) ]).
Proof.
  unfold handle_query.
  assert (Hfresh : exists answer trace context,
            fresh_answer w query
            = Ok (VDict [ ("answer", VStr answer); ("tool_results", VList trace);
                          ("context", VList context) ])
            /\ truthy (VStr answer) = true).
  { unfold fresh_answer, ask.
    assert (Hshape : exists a trs ctx,
              try_except (ask_body w query) (fun _ => Ok (abstain failure_message))
              = Ok (VDict [ ("answer", VStr a); ("tool_results", VList trs);
                            ("context", VList ctx) ])
              /\ Forall (fun e => exists d r, e = entry (VDict d) r) trs).
    { destruct (ask_body w query) as [v|e] eqn:Hb; cbn [try_except].
      - destruct (ask_body_shape _ _ _ Hb) as (a & trs & ctx & -> & _ & Htr). eauto.
      - exists failure_message, [], []. split; [reflexivity | constructor]. }
    destruct Hshape as (a & trs & ctx & -> & Htr). cbn [bind].
    replace (dict_get_default _ "tool_results" _) with (VList trs) by reflexivity.
    destruct (sanitize_entries w trs Htr) as (out & ->). cbn [bind].
    replace (dict_get _ "answer") with (VStr a) by reflexivity.
    destruct (truthy (VStr (Str.collapse a))) eqn:Ht.
    - exists (Str.collapse a), out, ctx. split; [reflexivity | exact Ht].
    - exists no_answer_message, out, ctx. split; reflexivity. }
  destruct Hfresh as (answer & trace & context & Hf & Ht).
  destruct (ask_cache_get w (cache_key query)) as [[ | | | | | | c]|] eqn:Hc;
    try (rewrite Hf; eexists; split; [reflexivity|]; split; [exact Ht|];
         first [discriminate | eauto]).
  destruct (truthy (dict_get c "answer")) eqn:Hca.
  - exists c. split; [reflexivity|]. split; [exact Hca | discriminate].
  - rewrite Hf. eexists. split; [reflexivity|]. split; [exact Ht | discriminate].
Qed.

End Planner.

Section Executor.
Import ExecutorAgent.

(** ** The executor *)

Lemma refill_keeps w n final d result :
  is_none result = false ->
  refill w n final (VDict d) result = Ok result.
Proof. intros H. unfold refill. cbn [py_get bind]. now rewrite H. Qed.

Lemma ensure_from_spec w trs :
  Forall (fun tr => is_dict tr = true) trs ->
  forall n final,
  exists out,
    ensure_from w n final trs = Ok (final ++ out)%list
    /\ Forall2
         (fun tr o =>
            exists d,
              tr = VDict d
              /\ entry_step o = dict_get_default d "step" (VDict [])
              /\ (is_dict (dict_get_default d "step" (VDict [])) = true ->
                  is_none (dict_get d "result") = false ->
                  o = entry (dict_get_default d "step" (VDict [])) (dict_get d "result")))
         trs out.
Proof.
  induction 1 as [| tr trs Htr _ IH]; intros n final.
  - exists []. split; [cbn; now rewrite app_nil_r | constructor].
  - destruct tr as [ | | | | | | d]; try discriminate.
    cbn [ensure_from py_get_default py_get bind].
    set (step := dict_get_default d "step" (VDict [])).
    set (result := dict_get d "result").
    set (result' := match refill w n final step result with
                    | Ok r => r
                    | Raise e => error_result e
                    end).
    destruct (IH (S n) (final ++ [entry step result'])%list) as (out & Hout & Hrel).
    exists (entry step result' :: out). split.
    + rewrite Hout. now rewrite <- app_assoc.
    + constructor; [|exact Hrel].
      exists d. split; [reflexivity|]. split; [reflexivity|].
      intros Hs Hr. fold step in Hs. fold result in Hr.
      assert (Hk : refill w n final step result = Ok result).
      { clearbody step result. destruct step; try discriminate Hs.
        now apply refill_keeps. }
      unfold result'. now rewrite Hk.
Qed.

(** X16. On a trace of mappings [ensure_tool_results] does not raise and
    returns one entry per entry, in order, each with the step of its source;
    an entry that already has a result, under a step that is a mapping,
    comes back as it was: no tool is called for it. *)
Theorem ensure_tool_results_keeps w n trs :
  Forall (fun tr => is_dict tr = true) trs ->
  exists out,
    ensure_tool_results w n trs = Ok out
    /\ List.length out = List.length trs
    /\ Forall2
         (fun tr o =>
            exists d,
              tr = VDict d
              /\ entry_step o = dict_get_default d "step" (VDict [])
              /\ (is_dict (dict_get_default d "step" (VDict [])) = true ->
                  is_none (dict_get d "result") = false ->
                  o = entry (dict_get_default d "step" (VDict [])) (dict_get d "result")))
         trs out.
Proof.
  intros H. destruct (ensure_from_spec w trs H n []) as (out & Hout & Hrel).
  exists out. split; [exact Hout|]. split; [|exact Hrel].
  symmetry. exact (Forall2_length Hrel).
Qed.

Lemma ensure_tool_results_keeps_witness :
  exists out,
    ensure_tool_results Examples.quiet 0 Examples.long_trace = Ok out
    /\ List.length out = List.length Examples.long_trace
    /\ Forall2
         (fun tr o =>
            exists d,
              tr = VDict d
              /\ entry_step o = dict_get_default d "step" (VDict [])
              /\ (is_dict (dict_get_default d "step" (VDict [])) = true ->
                  is_none (dict_get d "result") = false ->
                  o = entry (dict_get_default d "step" (VDict [])) (dict_get d "result")))
         Examples.long_trace out.
Proof.
  apply (ensure_tool_results_keeps Examples.quiet 0 Examples.long_trace).
  repeat constructor.
Defined.

End Executor.

Section SupervisorAnswers.
Import SupervisorAgent.

(** ** The supervisor: short estimates *)

(** X17. Under 1800 seconds no suggestion is appended.  Take a planner
    result without error and a trace whose entries are dictionaries with a
    string for the tool of their step.  If the last entry of the trace that
    records an [eta] step and carries an [eta_sec] or [eta] field holds a
    number other than zero, an integer or a finite float, of less than 1800
    seconds (in [eta_sec], or in [eta] when it has no [eta_sec]), the answer is the normalised primary
    text, built from that entry, and nothing else. *)
Theorem short_eta_plain w rd tool_results eta_entry res n :
  rd <> [] ->
  dict_mem rd "error" = false ->
  dict_get_default rd "tool_results" (VList []) = VList tool_results ->
  Forall (fun tr => Wording.entry_ok tr = true) tool_results ->
  Wording.last_entry Wording.is_eta_entry tool_results = Some (VDict eta_entry) ->
  dict_get eta_entry "result" = VDict res ->
  Wording.seconds (Wording.estimate_of res) = Some n ->
  truthy (Wording.estimate_of res) = true ->
  (n < 1800)%Z ->
  let gps_entry := Wording.as_dict (Wording.last_entry Wording.is_gps_entry tool_results) in
  let params := Wording.params_of eta_entry in
  exists executed,
    handle_result w (VDict rd)
    = VDict [ ("answer",
               VStr (Str.collapse
                       (with_sentence
                          (eta_sentence w (bus_of params gps_entry)
                             (stop_of params eta_entry) n)
                          (base_friendly (dict_get rd "answer")))));
              ("plan", VDict rd);
              ("executed", VList executed) ].
Proof.
  intros Hne Herr Htr Hwf Hlast Hres Hsec Hnz Hshort gps_entry params.
  assert (Hdicts : Forall (fun tr => is_dict tr = true) tool_results).
  { eapply Forall_impl; [|exact Hwf]. intros a Ha. destruct a; try discriminate Ha. reflexivity. }
  destruct (ensure_from_total w tool_results Hdicts (List.length tool_results) [])
    as [executed Hex].
  destruct (eta_entry_fields _ _ (last_entry_holds _ _ _ Hlast) Hres) as [Hpar Hr].
  assert (Heta : eta_sec_int_of (eta_sec_of eta_entry) = Some n).
  { unfold eta_sec_of. rewrite Hr. now apply eta_sec_int_of_estimate. }
  exists executed.
  unfold handle_result, handle_result_body.
  assert (Ht : truthy (VDict rd) = true) by (destruct rd; [congruence | reflexivity]).
  rewrite Ht, Herr, Htr. cbn [negb].
  unfold ExecutorAgent.ensure_tool_results. rewrite Hex. cbn [bind].
  rewrite (scan_entries_last _ Hwf). cbn [bind fst snd].
  unfold Wording.kept at 1. rewrite Hlast. cbn [Wording.as_dict].
  unfold with_eta. rewrite Hpar. cbn [bind].
  rewrite kept_none. fold gps_entry. fold params. rewrite Heta.
  assert (Hlt : (30 * 60 <=? n)%Z = false) by (apply Z.leb_gt; lia).
  rewrite Hlt. cbn [bind].
  set (primary := with_sentence _ _).
  assert (Hnb : is_blank_answer (Some primary) = false).
  { cbn. unfold primary, with_sentence, eta_sentence.
    destruct (base_friendly _) as [f|]; [destruct (_ || _)|]; reflexivity. }
  now rewrite Hnb.
Qed.

(** With stop S3 some 35 minutes away and, in the last entry, stop S2 two
    minutes away, the answer is built from the entry of S2 and carries no
    suggestion. *)
Lemma short_eta_plain_witness :
  exists executed,
    handle_result (Examples.depot Examples.clear_weather) (VDict Examples.near_last_result)
    = VDict [ ("answer",
               VStr (Str.collapse
                       (with_sentence
                          (eta_sentence (Examples.depot Examples.clear_weather)
                             (VStr "B1") (VStr "S2") 120)
                          (base_friendly (dict_get Examples.near_last_result "answer")))));
              ("plan", VDict Examples.near_last_result);
              ("executed", VList executed) ].
Proof.
  apply (short_eta_plain (Examples.depot Examples.clear_weather)
           Examples.near_last_result Examples.near_last_trace
           [ ("step", mk_step "eta" [ ("bus_id", VStr "B1"); ("stop_id", VStr "S2") ]);
             ("result", Examples.cached_eta "S2" 120) ]
           [ ("eta_sec", VInt 120); ("distance_km", VInt 1);
             ("speed_kmph", VInt 25); ("stop_id", VStr "S2") ]
           120%Z).
  - discriminate.
  - reflexivity.
  - reflexivity.
  - repeat constructor.
  - reflexivity.
  - reflexivity.
  - reflexivity.
  - reflexivity.
  - lia.
Defined.

(** ** The supervisor: answers are never blank *)

Lemma no_space_app a b :
  Str.no_space a = true -> Str.no_space b = true -> Str.no_space (a ++ b) = true.
Proof.
  intros Ha Hb. induction a as [| c a IH]; [exact Hb|]. cbn in *.
  apply andb_true_iff in Ha as [Hc Ha]. now rewrite Hc, IH.
Qed.

Lemma is_empty_app_char cur c : Str.is_empty (cur ++ String c "") = false.
Proof. destruct cur; reflexivity. Qed.

Lemma split_from_words s :
  forall cur, Str.no_space cur = true ->
  Forall (fun x => Str.is_empty x = false /\ Str.no_space x = true) (Str.split_from cur s).
Proof.
  induction s as [| c s IH]; intros cur Hcur; cbn.
  - destruct (Str.is_empty cur) eqn:He; repeat constructor; assumption.
  - destruct (Str.is_space c) eqn:Hc.
    + destruct (Str.is_empty cur) eqn:He; [now apply IH|].
      constructor; [split; assumption | now apply IH].
    + apply IH. apply no_space_app; [exact Hcur|]. cbn. now rewrite Hc.
Qed.

Lemma split_from_cur s :
  forall cur, Str.is_empty cur = false -> Str.split_from cur s <> [].
Proof.
  induction s as [| c s IH]; intros cur Hcur; cbn.
  - rewrite Hcur. discriminate.
  - destruct (Str.is_space c); [rewrite Hcur; discriminate|].
    apply IH. apply is_empty_app_char.
Qed.

Lemma split_head c s : Str.is_space c = false -> Str.split (String c s) <> [].
Proof.
  intros Hc. unfold Str.split. cbn. rewrite Hc. now apply split_from_cur.
Qed.

Lemma split_from_nil s :
  forall cur, Str.split_from cur s = [] -> Str.all_space s = true.
Proof.
  induction s as [| c s IH]; intros cur; cbn; [reflexivity|].
  destruct (Str.is_space c) eqn:Hc.
  - destruct (Str.is_empty cur); [apply IH | discriminate].
  - intros H. exfalso. revert H. apply split_from_cur, is_empty_app_char.
Qed.

Lemma join_head sep x l :
  exists rest, Str.join sep (x :: l) = x ++ rest.
Proof.
  destruct l as [| y l]; cbn.
  - exists "". induction x as [| c x IH]; [reflexivity | cbn; now f_equal].
  - eauto.
Qed.

(** The normal form of a text that has a word is not empty and has a
    word. *)
Lemma collapse_words s :
  Str.split s <> [] -> Str.collapse s <> "" /\ Str.split (Str.collapse s) <> [].
Proof.
  unfold Str.collapse. intros Hs.
  pose proof (split_from_words s "" eq_refl) as Hw. fold (Str.split s) in Hw.
  destruct (Str.split s) as [| x l]; [congruence|].
  inversion Hw as [| ? ? [Hx Hn] _]; subst.
  destruct (join_head " " x l) as (rest & ->).
  destruct x as [| c x]; [discriminate|]. cbn in Hn.
  apply andb_true_iff in Hn as [Hc _]. apply negb_true_iff in Hc.
  split; [discriminate | now apply split_head].
Qed.

Lemma base_friendly_words b f :
  base_friendly b = Some f -> Str.split f <> [].
Proof.
  destruct b as [ | | | | s | | ]; try discriminate. cbn.
  destruct (Str.is_empty (Str.strip s)) eqn:He; [discriminate|].
  intros [= <-]. apply collapse_words. intros Hn.
  apply split_from_nil in Hn. rewrite (strip_all_space _ Hn) in He. discriminate.
Qed.

Lemma with_eta_words w eta_entry gps_entry friendly0 f :
  (forall f0, friendly0 = Some f0 -> Str.split f0 <> []) ->
  with_eta w eta_entry gps_entry friendly0 = Ok (Some f) ->
  Str.split f <> [].
Proof.
  intros H0. unfold with_eta.
  destruct (params_of_entry eta_entry) as [params|]; [|discriminate]. cbn [bind].
  destruct (eta_sec_int_of _) as [n|]; [|intros [= ->]; now apply H0].
  destruct (30 * 60 <=? n)%Z.
  - destruct (alt_text w _ _) as [alt|]; [|discriminate]. cbn [bind].
    intros [= <-]. unfold with_sentence, eta_sentence.
    destruct friendly0 as [f0|]; [destruct (_ || _)|]; cbn; discriminate.
  - intros [= <-]. apply with_sentence_words.
Qed.

(** X18. Whatever the planner's object holds, the supervisor returns either
    an error object or an answer that is not empty: when nothing can be said
    the answer is the fixed apology. *)
Theorem supervisor_answer_not_blank w rd :
  exists d,
    handle_result w (VDict rd) = VDict d
    /\ (dict_mem d "error" = true
        \/ exists answer, dict_get d "answer" = VStr answer /\ answer <> "").
Proof.
  unfold handle_result, handle_result_body.
  destruct (truthy (VDict rd)); cbn [negb];
    [| eexists; split; [reflexivity | now left]].
  destruct (dict_mem rd "error") eqn:Herr; [exists rd; split; [reflexivity | now left]|].
  destruct (ExecutorAgent.ensure_tool_results _ _ _) as [executed|];
    [| eexists; split; [reflexivity | now left]].
  cbn [bind].
  destruct (scan_entries _ None None) as [[eta_entry gps_entry]|];
    [| eexists; split; [reflexivity | now left]].
  cbn [bind fst snd].
  set (friendly0 := base_friendly (dict_get rd "answer")).
  assert (H0 : forall f0, friendly0 = Some f0 -> Str.split f0 <> [])
    by (intros f0; apply base_friendly_words).
  assert (Hfin : forall friendly1,
            (forall f, friendly1 = Some f -> Str.split f <> []) ->
            Str.collapse
              (if is_blank_answer friendly1 then no_answer_message
               else match friendly1 with Some f => f | None => no_answer_message end)
            <> "").
  { intros [f|] Hf; cbn [is_blank_answer].
    - destruct (Str.is_empty f); [discriminate | apply collapse_words; now apply Hf].
    - discriminate. }
  destruct eta_entry as [eta_entry|].
  - destruct (with_eta w eta_entry gps_entry friendly0) as [friendly1|] eqn:Hw;
      [| eexists; split; [reflexivity | now left]].
    cbn [bind]. eexists. split; [reflexivity|]. right. eexists. split; [reflexivity|].
    apply Hfin. intros f ->. exact (with_eta_words _ _ _ _ _ H0 Hw).
  - cbn [bind]. eexists. split; [reflexivity|]. right. eexists. split; [reflexivity|].
    now apply Hfin.
Qed.

End SupervisorAnswers.

(* ------------------------------------------------------------------ *)
(** ** The notifier *)

Section NotifierFacts.
Import NotificationAgent.

(** ** The notifier: one cycle *)

Lemma process_from_length w engine subs :
  forall idx, (List.length (process_from w engine idx subs) <= List.length subs)%nat.
Proof.
  induction subs as [| sub subs IH]; intros idx; cbn; [lia|].
  destruct (process_one w (engine idx) sub) as [[d|]|]; cbn; specialize (IH (S idx)); lia.
Qed.

(** X19. A cycle delivers at most one notification per subscription and at
    most [MAX_PER_CYCLE] = 20 in all: the subscriptions after the twentieth
    are not looked at. *)
Theorem cycle_is_capped w engine subs :
  (List.length (process_subscriptions w engine subs) <= Nat.min 20 (List.length subs))%nat
  /\ process_subscriptions w engine subs
     = process_subscriptions w engine (firstn 20 subs).
Proof.
  unfold process_subscriptions, MAX_PER_CYCLE. split.
  - etransitivity; [apply process_from_length|]. now rewrite length_firstn.
  - now rewrite firstn_firstn, Nat.min_id.
Qed.

Lemma process_from_app w engine l1 l2 :
  forall idx,
    process_from w engine idx (l1 ++ l2)
    = (process_from w engine idx l1
       ++ process_from w engine (idx + List.length l1) l2)%list.
Proof.
  induction l1 as [| sub l1 IH]; intros idx; cbn.
  - now rewrite Nat.add_0_r.
  - rewrite (IH (S idx)). replace (S idx + List.length l1)%nat
      with (idx + S (List.length l1))%nat by lia.
    destruct (process_one w (engine idx) sub) as [[d|]|]; reflexivity.
Qed.

Lemma process_one_due w engine idx sub d :
  process_one w (engine idx) sub = Ok (Some d) -> Cycle.due w engine sub d.
Proof.
  unfold process_one, Cycle.due. cbv zeta.
  destruct (truthy (py_or (getattr sub "user_id") _)); [|discriminate].
  destruct (truthy (py_or (getattr sub "bus_id") _)); [|discriminate].
  destruct (truthy (py_or (getattr sub "stop_id") _)); [|discriminate].
  cbn [negb orb]. intros H. do 3 (split; [reflexivity|]).
  destruct (engine idx _) as [engine_result|] eqn:He; [|discriminate]. cbn [bind] in H.
  destruct (extract_eta engine_result) as [eta_sec0|] eqn:Hx; [|discriminate].
  cbn [bind] in H.
  destruct (is_none eta_sec0); [discriminate|].
  destruct (py_int eta_sec0) as [eta_sec|] eqn:Hi; [|discriminate].
  destruct ((0 <=? eta_sec)%Z && _) eqn:Hc; [|discriminate].
  injection H as <-.
  apply andb_true_iff in Hc as [H1 H2]. apply Z.leb_le in H1, H2.
  exists idx, engine_result, eta_sec0, eta_sec.
  split; [exact He|]. split; [exact Hx|]. split; [exact Hi|]. split; [lia | reflexivity].
Qed.

(** X20. Every notification of a cycle answers one of its first 20
    subscriptions, one that names a user, a bus and a stop, and is sent
    because the engine's trace gave an ETA between 0 and the threshold
    computed for that subscription; it goes to that user, over the channel
    of the subscription, with the arrival message for that bus, stop and
    ETA. *)
Theorem deliveries_are_due w engine subs :
  Forall (fun d => exists sub, In sub (firstn 20 subs) /\ Cycle.due w engine sub d)
    (process_subscriptions w engine subs).
Proof.
  unfold process_subscriptions, MAX_PER_CYCLE.
  generalize (firstn 20 subs). intros l. generalize 0%nat.
  induction l as [| sub l IH]; intros idx; cbn [process_from]; [constructor|].
  assert (Hrest : Forall (fun d => exists sub0, In sub0 (sub :: l)
                                               /\ Cycle.due w engine sub0 d)
                    (process_from w engine (S idx) l)).
  { eapply Forall_impl; [|apply (IH (S idx))].
    intros d (s0 & Hin & Hd). exists s0. split; [now right | exact Hd]. }
  destruct (process_one w (engine idx) sub) as [[d|]|] eqn:Hd; try exact Hrest.
  constructor; [|exact Hrest].
  exists sub. split; [now left | exact (process_one_due _ _ _ _ _ Hd)].
Qed.

(** X21. A subscription among the first 20 that names a user, a bus and a
    stop, and for which the engine's trace gives an integer ETA, adds
    exactly one notification to the cycle when the ETA lies between 0 and
    the threshold computed for it, and none otherwise; the notifications of
    the subscriptions before and after it are what they would be without it. *)
Theorem due_subscription_is_notified w engine l1 sub l2 engine_result eta_sec :
  (List.length (l1 ++ sub :: l2) <= 20)%nat ->
  truthy (py_or (getattr sub "user_id") (get_if_dict sub "user_id" VNone)) = true ->
  truthy (py_or (getattr sub "bus_id") (get_if_dict sub "bus_id" VNone)) = true ->
  truthy (py_or (getattr sub "stop_id") (get_if_dict sub "stop_id" VNone)) = true ->
  engine (List.length l1)
    (eta_query w
       (py_or (getattr sub "bus_id") (get_if_dict sub "bus_id" VNone))
       (py_or (getattr sub "stop_id") (get_if_dict sub "stop_id" VNone)))
  = Ok engine_result ->
  extract_eta engine_result = Ok (VInt eta_sec) ->
  process_subscriptions w engine (l1 ++ sub :: l2)
  = (process_subscriptions w engine l1
     ++ (if (0 <=? eta_sec)%Z
            && (eta_sec <=? notify_before_of
                              (py_or (getattr sub "notify_before_sec")
                                 (get_if_dict sub "notify_before_sec" VNone)))%Z
         then [ {| to_user := py_or (getattr sub "user_id")
                                (get_if_dict sub "user_id" VNone);
                   message :=
                     arrival_message w
                       (py_or (getattr sub "bus_id") (get_if_dict sub "bus_id" VNone))
                       (py_or (getattr sub "stop_id") (get_if_dict sub "stop_id" VNone))
                       eta_sec;
                   via := py_or (getattr sub "channel")
                            (get_if_dict sub "channel" (VStr "console")) |} ]
         else [])
     ++ process_from w engine (S (List.length l1)) l2)%list.
Proof.
  intros Hlen Hu Hb Hs He Hx.
  unfold process_subscriptions, MAX_PER_CYCLE.
  rewrite length_app in Hlen. cbn [List.length] in Hlen.
  rewrite !firstn_all2 by (try rewrite length_app; cbn [List.length]; lia).
  rewrite process_from_app. cbn [Nat.add process_from]. f_equal.
  rewrite (process_one_threshold w (engine (List.length l1)) sub engine_result eta_sec
             Hu Hb Hs He Hx).
  destruct (_ && _); reflexivity.
Qed.

Lemma due_subscription_is_notified_witness :
  process_subscriptions (Examples.timetable 250) (Examples.engine_of 250)
    ([] ++ Examples.subscriber (VInt 300) :: [ Examples.subscriber_dict (VInt 0) ])
  = (process_subscriptions (Examples.timetable 250) (Examples.engine_of 250) []
     ++ (if (0 <=? 250)%Z && (250 <=? 300)%Z
         then [ {| to_user := VStr "u1";
                   message := arrival_message (Examples.timetable 250)
                                (VStr "B1") (VStr "S1") 250;
                   via := VStr "console" |} ]
         else [])
     ++ process_from (Examples.timetable 250) (Examples.engine_of 250) 1
          [ Examples.subscriber_dict (VInt 0) ])%list.
Proof.
  eapply (due_subscription_is_notified (Examples.timetable 250) (Examples.engine_of 250)
            [] (Examples.subscriber (VInt 300)) [ Examples.subscriber_dict (VInt 0) ]
            _ 250%Z).
  - cbn. lia.
  - reflexivity.
  - reflexivity.
  - reflexivity.
  - vm_compute. reflexivity.
  - reflexivity.
Defined.

End NotifierFacts.

(* ------------------------------------------------------------------ *)
(** ** The tools and the services *)

Section WeatherFacts.
Import Weather.

(** ** The weather tool *)

Lemma expected_delay_values c :
  expected_delay c = 0%Z \/ expected_delay c = 300%Z \/ expected_delay c = 900%Z.
Proof.
  unfold expected_delay.
  destruct (Str.any_in severe_keywords c), (Str.any_in delay_keywords c); auto.
Qed.

Lemma read_temp_float data t :
  read_temp data = Ok t -> t = VNone \/ exists x, t = VFloat x.
Proof.
  unfold read_temp.
  destruct (py_get data "main") as [m|]; [|discriminate]. cbn [bind].
  destruct (py_get _ "temp") as [t0|]; [|discriminate]. cbn [bind].
  destruct (is_none t0); [intros [= <-]; now left|].
  destruct (py_float t0) as [x|]; [|discriminate]. cbn [bind].
  intros [= <-]. right. eauto.
Qed.

(** Whenever [_normalize_weather_response] returns, its value has the four
    keys of the schema: a condition that is a non-empty text ("unknown"
    when the reply has none), a temperature that is a float or [None], and
    an expected delay of 0, 300 or 900 seconds. *)
Lemma normalized_weather_shape data r :
  _normalize_weather_response data = Ok r ->
  exists condition description temp delay,
    r = VDict [ ("condition", VStr condition);
                ("description", description);
                ("temp", temp);
                ("expected_delay_sec", VInt delay) ]
    /\ condition <> ""
    /\ (temp = VNone \/ exists x, temp = VFloat x)
    /\ (delay = 0 \/ delay = 300 \/ delay = 900)%Z.
Proof.
  unfold _normalize_weather_response.
  set (found := match read_condition data with Ok p => p | Raise _ => (VNone, VNone) end).
  destruct (SupervisorAgent.py_lower _) as [cond_lower|] eqn:Hl; [|discriminate].
  cbn [bind]. intros [= <-].
  assert (Hc : exists c, py_or (fst found) (VStr "unknown") = VStr c /\ c <> "").
  { unfold py_or in *. destruct (truthy (fst found)) eqn:Ht.
    - destruct (fst found) as [ | | | | s | | ]; try discriminate Hl.
      exists s. split; [reflexivity|]. intros ->. discriminate.
    - exists "unknown". split; [reflexivity | discriminate]. }
  destruct Hc as (c & -> & Hne).
  do 4 eexists. split; [reflexivity|]. split; [exact Hne|]. split.
  - destruct (read_temp data) as [t|] eqn:Ht; [exact (read_temp_float _ _ Ht) | now left].
  - apply expected_delay_values.
Qed.

Lemma dummy_weather_shape :
  exists condition description temp delay,
    dummy_weather
    = VDict [ ("condition", VStr condition);
              ("description", description);
              ("temp", temp);
              ("expected_delay_sec", VInt delay) ]
    /\ condition <> ""
    /\ (temp = VNone \/ exists x, temp = VFloat x)
    /\ (delay = 0 \/ delay = 300 \/ delay = 900)%Z.
Proof.
  exists "unknown", (VStr ""), VNone, 0%Z. repeat split; [discriminate | now left | now left].
Qed.

Lemma get_weather_by_coords_cases key provider lat lon r :
  get_weather_by_coords key provider lat lon = Ok r ->
  r = dummy_weather \/ exists data, _normalize_weather_response data = Ok r.
Proof.
  unfold get_weather_by_coords.
  destruct (negb (truthy (_get_api_key key))); [intros [= <-]; now left|].
  destruct (py_float lat) as [la|]; [|discriminate]. cbn [bind].
  destruct (py_float lon) as [lo|]; [|discriminate]. cbn [bind].
  destruct (provider la lo) as [data|]; cbn [bind try_except]; [|intros [= <-]; now left].
  destruct (_normalize_weather_response data) as [r0|] eqn:Hn; cbn [try_except];
    intros [= <-]; [right; eauto | now left].
Qed.

(** X22. With coordinates that [float] accepts, [get_weather_by_coords]
    never raises, whatever the key and whatever the provider does, a failure
    of the request or an unusable reply included: it returns a value of the
    schema. Without a key the provider is not asked at all. *)
Theorem weather_always_answers key provider lat lon la lo :
  py_float lat = Ok la -> py_float lon = Ok lo ->
  (exists condition description temp delay,
     get_weather_by_coords key provider lat lon
     = Ok (VDict [ ("condition", VStr condition);
                   ("description", description);
                   ("temp", temp);
                   ("expected_delay_sec", VInt delay) ])
     /\ condition <> ""
     /\ (delay = 0 \/ delay = 300 \/ delay = 900)%Z)
  /\ (truthy (_get_api_key key) = false ->
      get_weather_by_coords key provider lat lon = Ok dummy_weather).
Proof.
  intros Hla Hlo. split.
  - destruct (get_weather_by_coords key provider lat lon) as [r|e] eqn:Hr.
    + destruct (get_weather_by_coords_cases _ _ _ _ _ Hr) as [-> | (data & Hn)].
      * destruct dummy_weather_shape as (c & d & t & n & -> & Hc & _ & Hn).
        exists c, d, t, n. auto.
      * destruct (normalized_weather_shape _ _ Hn) as (c & d & t & n & -> & Hc & _ & Hd).
        exists c, d, t, n. auto.
    + exfalso. revert Hr. unfold get_weather_by_coords.
      destruct (negb _); [discriminate|]. rewrite Hla, Hlo. cbn [bind].
      destruct (provider la lo) as [data|]; cbn [bind try_except]; [|discriminate].
      destruct (_normalize_weather_response data); discriminate.
  - intros Hk. unfold get_weather_by_coords. now rewrite Hk.
Qed.

Lemma weather_always_answers_witness :
  (exists condition description temp delay,
     get_weather_by_coords (VStr "key") (fun _ _ => Raise "TimeoutException")
       (VStr " 12.5 ") (VInt 77)
     = Ok (VDict [ ("condition", VStr condition);
                   ("description", description);
                   ("temp", temp);
                   ("expected_delay_sec", VInt delay) ])
     /\ condition <> ""
     /\ (delay = 0 \/ delay = 300 \/ delay = 900)%Z)
  /\ (truthy (_get_api_key (VStr "key")) = false ->
      get_weather_by_coords (VStr "key") (fun _ _ => Raise "TimeoutException")
        (VStr " 12.5 ") (VInt 77) = Ok dummy_weather).
Proof.
  apply (weather_always_answers (VStr "key") (fun _ _ => Raise "TimeoutException")
           (VStr " 12.5 ") (VInt 77)
           (IZR 12 + IZR 5 / IZR (10 ^ Z.of_nat 1)) (IZR 77)); reflexivity.
Defined.

(** X23. The delay that the engine reads from a result of the weather tool,
    and adds to an ETA, is 0, 300 or 900 seconds. *)
Theorem engine_weather_delay key provider lat lon r loc :
  get_weather_by_coords key provider lat lon = Ok r ->
  exists delay,
    py_int (weather_delay_of {| last_bus_loc := loc; last_weather := dict_or_none r |})
    = Ok delay
    /\ (delay = 0 \/ delay = 300 \/ delay = 900)%Z.
Proof.
  intros Hr.
  assert (Hs : exists condition description temp delay,
             r = VDict [ ("condition", VStr condition); ("description", description);
                         ("temp", temp); ("expected_delay_sec", VInt delay) ]
             /\ (delay = 0 \/ delay = 300 \/ delay = 900)%Z).
  { destruct (get_weather_by_coords_cases _ _ _ _ _ Hr) as [-> | (data & Hn)].
    - destruct dummy_weather_shape as (c & d & t & n & -> & _ & _ & Hn). eauto 6.
    - destruct (normalized_weather_shape _ _ Hn) as (c & d & t & n & -> & _ & _ & Hd).
      eauto 6. }
  destruct Hs as (c & d & t & n & -> & Hn).
  destruct Hn as [-> | [-> | ->]]; eexists; (split; [reflexivity|]); auto.
Qed.

Lemma engine_weather_delay_witness :
  exists delay,
    py_int (weather_delay_of
              {| last_bus_loc := VNone;
                 last_weather :=
                   dict_or_none
                     (VDict [ ("condition", VStr "Haze"); ("description", VStr "");
                              ("temp", VNone); ("expected_delay_sec", VInt 300) ]) |})
    = Ok delay
    /\ (delay = 0 \/ delay = 300 \/ delay = 900)%Z.
Proof.
  apply (engine_weather_delay (VStr "key")
           (fun _ _ => Ok (VDict [ ("weather", VList [ VDict [ ("main", VStr "Haze") ] ]) ]))
           (VInt 12) (VInt 77)).
  reflexivity.
Defined.

End WeatherFacts.

(** ** Dictionaries *)

Lemma lookup_dict_set_same d k v : lookup (PlannerAgent.dict_set d k v) k = Some v.
Proof.
  induction d as [| [k' v'] d IH]; cbn.
  - now rewrite String.eqb_refl.
  - destruct (String.eqb k' k) eqn:E; cbn; [now rewrite String.eqb_refl | now rewrite E].
Qed.

Lemma lookup_dict_set_other d k v k' :
  k' <> k -> lookup (PlannerAgent.dict_set d k v) k' = lookup d k'.
Proof.
  intros Hne. induction d as [| [k0 v0] d IH]; cbn.
  - destruct (String.eqb k k') eqn:E; [apply String.eqb_eq in E; congruence | reflexivity].
  - destruct (String.eqb k0 k) eqn:E; cbn.
    + apply String.eqb_eq in E. subst k0.
      destruct (String.eqb k k') eqn:E'; [apply String.eqb_eq in E'; congruence | reflexivity].
    + destruct (String.eqb k0 k'); [reflexivity | exact IH].
Qed.

Section Gps.
Import GpsSimulator.
Local Open Scope R_scope.

(** ** The position tool *)

Lemma Rabs_le_bounds (x a : R) : Rabs x <= a -> - a <= x <= a.
Proof. unfold Rabs. destruct (Rcase_abs x); lra. Qed.

Lemma rint_near (y : R) : Rabs (IZR (rint y) - y) <= 1 / 2.
Proof.
  unfold rint. destruct (base_Int_part y) as [H1 H2].
  set (f := Int_part y) in *.
  destruct (Rlt_dec (y - IZR f) (1 / 2)) as [Hlt|Hge].
  - apply Rabs_le. lra.
  - destruct (Rlt_dec (1 / 2) (y - IZR f)) as [Hgt|Hle].
    + rewrite plus_IZR. apply Rabs_le. simpl. lra.
    + destruct (Z.even f); [apply Rabs_le; lra|].
      rewrite plus_IZR. apply Rabs_le. simpl. lra.
Qed.

Lemma py_round_near (x : R) : Rabs (py_round x 6 - x) <= 5 / 10000000.
Proof.
  unfold py_round. pose proof (rint_near (x * 10 ^ 6)) as H.
  apply Rabs_le_bounds in H. apply Rabs_le.
  assert (Hp : 10 ^ 6 = 1000000) by (simpl; ring). rewrite Hp in *.
  split.
  - apply (Rmult_le_reg_r 1000000); [lra|].
    replace ((IZR (rint (x * 1000000)) / 1000000 - x) * 1000000)
      with (IZR (rint (x * 1000000)) - x * 1000000) by field. lra.
  - apply (Rmult_le_reg_r 1000000); [lra|].
    replace ((IZR (rint (x * 1000000)) / 1000000 - x) * 1000000)
      with (IZR (rint (x * 1000000)) - x * 1000000) by field. lra.
Qed.

(** X24. When the fleet service gives no usable reply, the position of a bus
    of the registry whose coordinates [float] accepts is the registry's
    status with both coordinates moved by the draw, rounded to six places:
    it stays within 0.0005005 degrees of the stored position, and the other
    fields of the status, the identifier and the route among them, are those
    of the registry. *)
Theorem registry_position_is_near w jitter_lat jitter_lon bus_id st la lo :
  FleetService.get_bus_status w bus_id = Ok (VDict st) ->
  py_float (dict_get st "lat") = Ok la ->
  py_float (dict_get st "lon") = Ok lo ->
  Rabs jitter_lat <= 5 / 10000 -> Rabs jitter_lon <= 5 / 10000 ->
  exists position x y,
    get_bus_location w None jitter_lat jitter_lon bus_id = VDict position
    /\ dict_get position "lat" = VFloat x /\ Rabs (x - la) <= 5005 / 10000000
    /\ dict_get position "lon" = VFloat y /\ Rabs (y - lo) <= 5005 / 10000000
    /\ (forall k, k <> "lat"%string -> k <> "lon"%string ->
          dict_get position k = dict_get st k).
Proof.
  intros Hs Hla Hlo Hj1 Hj2.
  unfold get_bus_location, from_registry. rewrite Hs. cbn [bind].
  assert (Hn1 : is_none (dict_get st "lat") = false)
    by (destruct (dict_get st "lat"); try reflexivity; discriminate).
  assert (Hn2 : is_none (dict_get st "lon") = false)
    by (destruct (dict_get st "lon"); try reflexivity; discriminate).
  rewrite Hn1, Hn2, Hla, Hlo. cbn [negb andb bind].
  set (moved := PlannerAgent.dict_set (PlannerAgent.dict_set st "lat" _) "lon" _).
  assert (Hkeys : forall k, dict_mem st k = true -> dict_mem moved k = true).
  { intros k Hk. unfold moved, dict_mem in *.
    destruct (String.eqb_spec k "lon") as [-> | Hlon];
      [now rewrite lookup_dict_set_same|].
    rewrite (lookup_dict_set_other _ _ _ _ Hlon).
    destruct (String.eqb_spec k "lat") as [-> | Hlat];
      [now rewrite lookup_dict_set_same|].
    now rewrite (lookup_dict_set_other _ _ _ _ Hlat). }
  assert (Hst : dict_mem st "bus_id" = true /\ dict_mem st "speed_kmph" = true).
  { revert Hs. unfold FleetService.get_bus_status.
    destruct (dict_get_obj (buses w) bus_id) as [bus|]; [|discriminate]. cbn [bind].
    destruct (negb (truthy bus)); [discriminate|].
    destruct bus; try discriminate. intros [= <-]. split; reflexivity. }
  unfold setdefault. rewrite (Hkeys _ (proj1 Hst)), (Hkeys _ (proj2 Hst)).
  exists moved, (py_round (la + jitter_lat) 6), (py_round (lo + jitter_lon) 6).
  split; [reflexivity|].
  assert (Hlat : dict_get moved "lat" = VFloat (py_round (la + jitter_lat) 6)).
  { unfold dict_get, moved.
    rewrite lookup_dict_set_other by discriminate. now rewrite lookup_dict_set_same. }
  assert (Hlon : dict_get moved "lon" = VFloat (py_round (lo + jitter_lon) 6)).
  { unfold dict_get, moved. now rewrite lookup_dict_set_same. }
  pose proof (py_round_near (la + jitter_lat)) as H1.
  pose proof (py_round_near (lo + jitter_lon)) as H2.
  apply Rabs_le_bounds in H1, H2, Hj1, Hj2.
  split; [exact Hlat|]. split; [apply Rabs_le; lra|].
  split; [exact Hlon|]. split; [apply Rabs_le; lra|].
  intros k Hk1 Hk2. unfold dict_get, moved.
  now rewrite !lookup_dict_set_other by assumption.
Qed.

Lemma registry_position_is_near_witness :
  exists position x y,
    get_bus_location (Examples.depot Examples.clear_weather) None (1 / 4000) (- (1 / 4000))
      (VStr "B2")
    = VDict position
    /\ dict_get position "lat" = VFloat x /\ Rabs (x - 0) <= 5005 / 10000000
    /\ dict_get position "lon" = VFloat y /\ Rabs (y - 1 / 100) <= 5005 / 10000000
    /\ (forall k, k <> "lat"%string -> k <> "lon"%string ->
          dict_get position k
          = dict_get [ ("bus_id", VStr "B2"); ("status", VStr "on_time");
                       ("status_message", VStr "No status available");
                       ("lat", VInt 0); ("lon", VFloat (1 / 100));
                       ("route_id", VStr "R1"); ("speed_kmph", VInt 25) ] k).
Proof.
  apply (registry_position_is_near (Examples.depot Examples.clear_weather)
           (1 / 4000) (- (1 / 4000)) (VStr "B2")
           [ ("bus_id", VStr "B2"); ("status", VStr "on_time");
             ("status_message", VStr "No status available");
             ("lat", VInt 0); ("lon", VFloat (1 / 100));
             ("route_id", VStr "R1"); ("speed_kmph", VInt 25) ]
           0 (1 / 100)); try reflexivity.
  - rewrite Rabs_right; lra.
  - rewrite Rabs_Ropp, Rabs_right; lra.
Defined.

End Gps.

Section Registry.
Import FleetRegistry.

(** ** The fleet registry *)

Lemma dict_set_not_nil d k v : PlannerAgent.dict_set d k v <> [].
Proof. destruct d as [| [k' v'] d]; cbn; [|destruct (String.eqb k' k)]; discriminate. Qed.

Lemma dict_get_set_same d k v : dict_get (PlannerAgent.dict_set d k v) k = v.
Proof. unfold dict_get. now rewrite lookup_dict_set_same. Qed.

Lemma dict_get_set_other d k v k' :
  k' <> k -> dict_get (PlannerAgent.dict_set d k v) k' = dict_get d k'.
Proof. intros H. unfold dict_get. now rewrite lookup_dict_set_other. Qed.

(** X25. After [update_bus_location] the status of the bus shows the new
    coordinates, keeps its route, and exists even when the bus was not in
    the registry before; the status of every other bus is unchanged. *)
Theorem update_then_status w bus_id lat lon bs' bus other :
  update_bus_location (buses w) bus_id lat lon = Ok (bs', bus) ->
  other <> bus_id ->
  (exists status,
     FleetService.get_bus_status (with_buses w bs') (VStr bus_id) = Ok (VDict status)
     /\ dict_get status "bus_id" = VStr bus_id
     /\ dict_get status "lat" = lat
     /\ dict_get status "lon" = lon
     /\ dict_get status "route_id"
        = match py_or (dict_get (buses w) bus_id) (VDict []) with
          | VDict b => dict_get b "route_id"
          | _ => VNone
          end)
  /\ FleetService.get_bus_status (with_buses w bs') (VStr other)
     = FleetService.get_bus_status w (VStr other).
Proof.
  unfold update_bus_location.
  destruct (py_or (dict_get (buses w) bus_id) (VDict [])) as [ | | | | | | b];
    try discriminate.
  intros [= <- <-] Hne. split.
  - unfold FleetService.get_bus_status. cbn [dict_get_obj with_buses buses bind].
    rewrite dict_get_set_same.
    set (b' := PlannerAgent.dict_set (PlannerAgent.dict_set b "lat" lat) "lon" lon).
    assert (Ht : truthy (VDict b') = true).
    { pose proof (dict_set_not_nil (PlannerAgent.dict_set b "lat" lat) "lon" lon) as H.
      fold b' in H. destruct b'; [congruence | reflexivity]. }
    rewrite Ht. cbn [negb].
    eexists. split; [reflexivity|].
    split; [reflexivity|].
    split; [change (dict_get b' "lat" = lat); unfold b';
            rewrite dict_get_set_other by discriminate; apply dict_get_set_same|].
    split; [change (dict_get b' "lon" = lon); apply dict_get_set_same|].
    change (dict_get b' "route_id" = dict_get b "route_id"). unfold b'.
    now rewrite !dict_get_set_other by discriminate.
  - unfold FleetService.get_bus_status. cbn [dict_get_obj with_buses buses bind].
    now rewrite dict_get_set_other.
Qed.

Lemma update_then_status_witness :
  (exists status,
     FleetService.get_bus_status
       (with_buses Examples.quiet
          [ ("B5", VDict [ ("lat", VInt 12); ("lon", VInt 77) ]) ])
       (VStr "B5") = Ok (VDict status)
     /\ dict_get status "bus_id" = VStr "B5"
     /\ dict_get status "lat" = VInt 12
     /\ dict_get status "lon" = VInt 77
     /\ dict_get status "route_id"
        = match py_or (dict_get (buses Examples.quiet) "B5") (VDict []) with
          | VDict b => dict_get b "route_id"
          | _ => VNone
          end)
  /\ FleetService.get_bus_status
       (with_buses Examples.quiet
          [ ("B5", VDict [ ("lat", VInt 12); ("lon", VInt 77) ]) ])
       (VStr "B1")
     = FleetService.get_bus_status Examples.quiet (VStr "B1").
Proof.
  apply (update_then_status Examples.quiet "B5" (VInt 12) (VInt 77)
           [ ("B5", VDict [ ("lat", VInt 12); ("lon", VInt 77) ]) ]
           (VDict [ ("lat", VInt 12); ("lon", VInt 77) ]) "B1").
  - reflexivity.
  - discriminate.
Defined.

(** X26. After [update_route] the route is the mapping that holds the new
    stops, whatever the table held for it, and the other routes are
    unchanged. *)
Theorem update_then_route w route_id new_stops other :
  other <> route_id ->
  FleetService.get_route
    (with_routes w (fst (update_route (routes w) route_id new_stops))) (VStr route_id)
  = Ok (VDict [ ("stops", new_stops) ])
  /\ snd (update_route (routes w) route_id new_stops) = VDict [ ("stops", new_stops) ]
  /\ FleetService.get_route
       (with_routes w (fst (update_route (routes w) route_id new_stops))) (VStr other)
     = FleetService.get_route w (VStr other).
Proof.
  intros Hne. unfold FleetService.get_route, update_route.
  cbn [fst snd with_routes routes dict_get_obj].
  rewrite dict_get_set_same, dict_get_set_other by assumption. auto.
Qed.

Lemma update_then_route_witness :
  FleetService.get_route
    (with_routes (Examples.depot Examples.clear_weather)
       (fst (update_route (routes (Examples.depot Examples.clear_weather)) "R2"
               (VList []))))
    (VStr "R2")
  = Ok (VDict [ ("stops", VList []) ])
  /\ snd (update_route (routes (Examples.depot Examples.clear_weather)) "R2" (VList []))
     = VDict [ ("stops", VList []) ]
  /\ FleetService.get_route
       (with_routes (Examples.depot Examples.clear_weather)
          (fst (update_route (routes (Examples.depot Examples.clear_weather)) "R2"
                  (VList []))))
       (VStr "R1")
     = FleetService.get_route (Examples.depot Examples.clear_weather) (VStr "R1").
Proof.
  apply (update_then_route (Examples.depot Examples.clear_weather) "R2" (VList []) "R1").
  discriminate.
Defined.

(** X27. When no bus record holds a list or a mapping as its route, the
    overview does not raise; it has one entry for each bus whose record is a
    mapping, in the order of the registry, the other records being skipped,
    and each entry carries the route that the route table gives for the
    route of the bus, [None] for a bus without a route. *)
Theorem fleet_overview_lists w :
  Forall (fun kv => forall b, snd kv = VDict b ->
                     is_list (dict_get b "route_id") = false
                     /\ is_dict (dict_get b "route_id") = false) (buses w) ->
  exists overview,
    fleet_overview w = Ok overview
    /\ map (fun e => py_get e "bus_id") overview
       = map (fun kv => Ok (VStr (fst kv)))
           (filter (fun kv => is_dict (snd kv)) (buses w))
    /\ Forall (fun e => exists route_id route,
                 py_get e "route_id" = Ok route_id
                 /\ py_get e "route" = Ok route
                 /\ (if truthy route_id
                     then FleetService.get_route w route_id = Ok route
                     else route = VNone)) overview.
Proof.
  unfold fleet_overview. generalize (buses w). intros bs H.
  induction H as [| [bus_id bus] bs Hbus _ (rest & Hrest & Hids & Hroutes)].
  - exists []. repeat split; constructor.
  - destruct bus as [ | | | | | | b];
      try (exists rest; split; [exact Hrest | split; [exact Hids | exact Hroutes]]).
    destruct (Hbus b eq_refl) as [Hl Hd].
    cbn [overview_from]. rewrite Hrest.
    assert (Hr : exists route,
               (if truthy (dict_get b "route_id")
                then FleetService.get_route w (dict_get b "route_id")
                else Ok VNone) = Ok route
               /\ (if truthy (dict_get b "route_id")
                   then FleetService.get_route w (dict_get b "route_id") = Ok route
                   else route = VNone)).
    { destruct (truthy (dict_get b "route_id")); [|eauto].
      unfold FleetService.get_route.
      destruct (dict_get b "route_id"); cbn; eauto; discriminate. }
    destruct Hr as (route & -> & Hroute). cbn [bind].
    eexists. split; [reflexivity|]. split.
    + cbn. now rewrite Hids.
    + constructor; [|exact Hroutes].
      exists (dict_get b "route_id"), route. repeat split. exact Hroute.
Qed.

Lemma fleet_overview_lists_witness :
  exists overview,
    fleet_overview (Examples.depot Examples.clear_weather) = Ok overview
    /\ map (fun e => py_get e "bus_id") overview
       = map (fun kv => Ok (VStr (fst kv)))
           (filter (fun kv => is_dict (snd kv))
              (buses (Examples.depot Examples.clear_weather)))
    /\ Forall (fun e => exists route_id route,
                 py_get e "route_id" = Ok route_id
                 /\ py_get e "route" = Ok route
                 /\ (if truthy route_id
                     then FleetService.get_route (Examples.depot Examples.clear_weather)
                            route_id = Ok route
                     else route = VNone)) overview.
Proof.
  apply (fleet_overview_lists (Examples.depot Examples.clear_weather)).
  repeat (apply Forall_cons; [intros b [= <-]; split; reflexivity|]).
  apply Forall_nil.
Defined.

End Registry.

Section Subscriptions.
Import SubscriptionService.

(** ** The subscription store *)

Lemma find_app s1 s2 key :
  find (s1 ++ s2)%list key = match find s1 key with Some x => Some x | None => find s2 key end.
Proof.
  induction s1 as [| [k x] s1 IH]; cbn; [reflexivity|].
  destruct (String.eqb k key); [reflexivity | exact IH].
Qed.

Lemma remove_app_fresh s key sub :
  find s key = None -> remove (s ++ [ (key, sub) ])%list key = s.
Proof.
  induction s as [| [k x] s IH]; cbn.
  - now rewrite String.eqb_refl.
  - destruct (String.eqb k key); [discriminate|]. intros H. now rewrite IH.
Qed.

(** X28. Subscribing with identifiers that the store does not hold is
    accepted with status 201 and makes the subscription the last one listed;
    unsubscribing with the same identifiers is then accepted with status 200
    and gives back the store as it was. *)
Theorem subscribe_then_unsubscribe s sub :
  find s (key_of (user_id sub) (bus_id sub) (stop_id sub)) = None ->
  snd (add_subscription s sub)
  = VDict [ ("message", VStr "Subscribed successfully");
            ("subscription", VDict (fields sub));
            ("status_code", VInt 201) ]
  /\ list_subscriptions (fst (add_subscription s sub))
     = (list_subscriptions s ++ [ sub ])%list
  /\ remove_subscription (fst (add_subscription s sub))
       (user_id sub) (bus_id sub) (stop_id sub)
     = (s, VDict [ ("message", VStr "Unsubscribed successfully");
                   ("status_code", VInt 200) ]).
Proof.
  intros Hf. unfold add_subscription. rewrite Hf. cbn [fst snd].
  split; [reflexivity|]. split.
  - unfold list_subscriptions. now rewrite map_app.
  - unfold remove_subscription. rewrite find_app, Hf. cbn [find].
    rewrite String.eqb_refl. now rewrite (remove_app_fresh _ _ _ Hf).
Qed.

Lemma subscribe_then_unsubscribe_witness :
  snd (add_subscription [] Examples.commuter)
  = VDict [ ("message", VStr "Subscribed successfully");
            ("subscription", VDict (fields Examples.commuter));
            ("status_code", VInt 201) ]
  /\ list_subscriptions (fst (add_subscription [] Examples.commuter))
     = (list_subscriptions [] ++ [ Examples.commuter ])%list
  /\ remove_subscription (fst (add_subscription [] Examples.commuter))
       (user_id Examples.commuter) (bus_id Examples.commuter) (stop_id Examples.commuter)
     = ([], VDict [ ("message", VStr "Unsubscribed successfully");
                    ("status_code", VInt 200) ]).
Proof. apply (subscribe_then_unsubscribe [] Examples.commuter). reflexivity. Defined.

(** X29. Once a subscription is stored, a second one that yields the same
    key is refused with status 409 and changes nothing: the answer shows the
    stored subscription, so that a new threshold or channel is not taken up.
    The key joins the three identifiers with colons; identifiers that hold a
    colon can therefore yield the key of another subscription. *)
Theorem duplicate_key_is_refused s sub sub' :
  key_of (user_id sub') (bus_id sub') (stop_id sub')
  = key_of (user_id sub) (bus_id sub) (stop_id sub) ->
  exists existing,
    find (fst (add_subscription s sub)) (key_of (user_id sub) (bus_id sub) (stop_id sub))
    = Some existing
    /\ add_subscription (fst (add_subscription s sub)) sub'
       = (fst (add_subscription s sub),
          VDict [ ("error", VStr "Subscription already exists");
                  ("status_code", VInt 409);
                  ("data", VDict (fields existing)) ]).
Proof.
  intros Hk.
  assert (Hf : exists existing,
             find (fst (add_subscription s sub))
               (key_of (user_id sub) (bus_id sub) (stop_id sub)) = Some existing).
  { unfold add_subscription.
    destruct (find s _) as [x|] eqn:Hx; cbn [fst]; [eauto|].
    rewrite find_app, Hx. cbn. rewrite String.eqb_refl. eauto. }
  destruct Hf as (existing & Hf). exists existing. split; [exact Hf|].
  unfold add_subscription at 1. now rewrite Hk, Hf.
Qed.

Lemma duplicate_key_is_refused_witness :
  exists existing,
    find (fst (add_subscription [] Examples.commuter))
      (key_of (user_id Examples.commuter) (bus_id Examples.commuter)
         (stop_id Examples.commuter))
    = Some existing
    /\ add_subscription (fst (add_subscription [] Examples.commuter)) Examples.namesake
       = (fst (add_subscription [] Examples.commuter),
          VDict [ ("error", VStr "Subscription already exists");
                  ("status_code", VInt 409);
                  ("data", VDict (fields existing)) ]).
Proof.
  apply (duplicate_key_is_refused [] Examples.commuter Examples.namesake). reflexivity.
Defined.

Lemma in_remove s key kv : In kv (remove s key) -> In kv s.
Proof.
  induction s as [| [k0 x] s IH]; cbn; [tauto|].
  destruct (String.eqb k0 key); cbn; [tauto|]. intros [H | H]; [now left | right; now apply IH].
Qed.

Lemma nodup_remove s key : NoDup (map fst s) -> NoDup (map fst (remove s key)).
Proof.
  induction s as [| [k0 x] s IH]; cbn; [constructor|].
  intros H. inversion H as [| ? ? Hn Hs]; subst.
  destruct (String.eqb k0 key); cbn; [exact Hs|].
  constructor; [|now apply IH].
  intros Hin. apply Hn. apply in_map_iff in Hin as (kv & <- & Hkv).
  apply in_map. exact (in_remove _ _ _ Hkv).
Qed.

Lemma find_none_not_in s key : find s key = None -> ~ In key (map fst s).
Proof.
  induction s as [| [k0 x] s IH]; cbn; [tauto|].
  destruct (String.eqb k0 key) eqn:E; [discriminate|].
  intros H [Hk | Hin]; [subst; rewrite String.eqb_refl in E; discriminate | now apply IH].
Qed.

Lemma forall_remove (P : string * Subscription -> Prop) s key :
  Forall P s -> Forall P (remove s key).
Proof.
  intros H. rewrite Forall_forall in *. intros kv Hin. apply H.
  exact (in_remove _ _ _ Hin).
Qed.

Lemma find_remove_same s key : NoDup (map fst s) -> find (remove s key) key = None.
Proof.
  induction s as [| [k0 x] s IH]; cbn; [reflexivity|].
  intros H. inversion H as [| ? ? Hn Hs]; subst.
  destruct (String.eqb k0 key) eqn:E; cbn.
  - apply String.eqb_eq in E. subst k0.
    destruct (find s key) eqn:Hf; [|reflexivity].
    exfalso. apply Hn. clear -Hf.
    induction s as [| [k1 y] s IH]; [discriminate|]. cbn in *.
    destruct (String.eqb k1 key) eqn:E1; [left; now apply String.eqb_eq | right; auto].
  - rewrite E. now apply IH.
Qed.

(** X30. The store keeps its shape through every call: no key is bound twice
    and every subscription is bound to the key of its own identifiers; after
    a removal the key is free again. *)
Theorem store_stays_consistent s sub user bus stop :
  NoDup (map fst s) ->
  Forall (fun kv => fst kv = key_of (user_id (snd kv)) (bus_id (snd kv)) (stop_id (snd kv))) s ->
  (NoDup (map fst (fst (add_subscription s sub)))
   /\ Forall (fun kv => fst kv
                        = key_of (user_id (snd kv)) (bus_id (snd kv)) (stop_id (snd kv)))
        (fst (add_subscription s sub)))
  /\ (NoDup (map fst (fst (remove_subscription s user bus stop)))
      /\ Forall (fun kv => fst kv
                           = key_of (user_id (snd kv)) (bus_id (snd kv)) (stop_id (snd kv)))
           (fst (remove_subscription s user bus stop))
      /\ find (fst (remove_subscription s user bus stop)) (key_of user bus stop) = None).
Proof.
  intros Hnd Hkeys. split.
  - unfold add_subscription.
    destruct (find s _) eqn:Hf; cbn [fst]; [split; assumption|]. split.
    + rewrite map_app. cbn. apply NoDup_app; [exact Hnd | |].
      * constructor; [intros [] | constructor].
      * intros k Hk [<- | []]. exact (find_none_not_in _ _ Hf Hk).
    + apply Forall_app. split; [exact Hkeys | repeat constructor].
  - unfold remove_subscription.
    destruct (find s (key_of user bus stop)) eqn:Hf; cbn [fst].
    + split; [now apply nodup_remove|]. split; [now apply forall_remove|].
      now apply find_remove_same.
    + auto.
Qed.

Lemma store_stays_consistent_witness :
  (NoDup (map fst (fst (add_subscription [] Examples.commuter)))
   /\ Forall (fun kv => fst kv
                        = key_of (user_id (snd kv)) (bus_id (snd kv)) (stop_id (snd kv)))
        (fst (add_subscription [] Examples.commuter)))
  /\ (NoDup (map fst (fst (remove_subscription [] "u1" "B1" "S1")))
      /\ Forall (fun kv => fst kv
                           = key_of (user_id (snd kv)) (bus_id (snd kv)) (stop_id (snd kv)))
           (fst (remove_subscription [] "u1" "B1" "S1"))
      /\ find (fst (remove_subscription [] "u1" "B1" "S1")) (key_of "u1" "B1" "S1") = None).
Proof.
  apply (store_stays_consistent [] Examples.commuter "u1" "B1" "S1"); constructor.
Defined.

End Subscriptions.
